(** * Verification of the learning-schedule adjuster ([adjuster.py])

    A shallow embedding of [LearningAdjuster] and the properties its
    specification states about it.

    Conventions of the embedding.
    - A Python [int] is a [Z]; a Python [float] is an IEEE 754 binary64 value,
      a [spec_float] operated on with precision 53 and exponent bound 1024, so
      that every rounding of the program appears in the model.
    - A JSON object with optional keys is a record of [option] fields, [None]
      standing for an absent key.
    - An exception that leaves a method is the [Raise] outcome of [res].
    - A calendar date is its proleptic Gregorian ordinal ([date.toordinal()]),
      so that [(a - b).days] is a subtraction; the text of a timestamp is kept
      parsed.
    - A field holds the type the data model gives it (an integer count or
      duration, a number of hours, a parsed date); a document with another
      type in a field, or with a date that does not parse, is outside the
      model.
    - [datetime.now()] is an input: every read of the clock made by a method
      is an argument of its model.
    - The model of a method that saves ends with the document it hands to
      [_save_json]: [Ok d] says that the statements before the write have run
      without an exception and that [d] is what the write receives.  The
      write itself ([json.dump], which raises on a value it cannot serialise)
      is not modelled, so no statement here says that a file is written. *)

From Stdlib Require Import ZArith Zpower QArith Qround List Bool String Ascii Lia.
From Stdlib Require Import SpecFloat DecimalString.
Import ListNotations.

Local Open Scope Z_scope.

(* ================================================================== *)
(** * Python numbers *)
(* ================================================================== *)

Module PyNum.

(** Exceptions that reach the caller. *)
Inductive exn : Set :=
| ZeroDivisionError
| OverflowError
| ValueError
| KeyError.

Inductive res (A : Type) : Type :=
| Ok (a : A)
| Raise (e : exn).
Arguments Ok {A} a.
Arguments Raise {A} e.

Definition bind {A B : Type} (m : res A) (k : A -> res B) : res B :=
  match m with
  | Ok a => k a
  | Raise e => Raise e
  end.

Definition prec : Z := 53.
Definition emax : Z := 1024.

(** [int] or [float], the two numeric types the stores hold. *)
Inductive pynum : Set :=
| PyInt (z : Z)
| PyFloat (f : spec_float).

(** The nearest binary64 value to the fraction [a / b] (ties to even), for
    [b > 0]: the division of two integers taken as mantissas with exponent 0.
    It is how Python evaluates [a / b] on integers and reads a decimal literal. *)
Definition float_of_frac (a : Z) (b : positive) : spec_float :=
  match a with
  | Z0 => S754_zero false
  | Zpos p => SFdiv prec emax (S754_finite false p 0) (S754_finite false b 0)
  | Zneg p => SFdiv prec emax (S754_finite true p 0) (S754_finite false b 0)
  end.

Definition is_finite (f : spec_float) : bool :=
  match f with
  | S754_zero _ | S754_finite _ _ _ => true
  | _ => false
  end.

(** [float(z)]: the nearest binary64 value, [OverflowError] beyond the range. *)
Definition float_of_int (z : Z) : res spec_float :=
  let f := binary_normalize prec emax z 0 false in
  if is_finite f then Ok f else Raise OverflowError.

Definition to_float (x : pynum) : res spec_float :=
  match x with
  | PyInt z => float_of_int z
  | PyFloat f => Ok f
  end.

(** The exact value of a number, extended with the two infinities and NaN. *)
Inductive xval : Set :=
| XNaN
| XNegInf
| XFin (q : Q)
| XPosInf.

Definition float_val (f : spec_float) : xval :=
  match f with
  | S754_zero _ => XFin 0
  | S754_infinity false => XPosInf
  | S754_infinity true => XNegInf
  | S754_nan => XNaN
  | S754_finite s m e => XFin (inject_Z (cond_Zopp s (Zpos m)) * Qpower 2 e)
  end.

Definition val (x : pynum) : xval :=
  match x with
  | PyInt z => XFin (inject_Z z)
  | PyFloat f => float_val f
  end.

(** Order of the exact values; NaN is below, above and equal to nothing. *)
Definition xcompare (a b : xval) : option comparison :=
  match a, b with
  | XNaN, _ | _, XNaN => None
  | XNegInf, XNegInf => Some Eq
  | XNegInf, _ => Some Lt
  | _, XNegInf => Some Gt
  | XPosInf, XPosInf => Some Eq
  | XPosInf, _ => Some Gt
  | _, XPosInf => Some Lt
  | XFin p, XFin q => Some (Qcompare p q)
  end.

(** [x < y], [x > y], [x >= y] and [x == y]: Python compares an [int] with a
    [float] by exact value. *)
Definition py_lt (x y : pynum) : bool :=
  match xcompare (val x) (val y) with
  | Some Lt => true
  | _ => false
  end.

Definition py_gt (x y : pynum) : bool := py_lt y x.

Definition py_ge (x y : pynum) : bool :=
  match xcompare (val x) (val y) with
  | Some Gt | Some Eq => true
  | _ => false
  end.

Definition py_eq (x y : pynum) : bool :=
  match xcompare (val x) (val y) with
  | Some Eq => true
  | _ => false
  end.

(** Truth value of a number: false exactly for [0], [0.0] and [-0.0]. *)
Definition py_truthy (x : pynum) : bool :=
  match x with
  | PyInt z => negb (z =? 0)
  | PyFloat (S754_zero _) => false
  | PyFloat _ => true
  end.

(** [x + y]. *)
Definition py_add (x y : pynum) : res pynum :=
  match x, y with
  | PyInt a, PyInt b => Ok (PyInt (a + b))
  | _, _ =>
      bind (to_float x) (fun fx =>
      bind (to_float y) (fun fy =>
      Ok (PyFloat (SFadd prec emax fx fy))))
  end.

(** [x * y]. *)
Definition py_mul (x y : pynum) : res pynum :=
  match x, y with
  | PyInt a, PyInt b => Ok (PyInt (a * b))
  | _, _ =>
      bind (to_float x) (fun fx =>
      bind (to_float y) (fun fy =>
      Ok (PyFloat (SFmul prec emax fx fy))))
  end.

(** [x / y], true division: correctly rounded on two integers. *)
Definition py_truediv (x y : pynum) : res pynum :=
  match x, y with
  | PyInt a, PyInt b =>
      match b with
      | Z0 => Raise ZeroDivisionError
      | Zpos q =>
          let f := float_of_frac a q in
          if is_finite f then Ok (PyFloat f) else Raise OverflowError
      | Zneg q =>
          let f := float_of_frac (- a) q in
          if is_finite f then Ok (PyFloat f) else Raise OverflowError
      end
  | _, _ =>
      bind (to_float x) (fun fx =>
      bind (to_float y) (fun fy =>
      match fy with
      | S754_zero _ => Raise ZeroDivisionError
      | _ => Ok (PyFloat (SFdiv prec emax fx fy))
      end))
  end.

(** [int(x)]: truncation toward zero. *)
Definition py_int (x : pynum) : res Z :=
  match x with
  | PyInt z => Ok z
  | PyFloat (S754_zero _) => Ok 0
  | PyFloat (S754_finite s m e) =>
      Ok (cond_Zopp s (match e with
                       | Zneg k => Z.shiftr (Zpos m) (Zpos k)
                       | _ => Z.shiftl (Zpos m) e
                       end))
  | PyFloat (S754_infinity _) => Raise OverflowError
  | PyFloat S754_nan => Raise ValueError
  end.

(** Nearest integer to a rational, ties to the even one. *)
Definition round_half_even (q : Q) : Z :=
  let fl := Qfloor q in
  match Qcompare (q - inject_Z fl) (1 # 2) with
  | Lt => fl
  | Gt => fl + 1
  | Eq => if Z.even fl then fl else fl + 1
  end.

(** [round(x, ndigits)] for [ndigits >= 0]: an [int] is returned as it is; a
    finite [float] is rounded on its exact value to the nearest multiple of
    [10 ** -ndigits], ties to even, and the nearest binary64 value to that
    decimal is returned. *)
Definition py_round (x : pynum) (ndigits : nat) : pynum :=
  match x with
  | PyInt z => PyInt z
  | PyFloat (S754_finite s m e) =>
      let p := Z.to_pos (10 ^ Z.of_nat ndigits) in
      let k := round_half_even (inject_Z (Zpos m) * Qpower 2 e * inject_Z (Zpos p)) in
      match k with
      | Zpos kp => PyFloat (SFdiv prec emax (S754_finite s kp 0) (S754_finite false p 0))
      | _ => PyFloat (S754_zero s)
      end
  | PyFloat f => PyFloat f
  end.

(** [max(a, b)] and [min(a, b)] return their first argument unless the second
    is strictly beyond it. *)
Definition py_max (a b : pynum) : pynum := if py_gt b a then b else a.
Definition py_min (a b : pynum) : pynum := if py_lt b a then b else a.

(** The literal [1.2]. *)
Definition lit_1_2 : spec_float := float_of_frac 12 10.

End PyNum.

Import PyNum.

(* ================================================================== *)
(** * The two stores *)
(* ================================================================== *)

(** [str(z)] of an integer, as the f-strings of the program print it. *)
Definition py_str (z : Z) : string := NilZero.string_of_int (Z.to_int z).

Definition pydate := Z.

(** A timestamp: its calendar date and the microseconds since midnight. *)
Record pydatetime : Set := {
  dt_date : pydate;
  dt_micros : Z
}.

Definition dflt {A : Type} (d : A) (o : option A) : A :=
  match o with
  | Some a => a
  | None => d
  end.

(** ** Schedule *)

Record Task : Set := {
  id : string;
  description : string;
  duration_minutes : option Z;
  priority : option string
}.

Record DaySchedule : Set := {
  focus : option string;
  tasks : option (list Task)
}.

(** [daily_tasks] keeps the insertion order of the dictionary. *)
Record Schedule : Set := {
  current_phase : option Z;
  daily_tasks : option (list (string * DaySchedule))
}.

(** ** Progress *)

(** An entry of [daily_log] as [complete_task] writes it.  The date is held
    parsed: an entry whose date [datetime.fromisoformat] refuses (it raises
    [ValueError]) is outside the model. *)
Record LogEntry : Set := {
  date : pydatetime;
  task_id : string;
  hours_spent : pynum;
  difficulty_rating : option Z
}.

Record Stats : Set := {
  total_tasks_completed : option Z;
  total_hours_studied : option pynum;
  current_streak_days : option Z;
  longest_streak_days : option Z;
  completion_rate_percent : option pynum;
  average_daily_hours : option pynum
}.

Record PhaseStatus : Set := {
  status : option string;
  progress_percent : option pynum
}.

(** The progress document, over the representation [S] of its
    [overall_stats] entry: the dictionary itself in the JSON file, a reference
    to it in memory. *)
Record ProgressOf (S : Type) : Type := {
  start_date : option pydate;
  daily_log : option (list LogEntry);
  overall_stats : option S;
  phase_progress : option (list (string * PhaseStatus));
  last_updated : option pydatetime
}.
Arguments start_date {S} _.
Arguments daily_log {S} _.
Arguments overall_stats {S} _.
Arguments phase_progress {S} _.
Arguments last_updated {S} _.
Arguments Build_ProgressOf {S} _ _ _ _ _.

(** The progress file. *)
Definition Progress : Type := ProgressOf Stats.

(** The empty dictionary [{}]. *)
Definition empty_stats : Stats :=
  {| total_tasks_completed := None; total_hours_studied := None;
     current_streak_days := None; longest_streak_days := None;
     completion_rate_percent := None; average_daily_hours := None |}.

(** What [_load_json] returns for a missing file. *)
Definition empty_progress : Progress :=
  {| start_date := None; daily_log := None; overall_stats := None;
     phase_progress := None; last_updated := None |}.

(** Assignments [stats[key] = v]. *)
Definition set_total_tasks_completed (v : Z) (s : Stats) : Stats :=
  {| total_tasks_completed := Some v;
     total_hours_studied := total_hours_studied s;
     current_streak_days := current_streak_days s;
     longest_streak_days := longest_streak_days s;
     completion_rate_percent := completion_rate_percent s;
     average_daily_hours := average_daily_hours s |}.

Definition set_total_hours_studied (v : pynum) (s : Stats) : Stats :=
  {| total_tasks_completed := total_tasks_completed s;
     total_hours_studied := Some v;
     current_streak_days := current_streak_days s;
     longest_streak_days := longest_streak_days s;
     completion_rate_percent := completion_rate_percent s;
     average_daily_hours := average_daily_hours s |}.

Definition set_current_streak_days (v : Z) (s : Stats) : Stats :=
  {| total_tasks_completed := total_tasks_completed s;
     total_hours_studied := total_hours_studied s;
     current_streak_days := Some v;
     longest_streak_days := longest_streak_days s;
     completion_rate_percent := completion_rate_percent s;
     average_daily_hours := average_daily_hours s |}.

Definition set_longest_streak_days (v : Z) (s : Stats) : Stats :=
  {| total_tasks_completed := total_tasks_completed s;
     total_hours_studied := total_hours_studied s;
     current_streak_days := current_streak_days s;
     longest_streak_days := Some v;
     completion_rate_percent := completion_rate_percent s;
     average_daily_hours := average_daily_hours s |}.

Definition set_completion_rate_percent (v : pynum) (s : Stats) : Stats :=
  {| total_tasks_completed := total_tasks_completed s;
     total_hours_studied := total_hours_studied s;
     current_streak_days := current_streak_days s;
     longest_streak_days := longest_streak_days s;
     completion_rate_percent := Some v;
     average_daily_hours := average_daily_hours s |}.

Definition set_average_daily_hours (v : pynum) (s : Stats) : Stats :=
  {| total_tasks_completed := total_tasks_completed s;
     total_hours_studied := total_hours_studied s;
     current_streak_days := current_streak_days s;
     longest_streak_days := longest_streak_days s;
     completion_rate_percent := completion_rate_percent s;
     average_daily_hours := Some v |}.

(* ================================================================== *)
(** * The adjuster in memory *)
(* ================================================================== *)

(** The statistics dictionary is a mutable object: the method that obtains it
    with [self.progress.get("overall_stats", {})] holds the dictionary of the
    store when the key is there and a new, unattached one when it is not.
    Dictionaries therefore live in a heap and the store refers to its own by
    location. *)

Definition loc := nat.

Record Mem : Type := {
  progress : ProgressOf loc;
  heap : list Stats
}.

Definition deref (h : list Stats) (l : loc) : Stats := nth l h empty_stats.

Fixpoint assign (h : list Stats) (l : loc) (s : Stats) : list Stats :=
  match h, l with
  | [], _ => []
  | _ :: t, O => s :: t
  | x :: t, S l' => x :: assign t l' s
  end.

(** [_load_json] and what [_save_json] writes. *)
Definition load (p : Progress) : Mem :=
  match overall_stats p with
  | Some st =>
      {| progress := Build_ProgressOf (start_date p) (daily_log p) (Some O)
                       (phase_progress p) (last_updated p);
         heap := [st] |}
  | None =>
      {| progress := Build_ProgressOf (start_date p) (daily_log p) None
                       (phase_progress p) (last_updated p);
         heap := [] |}
  end.

Definition dump (m : Mem) : Progress :=
  let p := progress m in
  Build_ProgressOf (start_date p) (daily_log p)
    (option_map (deref (heap m)) (overall_stats p))
    (phase_progress p) (last_updated p).

(** Methods: state over [Mem], with exceptions. *)
Definition M (A : Type) : Type := Mem -> res (A * Mem).

Definition ret {A : Type} (a : A) : M A := fun m => Ok (a, m).

Definition mbind {A B : Type} (c : M A) (k : A -> M B) : M B :=
  fun m =>
    match c m with
    | Ok (a, m') => k a m'
    | Raise e => Raise e
    end.

Definition lift {A : Type} (r : res A) : M A :=
  fun m =>
    match r with
    | Ok a => Ok (a, m)
    | Raise e => Raise e
    end.

Definition raise {A : Type} (e : exn) : M A := fun _ => Raise e.

Declare Scope py_scope.
Delimit Scope py_scope with py.
Notation "x <- c ;; k" := (mbind c (fun x => k))
  (at level 61, c at next level, right associativity) : py_scope.
Notation "c ;; k" := (mbind c (fun _ => k))
  (at level 61, right associativity) : py_scope.
Local Open Scope py_scope.

(** [self.progress.get("overall_stats", {})]. *)
Definition get_overall_stats : M loc :=
  fun m =>
    match overall_stats (progress m) with
    | Some l => Ok (l, m)
    | None =>
        Ok (List.length (heap m),
            {| progress := progress m; heap := heap m ++ [empty_stats] |})
    end.

(** [stats.get(key)] and [stats[key] = v] through a reference. *)
Definition stats_get {A : Type} (l : loc) (field : Stats -> option A)
  : M (option A) :=
  fun m => Ok (field (deref (heap m) l), m).

Definition stats_set (l : loc) (upd : Stats -> Stats) : M unit :=
  fun m =>
    Ok (tt, {| progress := progress m;
               heap := assign (heap m) l (upd (deref (heap m) l)) |}).

(** [self.progress.get("daily_log", [])] and [self.progress.get("start_date")]. *)
Definition get_daily_log : M (list LogEntry) :=
  fun m => Ok (dflt [] (daily_log (progress m)), m).

Definition get_start_date : M (option pydate) :=
  fun m => Ok (start_date (progress m), m).

(** [self.progress["daily_log"].append(log_entry)], the list created first
    when the key is absent. *)
Definition append_log (e : LogEntry) : M unit :=
  fun m =>
    let p := progress m in
    Ok (tt, {| progress :=
                 Build_ProgressOf (start_date p)
                   (Some (dflt [] (daily_log p) ++ [e]))
                   (overall_stats p) (phase_progress p) (last_updated p);
               heap := heap m |}).

(** [self.progress["overall_stats"] = stats]. *)
Definition set_overall_stats (l : loc) : M unit :=
  fun m =>
    let p := progress m in
    Ok (tt, {| progress :=
                 Build_ProgressOf (start_date p) (daily_log p) (Some l)
                   (phase_progress p) (last_updated p);
               heap := heap m |}).

(** [self.progress["last_updated"] = datetime.now().isoformat()]. *)
Definition set_last_updated (t : pydatetime) : M unit :=
  fun m =>
    let p := progress m in
    Ok (tt, {| progress :=
                 Build_ProgressOf (start_date p) (daily_log p) (overall_stats p)
                   (phase_progress p) (Some t);
               heap := heap m |}).

(* ================================================================== *)
(** * LearningAdjuster *)
(* ================================================================== *)

(** The clock reads of one [complete_task] call, in program order: the log
    entry, the completion rate, the streak and [last_updated]. *)
Record Clock : Set := {
  now_log : pydatetime;
  now_rate : pydatetime;
  now_streak : pydatetime;
  now_saved : pydatetime
}.

(** The acknowledgement [complete_task] returns. *)
Record Ack : Set := {
  ack_status : string;
  ack_task_id : string;
  ack_message : string
}.

Record Recommendation : Set := {
  rec_type : string;
  rec_priority : string;
  rec_message : string;
  rec_action : string
}.

(** [sum(len(day_data.get("tasks", [])) for day_data in ...values())]. *)
Definition total_scheduled_per_week (sched : Schedule) : Z :=
  fold_right Z.add 0
    (map (fun d => Z.of_nat (List.length (dflt [] (tasks (snd d)))))
         (dflt [] (daily_tasks sched))).

(** [_update_completion_rate(stats)]; [now] is its read of the clock. *)
Definition _update_completion_rate (sched : Schedule) (now : pydatetime)
  (stats : loc) : M unit :=
  if total_scheduled_per_week sched =? 0 then ret tt
  else
    start_date <- get_start_date ;;
    match start_date with
    | None => ret tt
    | Some start =>
        let days_elapsed := (dt_date now - start) + 1 in
        w <- lift (py_truediv (PyInt days_elapsed) (PyInt 7)) ;;
        let weeks_elapsed := py_max (PyInt 1) w in
        x <- lift (py_mul (PyInt (total_scheduled_per_week sched)) weeks_elapsed) ;;
        expected_tasks <- lift (py_int x) ;;
        c <- stats_get stats total_tasks_completed ;;
        let completed_tasks := dflt 0 c in
        if expected_tasks >? 0 then
          q <- lift (py_truediv (PyInt completed_tasks) (PyInt expected_tasks)) ;;
          r <- lift (py_mul q (PyInt 100)) ;;
          let completion_rate := py_min (PyInt 100) r in
          stats_set stats (set_completion_rate_percent (py_round completion_rate 1))
        else ret tt
    end.

Definition on_day (d : pydate) (log : LogEntry) : bool :=
  dt_date (date log) =? d.

(** [daily_log[-1]] is [last daily_log no_entry]; the log is not empty where
    it is read. *)
Definition no_entry : LogEntry :=
  {| date := {| dt_date := 0; dt_micros := 0 |}; task_id := EmptyString;
     hours_spent := PyInt 0; difficulty_rating := None |}.

(** [_update_streak()]; [now] is its read of the clock. *)
Definition _update_streak (now : pydatetime) : M unit :=
  stats <- get_overall_stats ;;
  daily_log <- get_daily_log ;;
  match daily_log with
  | [] => ret tt
  | _ :: _ =>
      let today := dt_date now in
      let last_activity := dt_date (date (last daily_log no_entry)) in
      (if last_activity =? today then
         let yesterday := today - 1 in
         let yesterday_activities := filter (on_day yesterday) daily_log in
         cur <- stats_get stats current_streak_days ;;
         if negb (Nat.eqb (List.length yesterday_activities) 0)
            || (dflt 0 cur =? 0)
         then stats_set stats (set_current_streak_days (dflt 0 cur + 1))
         else ret tt
       else
         if today - last_activity >? 1
         then stats_set stats (set_current_streak_days 0)
         else ret tt) ;;
      cur <- stats_get stats current_streak_days ;;
      longest <- stats_get stats longest_streak_days ;;
      (if dflt 0 cur >? dflt 0 longest then
         match cur with
         | Some c => stats_set stats (set_longest_streak_days c)
         | None => raise KeyError
         end
       else ret tt) ;;
      set_overall_stats stats
  end.

(** [complete_task(task_id, hours_spent, difficulty_rating)], up to the
    write of the file. *)
Definition log_entry (now : pydatetime) (task_id : string)
  (hours_spent : option pynum) (difficulty_rating : option Z) : LogEntry :=
  {| date := now;
     task_id := task_id;
     hours_spent := match hours_spent with
                    | Some h => if py_truthy h then h else PyInt 0
                    | None => PyInt 0
                    end;
     difficulty_rating := difficulty_rating |}.

Definition complete_task (sched : Schedule) (clk : Clock) (task_id : string)
  (hours_spent : option pynum) (difficulty_rating : option Z) : M Ack :=
  append_log (log_entry (now_log clk) task_id hours_spent difficulty_rating) ;;
  stats <- get_overall_stats ;;
  c <- stats_get stats total_tasks_completed ;;
  stats_set stats (set_total_tasks_completed (dflt 0 c + 1)) ;;
  match hours_spent with
  | Some h =>
      if py_truthy h then
        t <- stats_get stats total_hours_studied ;;
        t' <- lift (py_add (dflt (PyInt 0) t) h) ;;
        stats_set stats (set_total_hours_studied t')
      else ret tt
  | None => ret tt
  end ;;
  _update_completion_rate sched (now_rate clk) stats ;;
  _update_streak (now_streak clk) ;;
  set_last_updated (now_saved clk) ;;
  ret {| ack_status := "success"; ack_task_id := task_id;
         ack_message := "Task completed!" |}.

(** One call on a progress file: load, then [complete_task] up to the write.
    [Ok p'] gives the document handed to [_save_json]; [Raise e] is an
    exception of the statements before the write, which is then not
    reached.  What the write itself raises is not modelled. *)
Definition run_complete_task (sched : Schedule) (p : Progress) (clk : Clock)
  (task_id : string) (hours_spent : option pynum)
  (difficulty_rating : option Z) : res Progress :=
  match complete_task sched clk task_id hours_spent difficulty_rating (load p) with
  | Ok (_, m) => Ok (dump m)
  | Raise e => Raise e
  end.

(** [_update_streak] alone on a progress document. *)
Definition run_update_streak (p : Progress) (now : pydatetime) : res Progress :=
  match _update_streak now (load p) with
  | Ok (_, m) => Ok (dump m)
  | Raise e => Raise e
  end.

(** ** Recommendations *)

Definition reduce_tasks_rec : Recommendation :=
  {| rec_type := "workload"; rec_priority := "high";
     rec_message := "Completion rate is low. Consider reducing daily task load.";
     rec_action := "reduce_tasks" |}.

Definition increase_difficulty_rec : Recommendation :=
  {| rec_type := "workload"; rec_priority := "medium";
     rec_message := "Excellent progress! Consider increasing challenge level.";
     rec_action := "increase_difficulty" |}.

Definition maintain_rec (current_streak : Z) : Recommendation :=
  {| rec_type := "motivation"; rec_priority := "info";
     rec_message := "Great job! " ++ py_str current_streak
                    ++ " day streak! Keep it up!";
     rec_action := "maintain" |}.

Definition start_streak_rec : Recommendation :=
  {| rec_type := "motivation"; rec_priority := "high";
     rec_message := "Start building your streak today!";
     rec_action := "start_streak" |}.

Definition advance_phase_rec : Recommendation :=
  {| rec_type := "progression"; rec_priority := "medium";
     rec_message := "Ready to advance to the next phase!";
     rec_action := "advance_phase" |}.

(** The three rules of [get_recommendations], each with what it appends. *)
Definition workload_rule (stats : Stats) : list Recommendation :=
  let completion_rate := dflt (PyInt 0) (completion_rate_percent stats) in
  if py_lt completion_rate (PyInt 70) then [reduce_tasks_rec]
  else if py_gt completion_rate (PyInt 90) then [increase_difficulty_rec]
  else [].

Definition streak_rule (stats : Stats) : list Recommendation :=
  let current_streak := dflt 0 (current_streak_days stats) in
  if current_streak >=? 7 then [maintain_rec current_streak]
  else if current_streak =? 0 then [start_streak_rec]
  else [].

Definition phase_rule (sched : Schedule)
  (phase_progress : list (string * PhaseStatus)) : list Recommendation :=
  let current_phase := dflt 1 (current_phase sched) in
  let phase_key := ("phase_" ++ py_str current_phase ++ "_")%string in
  flat_map
    (fun kv =>
       if String.prefix phase_key (fst kv) then
         if py_ge (dflt (PyInt 0) (progress_percent (snd kv))) (PyInt 80)
         then [advance_phase_rec]
         else []
       else [])
    phase_progress.

(** [get_recommendations()]: it only reads, so the dictionary it obtains for
    an absent [overall_stats] is the empty one. *)
Definition get_recommendations (sched : Schedule) (m : Mem)
  : list Recommendation :=
  let stats := match overall_stats (progress m) with
               | Some l => deref (heap m) l
               | None => empty_stats
               end in
  workload_rule stats ++ streak_rule stats
  ++ phase_rule sched (dflt [] (phase_progress (progress m))).

(** ** Statistics *)

Record StatsReport : Type := {
  overall : Stats;
  phases : list (string * (string * pynum));
  recommendations : list Recommendation
}.

(** [len(set(... .date() for log in daily_log))]. *)
Definition days_active (daily_log : list LogEntry) : Z :=
  Z.of_nat (List.length (nodup Z.eq_dec (map (fun log => dt_date (date log))
                                            daily_log))).

(** [get_stats()]. *)
Definition get_stats (sched : Schedule) : M StatsReport :=
  stats <- get_overall_stats ;;
  daily_log <- get_daily_log ;;
  match daily_log with
  | [] => ret tt
  | _ :: _ =>
      t <- stats_get stats total_hours_studied ;;
      let total_hours := dflt (PyInt 0) t in
      if days_active daily_log >? 0 then
        q <- lift (py_truediv total_hours (PyInt (days_active daily_log))) ;;
        stats_set stats (set_average_daily_hours (py_round q 2))
      else stats_set stats (set_average_daily_hours (PyInt 0))
  end ;;
  fun m =>
    Ok ({| overall := deref (heap m) stats;
           phases := map (fun kv =>
                            (fst kv,
                             (dflt "not_started"%string (status (snd kv)),
                              dflt (PyInt 0) (progress_percent (snd kv)))))
                         (dflt [] (phase_progress (progress m)));
           recommendations := get_recommendations sched m |}, m).

(** [get_stats] on a progress file. *)
Definition run_get_stats (sched : Schedule) (p : Progress) : res StatsReport :=
  match get_stats sched (load p) with
  | Ok (r, _) => Ok r
  | Raise e => Raise e
  end.

(** ** Schedule adjustment *)

Fixpoint mapM {A B : Type} (f : A -> res B) (l : list A) : res (list B) :=
  match l with
  | [] => Ok []
  | a :: t => bind (f a) (fun b => bind (mapM f t) (fun t' => Ok (b :: t')))
  end.

(** [task["duration_minutes"] = int(task.get("duration_minutes", 60) * 1.2)]. *)
Definition scale_duration (d : Z) : res Z :=
  bind (py_mul (PyInt d) (PyFloat lit_1_2)) py_int.

Definition increase_task (t : Task) : res Task :=
  bind (scale_duration (dflt 60 (duration_minutes t))) (fun d =>
  Ok {| id := id t; description := description t;
        duration_minutes := Some d; priority := priority t |}).

Definition increase_day (kv : string * DaySchedule)
  : res (string * DaySchedule) :=
  match tasks (snd kv) with
  | None => Ok kv
  | Some ts =>
      bind (mapM increase_task ts) (fun ts' =>
      Ok (fst kv, {| focus := focus (snd kv); tasks := Some ts' |}))
  end.

Definition not_low (t : Task) : bool :=
  match priority t with
  | Some p => negb (String.eqb p "low")
  | None => true
  end.

Definition reduce_day (kv : string * DaySchedule) : string * DaySchedule :=
  (fst kv, {| focus := focus (snd kv);
              tasks := Some (filter not_low (dflt [] (tasks (snd kv)))) |}).

(** [adjust_schedule(adjustment_type)] up to the write: [Ok] gives the
    schedule handed to [_save_json], [Raise e] an exception of the
    adjustment itself.  What the write raises is not modelled. *)
Definition adjust_schedule (adjustment_type : string) (sched : Schedule)
  : res Schedule :=
  if String.eqb adjustment_type "reduce_tasks" then
    Ok {| current_phase := current_phase sched;
          daily_tasks := option_map (map reduce_day) (daily_tasks sched) |}
  else if String.eqb adjustment_type "increase_difficulty" then
    match daily_tasks sched with
    | None => Ok sched
    | Some days =>
        bind (mapM increase_day days) (fun days' =>
        Ok {| current_phase := current_phase sched; daily_tasks := Some days' |})
    end
  else if String.eqb adjustment_type "advance_phase" then
    let current_phase := dflt 1 (current_phase sched) in
    Ok {| current_phase := Some (Z.min (current_phase + 1) 4);
          daily_tasks := daily_tasks sched |}
  else Ok sched.

(* ================================================================== *)
(** * What one call does to the dictionaries *)
(* ================================================================== *)

(** The three updates of [complete_task], each as a function of the
    dictionary it works on; [run_complete_task_eq] below relates them to the
    method and shows which dictionary each of them receives. *)

#[local] Arguments py_add : simpl never.
#[local] Arguments py_mul : simpl never.
#[local] Arguments py_truediv : simpl never.
#[local] Arguments py_int : simpl never.
#[local] Arguments py_round : simpl never.
#[local] Arguments py_min : simpl never.
#[local] Arguments py_max : simpl never.
#[local] Arguments py_lt : simpl never.
#[local] Arguments py_gt : simpl never.
#[local] Arguments py_ge : simpl never.
#[local] Arguments py_truthy : simpl never.
#[local] Arguments py_str : simpl never.
#[local] Arguments total_scheduled_per_week : simpl never.
#[local] Arguments days_active : simpl never.
#[local] Arguments Z.add : simpl never.
#[local] Arguments Z.sub : simpl never.
#[local] Arguments Z.eqb : simpl never.
#[local] Arguments Z.gtb : simpl never.
#[local] Arguments Z.geb : simpl never.

(** Lines 73-78: the counters. *)
Definition count_step (hours_spent : option pynum) (s : Stats) : res Stats :=
  let s1 := set_total_tasks_completed (dflt 0 (total_tasks_completed s) + 1) s in
  match hours_spent with
  | Some h =>
      if py_truthy h then
        bind (py_add (dflt (PyInt 0) (total_hours_studied s1)) h) (fun t' =>
        Ok (set_total_hours_studied t' s1))
      else Ok s1
  | None => Ok s1
  end.

(** The value [_update_completion_rate] stores, when it stores one. *)
Definition expected_tasks_of (total days_elapsed : Z) : res Z :=
  bind (py_truediv (PyInt days_elapsed) (PyInt 7)) (fun w =>
  bind (py_mul (PyInt total) (py_max (PyInt 1) w)) py_int).

Definition rate_of (completed_tasks expected_tasks : Z) : res pynum :=
  bind (py_truediv (PyInt completed_tasks) (PyInt expected_tasks)) (fun q =>
  bind (py_mul q (PyInt 100)) (fun r =>
  Ok (py_round (py_min (PyInt 100) r) 1))).

Definition rate_step (sched : Schedule) (now : pydatetime)
  (start_date : option pydate) (s : Stats) : res Stats :=
  if total_scheduled_per_week sched =? 0 then Ok s
  else
    match start_date with
    | None => Ok s
    | Some start =>
        bind (expected_tasks_of (total_scheduled_per_week sched)
                (dt_date now - start + 1)) (fun expected_tasks =>
        if expected_tasks >? 0 then
          bind (rate_of (dflt 0 (total_tasks_completed s)) expected_tasks)
            (fun r => Ok (set_completion_rate_percent r s))
        else Ok s)
    end.

(** The streak fields after [_update_streak] on a non-empty log. *)
Definition bump_streak (today last_activity : pydate) (yesterday_active : bool)
  (s : Stats) : Stats :=
  if last_activity =? today then
    if yesterday_active || (dflt 0 (current_streak_days s) =? 0)
    then set_current_streak_days (dflt 0 (current_streak_days s) + 1) s
    else s
  else if today - last_activity >? 1 then set_current_streak_days 0 s
  else s.

Definition raise_longest (s : Stats) : res Stats :=
  if dflt 0 (current_streak_days s) >? dflt 0 (longest_streak_days s) then
    match current_streak_days s with
    | Some c => Ok (set_longest_streak_days c s)
    | None => Raise KeyError
    end
  else Ok s.

Definition streak_step (now : pydatetime) (daily_log : list LogEntry)
  (s : Stats) : res Stats :=
  raise_longest
    (bump_streak (dt_date now) (dt_date (date (last daily_log no_entry)))
       (negb (Nat.eqb (List.length (filter (on_day (dt_date now - 1)) daily_log)) 0))
       s).

(** The saved document in terms of the three updates.  With [overall_stats]
    in the file, the three of them work on its dictionary in turn.  Without
    it, the counters and the rate go to a dictionary that [complete_task]
    created and attached nowhere, and the streak update fills a second one,
    which is the one the store keeps. *)
Definition saved_progress (p : Progress) (clk : Clock) (e : LogEntry)
  (s : Stats) : Progress :=
  Build_ProgressOf (start_date p) (Some (dflt [] (daily_log p) ++ [e]))
    (Some s) (phase_progress p) (Some (now_saved clk)).

Lemma app_cons_not_nil {A : Type} (l : list A) (a : A) :
  exists b t, l ++ [a] = b :: t.
Proof. destruct l; simpl; eauto. Qed.

Section Steps.

Variables (sd : option pydate) (dl : option (list LogEntry))
          (pp : option (list (string * PhaseStatus)))
          (lu : option pydatetime).

(** The store with the dictionary at location [0] of the heap. *)
Let mem (os : option loc) (h : list Stats) : Mem :=
  {| progress := Build_ProgressOf sd dl os pp lu; heap := h |}.

Lemma update_completion_rate_eq sched now os s t :
  _update_completion_rate sched now O (mem os (s :: t)) =
  match rate_step sched now sd s with
  | Ok s' => Ok (tt, mem os (s' :: t))
  | Raise e => Raise e
  end.
Proof.
  unfold _update_completion_rate, rate_step, expected_tasks_of, rate_of.
  destruct (total_scheduled_per_week sched =? 0); [reflexivity|].
  unfold mbind, get_start_date, stats_get, stats_set, lift, ret, mem; simpl.
  destruct sd as [start|]; [|reflexivity].
  destruct (py_truediv (PyInt (dt_date now - start + 1)) (PyInt 7)) as [w|];
    [|reflexivity].
  simpl. destruct (py_mul _ (py_max (PyInt 1) w)) as [x|]; [|reflexivity].
  simpl. destruct (py_int x) as [expected|]; [|reflexivity].
  simpl. destruct (expected >? 0); [|reflexivity].
  destruct (py_truediv _ (PyInt expected)) as [q|]; [|reflexivity].
  simpl. destruct (py_mul q (PyInt 100)); reflexivity.
Qed.

Ltac run_monad :=
  cbv beta iota zeta delta
    [_update_streak mbind get_overall_stats get_daily_log stats_get
     stats_set set_overall_stats raise ret mem progress heap overall_stats
     daily_log dflt deref nth assign List.length app].

Ltac split_ifs :=
  repeat match goal with
    | |- context [if ?c then _ else _] =>
        lazymatch c with
        | context [if _ then _ else _] => fail
        | _ => destruct c
        end
    end.

(** [_update_streak] when [overall_stats] is in the store. *)
Lemma update_streak_attached now s t b l :
  dl = Some (b :: l) ->
  _update_streak now (mem (Some O) (s :: t)) =
  match streak_step now (b :: l) s with
  | Ok s' => Ok (tt, mem (Some O) (s' :: t))
  | Raise e => Raise e
  end.
Proof.
  intros ->.
  unfold streak_step, bump_streak, raise_longest. run_monad.
  split_ifs; cbn [current_streak_days longest_streak_days
                  set_current_streak_days];
    split_ifs; try reflexivity;
    destruct (current_streak_days s); reflexivity.
Qed.

(** [_update_streak] when it is not: the dictionary it fills is a new one,
    whatever the other dictionary of the heap holds. *)
Lemma update_streak_detached now s1 b l :
  dl = Some (b :: l) ->
  _update_streak now (mem None [s1]) =
  match streak_step now (b :: l) empty_stats with
  | Ok s' => Ok (tt, mem (Some 1%nat) [s1; s'])
  | Raise e => Raise e
  end.
Proof.
  intros ->.
  unfold streak_step, bump_streak, raise_longest. run_monad.
  split_ifs; cbn [current_streak_days longest_streak_days
                  set_current_streak_days empty_stats];
    split_ifs; reflexivity.
Qed.

End Steps.

Ltac run_complete :=
  cbv beta iota zeta delta
    [run_complete_task complete_task load mbind append_log get_overall_stats
     stats_get stats_set set_last_updated lift ret progress heap
     overall_stats start_date daily_log phase_progress last_updated
     deref nth assign List.length dump option_map saved_progress bind
     count_step].

Lemma run_complete_task_eq sched p clk task_id hours_spent difficulty_rating :
  let e := log_entry (now_log clk) task_id hours_spent difficulty_rating in
  let log' := dflt [] (daily_log p) ++ [e] in
  run_complete_task sched p clk task_id hours_spent difficulty_rating =
    match overall_stats p with
    | Some st =>
        bind (count_step hours_spent st) (fun s1 =>
        bind (rate_step sched (now_rate clk) (start_date p) s1) (fun s2 =>
        bind (streak_step (now_streak clk) log' s2) (fun s3 =>
        Ok (saved_progress p clk e s3))))
    | None =>
        bind (count_step hours_spent empty_stats) (fun s1 =>
        bind (rate_step sched (now_rate clk) (start_date p) s1) (fun _ =>
        bind (streak_step (now_streak clk) log' empty_stats) (fun s3 =>
        Ok (saved_progress p clk e s3))))
    end.
Proof.
  intros e log'.
  destruct p as [sd dl os pp lu].
  destruct (app_cons_not_nil (dflt [] dl) e) as (b & t & Hlog).
  subst log'. fold e.
  assert (Hdl : Some (dflt [] dl ++ [e]) = Some (b :: t)) by (f_equal; exact Hlog).
  destruct os as [st|]; run_complete; fold e;
    change (@nil Stats ++ [empty_stats]) with [empty_stats].
  - destruct hours_spent as [h|];
      [destruct (py_truthy h);
       [destruct (py_add _ h) as [t'|]; [|reflexivity]|]|];
      rewrite update_completion_rate_eq;
      (destruct (rate_step sched (now_rate clk) sd _) as [s2|]; [|reflexivity]);
      rewrite (update_streak_attached _ _ _ _ _ _ _ b t Hdl), Hlog;
      (destruct (streak_step (now_streak clk) (b :: t) s2); reflexivity).
  - destruct hours_spent as [h|];
      [destruct (py_truthy h);
       [destruct (py_add _ h) as [t'|]; [|reflexivity]|]|];
      rewrite update_completion_rate_eq;
      (destruct (rate_step sched (now_rate clk) sd _) as [s2|]; [|reflexivity]);
      rewrite (update_streak_detached _ _ _ _ _ _ b t Hdl), Hlog;
      (destruct (streak_step (now_streak clk) (b :: t) empty_stats);
       reflexivity).
Qed.

(** The statistics of a progress document, [{}] when it has none. *)
Definition stats_of (p : Progress) : Stats := dflt empty_stats (overall_stats p).

(** ** What the updates keep and establish *)

Lemma count_step_frame hours_spent s s' :
  count_step hours_spent s = Ok s' ->
  current_streak_days s' = current_streak_days s
  /\ longest_streak_days s' = longest_streak_days s
  /\ completion_rate_percent s' = completion_rate_percent s
  /\ average_daily_hours s' = average_daily_hours s
  /\ total_tasks_completed s' = Some (dflt 0 (total_tasks_completed s) + 1).
Proof.
  unfold count_step, bind.
  destruct hours_spent as [h|]; [destruct (py_truthy h); [destruct (py_add _ h)|]|];
    intros H; inversion H; subst; cbn; auto.
Qed.

Lemma rate_step_skipped sched now start s :
  total_scheduled_per_week sched = 0 -> rate_step sched now start s = Ok s.
Proof. intros H. unfold rate_step. rewrite H. reflexivity. Qed.

Lemma rate_step_no_start sched now s : rate_step sched now None s = Ok s.
Proof. unfold rate_step. destruct (_ =? 0); reflexivity. Qed.

Lemma rate_step_frame sched now start s s' :
  rate_step sched now start s = Ok s' ->
  current_streak_days s' = current_streak_days s
  /\ longest_streak_days s' = longest_streak_days s
  /\ total_tasks_completed s' = total_tasks_completed s
  /\ total_hours_studied s' = total_hours_studied s
  /\ average_daily_hours s' = average_daily_hours s.
Proof.
  unfold rate_step, bind.
  destruct (_ =? 0); [intros H; inversion H; auto|].
  destruct start as [start|]; [|intros H; inversion H; auto].
  destruct (expected_tasks_of _ _) as [n|]; [|discriminate].
  destruct (n >? 0); [|intros H; inversion H; auto].
  destruct (rate_of _ n); intros H; inversion H; subst; cbn; auto.
Qed.

Lemma bump_streak_frame today last_activity y s :
  longest_streak_days (bump_streak today last_activity y s) = longest_streak_days s
  /\ completion_rate_percent (bump_streak today last_activity y s)
     = completion_rate_percent s
  /\ total_tasks_completed (bump_streak today last_activity y s)
     = total_tasks_completed s.
Proof.
  unfold bump_streak.
  destruct (last_activity =? today);
    [destruct (y || _)|destruct (_ >? 1)]; cbn; auto.
Qed.

Lemma raise_longest_spec s s' :
  raise_longest s = Ok s' ->
  current_streak_days s' = current_streak_days s
  /\ completion_rate_percent s' = completion_rate_percent s
  /\ total_tasks_completed s' = total_tasks_completed s
  /\ dflt 0 (current_streak_days s') <= dflt 0 (longest_streak_days s').
Proof.
  unfold raise_longest.
  destruct (dflt 0 (current_streak_days s) >? dflt 0 (longest_streak_days s))
    eqn:Hgt.
  - destruct (current_streak_days s) as [c|] eqn:Hc; [|discriminate].
    intros H; inversion H; subst; cbn. rewrite Hc. cbn. repeat split; auto. lia.
  - intros H; inversion H; subst. repeat split; auto.
    rewrite Z.gtb_ltb in Hgt. apply Z.ltb_ge in Hgt. exact Hgt.
Qed.

Lemma streak_step_spec now daily_log s s' :
  streak_step now daily_log s = Ok s' ->
  completion_rate_percent s' = completion_rate_percent s
  /\ total_tasks_completed s' = total_tasks_completed s
  /\ dflt 0 (current_streak_days s') <= dflt 0 (longest_streak_days s').
Proof.
  unfold streak_step. intros H.
  apply raise_longest_spec in H. destruct H as (_ & Hr & Ht & Hle).
  rewrite Hr, Ht.
  pose proof (bump_streak_frame (dt_date now)
                (dt_date (date (last daily_log no_entry)))
                (negb (Nat.eqb (List.length (filter (on_day (dt_date now - 1))
                                               daily_log)) 0)) s)
    as (_ & Hr' & Ht').
  auto.
Qed.

Lemma count_step_empty_ok hours_spent :
  exists s1, count_step hours_spent empty_stats = Ok s1.
Proof.
  unfold count_step.
  destruct hours_spent as [[z|f]|]; cbn [total_hours_studied
    set_total_tasks_completed empty_stats dflt].
  - destruct (py_truthy (PyInt z)); [|eauto].
    unfold py_add. cbn. eauto.
  - destruct (py_truthy (PyFloat f)); [|eauto].
    unfold py_add, to_float, float_of_int. cbn. eauto.
  - eauto.
Qed.

(* ================================================================== *)
(** * Sample stores *)
(* ================================================================== *)

Definition at_day (d : pydate) : pydatetime := {| dt_date := d; dt_micros := 0 |}.

(** A call whose four clock reads fall on day [d]. *)
Definition clock_on (d : pydate) : Clock :=
  {| now_log := at_day d; now_rate := at_day d;
     now_streak := at_day d; now_saved := at_day d |}.

Definition sample_task (name : string) (minutes : Z) (prio : string) : Task :=
  {| id := name; description := name; duration_minutes := Some minutes;
     priority := Some prio |}.

(** One task a week, on Monday. *)
Definition one_task_schedule : Schedule :=
  {| current_phase := Some 1;
     daily_tasks :=
       Some [("monday"%string,
              {| focus := Some "basics"%string;
                 tasks := Some [sample_task "t1" 60 "high"] |})] |}.

(** No task on any day. *)
Definition empty_schedule : Schedule :=
  {| current_phase := Some 1;
     daily_tasks := Some [("monday"%string, {| focus := None; tasks := Some [] |})] |}.

(** 1 January 2024 is day 738886. *)
Definition day0 : pydate := 738886.

(** A call that stamps the log entry on day [day0] and reaches the streak
    update after midnight. *)
Definition clock_over_midnight : Clock :=
  {| now_log := at_day day0; now_rate := at_day day0;
     now_streak := at_day (day0 + 1); now_saved := at_day (day0 + 1) |}.

(* ================================================================== *)
(** * Streak *)
(* ================================================================== *)

(** C2.  After every [complete_task] call that returns, the saved statistics
    have [current_streak_days <= longest_streak_days] (absent fields read as
    0, as the program reads them). *)
Theorem current_streak_le_longest_after_complete_task
  sched p clk task_id hours_spent difficulty_rating p' :
  run_complete_task sched p clk task_id hours_spent difficulty_rating = Ok p' ->
  exists s, overall_stats p' = Some s
            /\ dflt 0 (current_streak_days s) <= dflt 0 (longest_streak_days s).
Proof.
  rewrite run_complete_task_eq. unfold bind.
  destruct (overall_stats p) as [st|].
  - destruct (count_step hours_spent st) as [s1|]; [|discriminate].
    destruct (rate_step sched (now_rate clk) (start_date p) s1) as [s2|];
      [|discriminate].
    destruct (streak_step _ _ s2) as [s3|] eqn:H3; [|discriminate].
    intros H; inversion H; subst. exists s3. split; [reflexivity|].
    apply streak_step_spec in H3. tauto.
  - destruct (count_step hours_spent empty_stats) as [s1|]; [|discriminate].
    destruct (rate_step sched (now_rate clk) (start_date p) s1) as [s2|];
      [|discriminate].
    destruct (streak_step _ _ empty_stats) as [s3|] eqn:H3; [|discriminate].
    intros H; inversion H; subst. exists s3. split; [reflexivity|].
    apply streak_step_spec in H3. tauto.
Qed.

(** The store after a first call on day [day0], then after a second one on
    the next day. *)
Definition after_first_call : Progress :=
  Eval vm_compute in
    match run_complete_task one_task_schedule empty_progress (clock_on day0)
            "t1" None None with
    | Ok p => p
    | Raise _ => empty_progress
    end.

Definition after_second_call : Progress :=
  Eval vm_compute in
    match run_complete_task one_task_schedule after_first_call
            (clock_on (day0 + 1)) "t1" (Some (PyFloat (float_of_frac 3 2)))
            (Some 3) with
    | Ok p => p
    | Raise _ => empty_progress
    end.

Lemma current_streak_le_longest_witness :
  exists s, overall_stats after_second_call = Some s
            /\ dflt 0 (current_streak_days s) <= dflt 0 (longest_streak_days s).
Proof.
  apply (current_streak_le_longest_after_complete_task one_task_schedule
           after_first_call (clock_on (day0 + 1)) "t1"
           (Some (PyFloat (float_of_frac 3 2))) (Some 3) after_second_call).
  vm_compute. reflexivity.
Defined.

(** C3.  On a fresh store ([{}], whose streak reads as 0), a [complete_task]
    call whose log entry is stamped on the day that the streak update reads
    as today leaves [current_streak_days] at 1 in the document it saves,
    whatever the schedule and the arguments.  The condition on the clock is
    needed: the call after this theorem passes midnight and saves no
    streak. *)
Theorem fresh_store_streak_is_one
  sched clk task_id hours_spent difficulty_rating :
  dt_date (now_log clk) = dt_date (now_streak clk) ->
  exists p' s,
    run_complete_task sched empty_progress clk task_id hours_spent
      difficulty_rating = Ok p'
    /\ overall_stats p' = Some s
    /\ current_streak_days s = Some 1.
Proof.
  intros Hday. rewrite run_complete_task_eq.
  cbn [overall_stats empty_progress start_date daily_log dflt app].
  destruct (count_step_empty_ok hours_spent) as (s1 & ->).
  unfold bind. rewrite rate_step_no_start.
  unfold streak_step, bump_streak.
  cbn [last log_entry date current_streak_days empty_stats dflt].
  rewrite Hday, Z.eqb_refl, orb_true_r.
  unfold raise_longest.
  cbn [current_streak_days longest_streak_days set_current_streak_days
       empty_stats dflt].
  change (0 + 1 >? 0) with true. cbv beta iota.
  eexists; eexists. split; [reflexivity|]. split; reflexivity.
Qed.

Lemma fresh_store_streak_is_one_witness :
  dt_date (now_log (clock_on day0)) = dt_date (now_streak (clock_on day0))
  /\ exists p' s,
       run_complete_task one_task_schedule empty_progress (clock_on day0)
         "t1" None None = Ok p'
       /\ overall_stats p' = Some s
       /\ current_streak_days s = Some 1.
Proof.
  split.
  - reflexivity.
  - apply (fresh_store_streak_is_one one_task_schedule (clock_on day0) "t1"
             None None).
    reflexivity.
Defined.

(** C3 as stated fails when midnight passes during the call.  The entry is
    stamped on [day0] and the streak update reads the next day as today: the
    last entry is then dated yesterday, neither branch writes the streak, and
    the statistics saved for the fresh store are [{}], with no
    [current_streak_days] (it reads as 0, not 1). *)
Lemma fresh_store_no_streak_over_midnight :
  dt_date (now_streak clock_over_midnight)
  = dt_date (now_log clock_over_midnight) + 1
  /\ exists p',
       run_complete_task one_task_schedule empty_progress clock_over_midnight
         "t1" None None = Ok p'
       /\ overall_stats p' = Some empty_stats
       /\ current_streak_days (stats_of p') = None
       /\ dflt 0 (current_streak_days (stats_of p')) <> 1.
Proof.
  split; [reflexivity|].
  eexists. split; [vm_compute; reflexivity|].
  split; [reflexivity|]. split; [reflexivity|]. cbn. lia.
Qed.

(** [_update_streak] on a progress document with a non-empty log. *)
Lemma run_update_streak_eq p now b t :
  daily_log p = Some (b :: t) ->
  run_update_streak p now =
    bind (streak_step now (b :: t) (stats_of p)) (fun s' =>
    Ok (Build_ProgressOf (start_date p) (daily_log p) (Some s')
          (phase_progress p) (last_updated p))).
Proof.
  destruct p as [sd dl os pp lu]. cbn [daily_log]. intros Hdl.
  unfold run_update_streak, load, stats_of.
  cbn [overall_stats start_date daily_log phase_progress last_updated].
  destruct os as [st|].
  - rewrite (update_streak_attached _ _ _ _ _ _ _ b t Hdl). cbn [dflt].
    unfold bind. destruct (streak_step now (b :: t) st); [|reflexivity].
    subst dl. reflexivity.
  - subst dl. cbn [dflt]. unfold streak_step, bump_streak, raise_longest, bind.
    cbv beta iota zeta delta
      [_update_streak mbind get_overall_stats get_daily_log stats_get
       stats_set set_overall_stats raise ret progress heap overall_stats
       daily_log dflt deref nth assign List.length app dump option_map
       start_date phase_progress last_updated].
    repeat match goal with
      | |- context [if ?c then _ else _] =>
          lazymatch c with
          | context [if _ then _ else _] => fail
          | _ => destruct c
          end
      end; reflexivity.
Qed.

(** C4.  When the last entry of [daily_log] is dated more than one day before
    today, the streak evaluation ([_update_streak]) returns and leaves
    [current_streak_days] at 0. *)
Theorem gap_resets_current_streak p now l e :
  daily_log p = Some (l ++ [e]) ->
  dt_date now - dt_date (date e) > 1 ->
  exists p' s,
    run_update_streak p now = Ok p'
    /\ overall_stats p' = Some s
    /\ current_streak_days s = Some 0.
Proof.
  intros Hlog Hgap.
  destruct (app_cons_not_nil l e) as (b & t & Hbt).
  rewrite Hbt in Hlog. rewrite (run_update_streak_eq p now b t Hlog).
  unfold streak_step, bump_streak. rewrite <- Hbt, last_last.
  assert (Hne : (dt_date (date e) =? dt_date now) = false)
    by (apply Z.eqb_neq; lia).
  assert (Hgt : (dt_date now - dt_date (date e) >? 1) = true)
    by (rewrite Z.gtb_ltb; apply Z.ltb_lt; lia).
  rewrite Hne, Hgt. unfold raise_longest, bind.
  cbn [current_streak_days longest_streak_days set_current_streak_days dflt].
  destruct (0 >? dflt 0 (longest_streak_days (stats_of p)));
    eexists; eexists; (split; [reflexivity|]); split; reflexivity.
Qed.

(** A store last used five days before [day0 + 5], with a streak of 3. *)
Definition stale_streak_store : Progress :=
  {| start_date := None;
     daily_log := Some ([] ++ [log_entry (at_day day0) "t1" None None]);
     overall_stats :=
       Some (set_longest_streak_days 3 (set_current_streak_days 3 empty_stats));
     phase_progress := None;
     last_updated := None |}.

Lemma gap_resets_current_streak_witness :
  exists p' s,
    run_update_streak stale_streak_store (at_day (day0 + 5)) = Ok p'
    /\ overall_stats p' = Some s
    /\ current_streak_days s = Some 0.
Proof.
  apply (gap_resets_current_streak stale_streak_store (at_day (day0 + 5)) []
           (log_entry (at_day day0) "t1" None None)).
  - reflexivity.
  - reflexivity.
Defined.

(** Inside [complete_task] the entry of today is appended before the streak
    is evaluated, so the same store keeps its streak of 3 there. *)
Example complete_task_after_gap_keeps_streak :
  exists p',
    run_complete_task empty_schedule stale_streak_store (clock_on (day0 + 5))
      "t2" None None = Ok p'
    /\ current_streak_days (stats_of p') = Some 3.
Proof. eexists. split; vm_compute; reflexivity. Qed.

(* ================================================================== *)
(** * Completion rate *)
(* ================================================================== *)

(** The arguments of one [complete_task] call. *)
Record Call : Set := {
  call_clock : Clock;
  call_task_id : string;
  call_hours_spent : option pynum;
  call_difficulty_rating : option Z
}.

(** Successive calls, each on the document the previous one saved. *)
Fixpoint run_calls (sched : Schedule) (calls : list Call) (p : Progress)
  : res Progress :=
  match calls with
  | [] => Ok p
  | c :: rest =>
      bind (run_complete_task sched p (call_clock c) (call_task_id c)
              (call_hours_spent c) (call_difficulty_rating c))
           (run_calls sched rest)
  end.

Lemma zero_tasks_one_call sched p clk task_id hours_spent difficulty_rating p' :
  total_scheduled_per_week sched = 0 ->
  run_complete_task sched p clk task_id hours_spent difficulty_rating = Ok p' ->
  completion_rate_percent (stats_of p') = completion_rate_percent (stats_of p).
Proof.
  intros Hzero. rewrite run_complete_task_eq. unfold bind, stats_of.
  destruct (overall_stats p) as [st|]; cbn [dflt].
  - destruct (count_step hours_spent st) as [s1|] eqn:H1; [|discriminate].
    rewrite (rate_step_skipped _ _ _ _ Hzero).
    destruct (streak_step _ _ s1) as [s3|] eqn:H3; [|discriminate].
    intros H; inversion H; subst. cbn [overall_stats saved_progress dflt].
    apply streak_step_spec in H3. apply count_step_frame in H1.
    destruct H3 as (-> & _). tauto.
  - destruct (count_step hours_spent empty_stats) as [s1|]; [|discriminate].
    rewrite (rate_step_skipped _ _ _ _ Hzero).
    destruct (streak_step _ _ empty_stats) as [s3|] eqn:H3; [|discriminate].
    intros H; inversion H; subst. cbn [overall_stats saved_progress dflt].
    apply streak_step_spec in H3. destruct H3 as (-> & _). reflexivity.
Qed.

(** C6.  With a schedule whose days hold no task at all, no sequence of
    [complete_task] calls changes [completion_rate_percent]: the saved
    statistics hold the rate they held before, or still none. *)
Theorem zero_tasks_rate_never_modified sched calls p p' :
  total_scheduled_per_week sched = 0 ->
  run_calls sched calls p = Ok p' ->
  completion_rate_percent (stats_of p') = completion_rate_percent (stats_of p).
Proof.
  intros Hzero. revert p.
  induction calls as [|c rest IH]; intros p; cbn [run_calls].
  - intros H; inversion H; reflexivity.
  - unfold bind.
    destruct (run_complete_task sched p (call_clock c) (call_task_id c)
                (call_hours_spent c) (call_difficulty_rating c))
      as [p1|] eqn:H1; [|discriminate].
    intros H. rewrite (IH p1 H).
    exact (zero_tasks_one_call _ _ _ _ _ _ _ Hzero H1).
Qed.

(** A store that holds a rate of 42.5, and two calls on it. *)
Definition rated_store : Progress :=
  {| start_date := Some day0;
     daily_log := None;
     overall_stats :=
       Some (set_completion_rate_percent (PyFloat (float_of_frac 85 2))
               empty_stats);
     phase_progress := None;
     last_updated := None |}.

Definition two_calls : list Call :=
  [ {| call_clock := clock_on day0; call_task_id := "t1";
       call_hours_spent := Some (PyFloat (float_of_frac 1 2));
       call_difficulty_rating := Some 2 |};
    {| call_clock := clock_on (day0 + 1); call_task_id := "t2";
       call_hours_spent := None; call_difficulty_rating := None |} ].

Definition rated_store_after : Progress :=
  Eval vm_compute in
    match run_calls empty_schedule two_calls rated_store with
    | Ok p => p
    | Raise _ => empty_progress
    end.

Lemma zero_tasks_rate_never_modified_witness :
  completion_rate_percent (stats_of rated_store_after)
  = completion_rate_percent (stats_of rated_store).
Proof.
  apply (zero_tasks_rate_never_modified empty_schedule two_calls rated_store
           rated_store_after).
  - reflexivity.
  - vm_compute. reflexivity.
Defined.

(** With [overall_stats] in the file, the saved rate is the one
    [_update_completion_rate] computes from the incremented counter. *)
Lemma rate_stored_when_stats_present
  sched p clk task_id hours_spent difficulty_rating st p' :
  overall_stats p = Some st ->
  run_complete_task sched p clk task_id hours_spent difficulty_rating = Ok p' ->
  exists s1 s2,
    count_step hours_spent st = Ok s1
    /\ total_tasks_completed s1 = Some (dflt 0 (total_tasks_completed st) + 1)
    /\ rate_step sched (now_rate clk) (start_date p) s1 = Ok s2
    /\ completion_rate_percent (stats_of p') = completion_rate_percent s2.
Proof.
  intros Hst. rewrite run_complete_task_eq, Hst. unfold bind.
  destruct (count_step hours_spent st) as [s1|] eqn:H1; [|discriminate].
  destruct (rate_step _ _ _ s1) as [s2|] eqn:H2; [|discriminate].
  destruct (streak_step _ _ s2) as [s3|] eqn:H3; [|discriminate].
  intros H; inversion H; subst. exists s1, s2.
  apply streak_step_spec in H3. apply count_step_frame in H1.
  unfold stats_of, saved_progress; cbn [overall_stats dflt]. tauto.
Qed.

(** Without it, neither the counter nor the rate reaches the file. *)
Lemma rate_dropped_when_stats_absent
  sched p clk task_id hours_spent difficulty_rating p' :
  overall_stats p = None ->
  run_complete_task sched p clk task_id hours_spent difficulty_rating = Ok p' ->
  completion_rate_percent (stats_of p') = None
  /\ total_tasks_completed (stats_of p') = None.
Proof.
  intros Hst. rewrite run_complete_task_eq, Hst. unfold bind.
  destruct (count_step hours_spent empty_stats) as [s1|]; [|discriminate].
  destruct (rate_step _ _ _ s1) as [s2|]; [|discriminate].
  destruct (streak_step _ _ empty_stats) as [s3|] eqn:H3; [|discriminate].
  intros H; inversion H; subst.
  apply streak_step_spec in H3.
  unfold stats_of, saved_progress; cbn [overall_stats dflt].
  destruct H3 as (-> & -> & _). split; reflexivity.
Qed.

(** A progress file that holds a start date and nothing else. *)
Definition started_store : Progress :=
  {| start_date := Some day0; daily_log := None; overall_stats := None;
     phase_progress := None; last_updated := None |}.

(** C1.  On [started_store], with one task a week, the update computes a rate
    of 100 from one completed task out of one expected, on the dictionary
    [complete_task] made for the absent [overall_stats]; the document that is
    saved has neither that rate nor the counter. *)
Theorem completion_rate_lost_on_first_call :
  rate_step one_task_schedule (at_day day0) (Some day0)
    (set_total_tasks_completed 1 empty_stats)
  = Ok (set_completion_rate_percent (PyInt 100)
          (set_total_tasks_completed 1 empty_stats))
  /\ exists p',
       run_complete_task one_task_schedule started_store (clock_on day0)
         "t1" None None = Ok p'
       /\ overall_stats p'
          = Some (set_longest_streak_days 1
                    (set_current_streak_days 1 empty_stats))
       /\ completion_rate_percent (stats_of p') = None
       /\ total_tasks_completed (stats_of p') = None.
Proof.
  split; [vm_compute; reflexivity|].
  exists (Build_ProgressOf (Some day0)
            (Some [log_entry (at_day day0) "t1" None None])
            (Some (set_longest_streak_days 1
                     (set_current_streak_days 1 empty_stats)))
            None (Some (at_day day0))).
  split; [vm_compute; reflexivity|].
  split; [reflexivity|]. split; reflexivity.
Qed.

(** The quotients are binary64 values.  [61 / 7] is rounded before it is
    multiplied by 7, the product is just below 61 and [int] truncates it;
    [23 / 80] times 100 is just below 28.75 and rounds to 28.7. *)
Example expected_tasks_after_61_days : expected_tasks_of 7 61 = Ok 60.
Proof. vm_compute. reflexivity. Qed.

Example rate_of_23_out_of_80 :
  rate_of 23 80 = Ok (PyFloat (float_of_frac 287 10)).
Proof. vm_compute. reflexivity. Qed.

Example rate_of_3_out_of_7 :
  rate_of 3 7 = Ok (PyFloat (float_of_frac 429 10)).
Proof. vm_compute. reflexivity. Qed.

Example rate_is_capped : rate_of 9 7 = Ok (PyInt 100).
Proof. vm_compute. reflexivity. Qed.

(* ================================================================== *)
(** * Recommendations *)
(* ================================================================== *)

(** [get_recommendations()] on a progress file. *)
Definition recommendations_for (sched : Schedule) (p : Progress)
  : list Recommendation :=
  get_recommendations sched (load p).

Lemma recommendations_for_eq sched p :
  recommendations_for sched p =
    workload_rule (stats_of p) ++ streak_rule (stats_of p)
    ++ phase_rule sched (dflt [] (phase_progress p)).
Proof. destruct p as [sd dl [st|] pp lu]; reflexivity. Qed.

Lemma streak_rule_type stats x :
  In x (streak_rule stats) -> rec_type x = "motivation"%string.
Proof.
  unfold streak_rule.
  destruct (_ >=? 7); [|destruct (_ =? 0)]; cbn [In];
    intros H; repeat destruct H as [<-|H]; try reflexivity; contradiction.
Qed.

Lemma phase_rule_type sched pp x :
  In x (phase_rule sched pp) -> rec_type x = "progression"%string.
Proof.
  unfold phase_rule. rewrite in_flat_map. intros (kv & _ & H).
  destruct (String.prefix _ (fst kv)); [destruct (py_ge _ _)|];
    cbn [In] in H; repeat destruct H as [<-|H]; try reflexivity;
    contradiction.
Qed.

(** The other two rules never give a workload recommendation. *)
Lemma workload_only_from_workload_rule sched p x :
  In x (recommendations_for sched p) ->
  rec_type x = "workload"%string ->
  In x (workload_rule (stats_of p)).
Proof.
  rewrite recommendations_for_eq, !in_app_iff.
  intros [H|[H|H]] Hty; [exact H| |].
  - apply streak_rule_type in H. congruence.
  - apply phase_rule_type in H. congruence.
Qed.

Lemma workload_rule_in sched p x :
  In x (workload_rule (stats_of p)) -> In x (recommendations_for sched p).
Proof. rewrite recommendations_for_eq, in_app_iff. auto. Qed.

(** The order of exact values around the two thresholds. *)
Lemma below_70_not_above_90 r :
  py_lt r (PyInt 70) = true -> py_gt r (PyInt 90) = false.
Proof.
  unfold py_gt, py_lt, xcompare. cbn [val].
  destruct (val r) as [| |q|]; cbv beta iota;
    try discriminate; try reflexivity.
  destruct (Qcompare_spec q (inject_Z 70)) as [?|Hlt|?]; try discriminate.
  intros _. destruct (Qcompare_spec (inject_Z 90) q) as [?|Hlt'|?];
    try reflexivity.
  exfalso. assert (H : (inject_Z 90 < inject_Z 70)%Q)
    by (eapply Qlt_trans; eauto).
  discriminate H.
Qed.

Lemma exactly_70_neither r :
  py_eq r (PyInt 70) = true ->
  py_lt r (PyInt 70) = false /\ py_gt r (PyInt 90) = false.
Proof.
  unfold py_eq, py_gt, py_lt, xcompare. cbn [val].
  destruct (val r) as [| |q|]; cbv beta iota; try discriminate.
  destruct (Qcompare_spec q (inject_Z 70)) as [Heq|?|?]; try discriminate.
  intros _. split; [reflexivity|].
  destruct (Qcompare_spec (inject_Z 90) q) as [?|Hlt'|?]; try reflexivity.
  exfalso. rewrite Heq in Hlt'. discriminate Hlt'.
Qed.

Lemma exactly_90_neither r :
  py_eq r (PyInt 90) = true ->
  py_lt r (PyInt 70) = false /\ py_gt r (PyInt 90) = false.
Proof.
  unfold py_eq, py_gt, py_lt, xcompare. cbn [val].
  destruct (val r) as [| |q|]; cbv beta iota; try discriminate.
  destruct (Qcompare_spec q (inject_Z 90)) as [Heq|?|?]; try discriminate.
  intros _. split.
  - destruct (Qcompare_spec q (inject_Z 70)) as [?|Hlt'|?]; try reflexivity.
    exfalso. rewrite Heq in Hlt'. discriminate Hlt'.
  - destruct (Qcompare_spec (inject_Z 90) q) as [?|Hlt'|?]; try reflexivity.
    exfalso. rewrite Heq in Hlt'. discriminate Hlt'.
Qed.

Lemma reduce_in_workload_rule stats :
  In reduce_tasks_rec (workload_rule stats)
  <-> py_lt (dflt (PyInt 0) (completion_rate_percent stats)) (PyInt 70) = true.
Proof.
  unfold workload_rule.
  destruct (py_lt _ (PyInt 70)); [cbn; intuition|].
  destruct (py_gt _ (PyInt 90)); cbn; split; try discriminate.
  - intros [H|[]]. discriminate H.
  - intros [].
Qed.

Lemma increase_in_workload_rule stats :
  In increase_difficulty_rec (workload_rule stats)
  <-> py_gt (dflt (PyInt 0) (completion_rate_percent stats)) (PyInt 90) = true.
Proof.
  unfold workload_rule.
  destruct (py_lt _ (PyInt 70)) eqn:Hlt.
  - rewrite (below_70_not_above_90 _ Hlt). cbn. split; [|discriminate].
    intros [H|[]]. discriminate H.
  - destruct (py_gt _ (PyInt 90)); cbn; [intuition|].
    split; [intros []|discriminate].
Qed.

(** C5.  Whatever the store and the schedule, with [r] the stored rate (0
    when absent): [reduce_tasks] (workload, high) is recommended exactly when
    [r < 70], [increase_difficulty] (workload, medium) exactly when [r > 90],
    these two are the only workload recommendations there can be, and none
    is given when [r] is exactly 70 or exactly 90. *)
Theorem workload_recommendation_thresholds sched p :
  let r := dflt (PyInt 0) (completion_rate_percent (stats_of p)) in
  let recs := recommendations_for sched p in
  (In reduce_tasks_rec recs <-> py_lt r (PyInt 70) = true)
  /\ (In increase_difficulty_rec recs <-> py_gt r (PyInt 90) = true)
  /\ (forall x, In x recs -> rec_type x = "workload"%string ->
        x = reduce_tasks_rec \/ x = increase_difficulty_rec)
  /\ (py_eq r (PyInt 70) = true \/ py_eq r (PyInt 90) = true ->
      forall x, In x recs -> rec_type x <> "workload"%string).
Proof.
  intros r recs. subst r recs.
  assert (Hred : In reduce_tasks_rec (recommendations_for sched p)
                 <-> In reduce_tasks_rec (workload_rule (stats_of p))).
  { split; [|apply workload_rule_in].
    intros H. apply (workload_only_from_workload_rule sched p _ H). reflexivity. }
  assert (Hinc : In increase_difficulty_rec (recommendations_for sched p)
                 <-> In increase_difficulty_rec (workload_rule (stats_of p))).
  { split; [|apply workload_rule_in].
    intros H. apply (workload_only_from_workload_rule sched p _ H). reflexivity. }
  assert (Hw : forall x, In x (workload_rule (stats_of p)) ->
                 x = reduce_tasks_rec \/ x = increase_difficulty_rec).
  { intros x. unfold workload_rule.
    destruct (py_lt _ _); [|destruct (py_gt _ _)]; cbn [In];
      intros H; repeat destruct H as [<-|H]; auto; contradiction. }
  split; [rewrite Hred; apply reduce_in_workload_rule|].
  split; [rewrite Hinc; apply increase_in_workload_rule|].
  split.
  - intros x Hin Hty. apply Hw. exact (workload_only_from_workload_rule _ _ _ Hin Hty).
  - intros Hex x Hin Hty.
    pose proof (workload_only_from_workload_rule _ _ _ Hin Hty) as Hx.
    assert (Hno : py_lt (dflt (PyInt 0) (completion_rate_percent (stats_of p)))
                    (PyInt 70) = false
                  /\ py_gt (dflt (PyInt 0) (completion_rate_percent (stats_of p)))
                       (PyInt 90) = false).
    { destruct Hex as [H|H];
        [apply exactly_70_neither|apply exactly_90_neither]; exact H. }
    unfold workload_rule in Hx. destruct Hno as (H1 & H2).
    rewrite H1, H2 in Hx. exact Hx.
Qed.

(** A store whose statistics hold only the rate [r]. *)
Definition store_with_rate (r : pynum) : Progress :=
  {| start_date := None; daily_log := None;
     overall_stats := Some (set_completion_rate_percent r empty_stats);
     phase_progress := None; last_updated := None |}.

(** The rates the specification tries: 69.9, 70, 90 and 90.1. *)
Example recommendations_at_69_9 :
  recommendations_for one_task_schedule
    (store_with_rate (PyFloat (float_of_frac 699 10)))
  = [reduce_tasks_rec; start_streak_rec].
Proof. vm_compute. reflexivity. Qed.

Example recommendations_at_70 :
  recommendations_for one_task_schedule (store_with_rate (PyInt 70))
  = [start_streak_rec]
  /\ recommendations_for one_task_schedule
       (store_with_rate (PyFloat (float_of_frac 70 1)))
     = [start_streak_rec].
Proof. split; vm_compute; reflexivity. Qed.

Example recommendations_at_90 :
  recommendations_for one_task_schedule (store_with_rate (PyInt 90))
  = [start_streak_rec].
Proof. vm_compute. reflexivity. Qed.

Example recommendations_at_90_1 :
  recommendations_for one_task_schedule
    (store_with_rate (PyFloat (float_of_frac 901 10)))
  = [increase_difficulty_rec; start_streak_rec].
Proof. vm_compute. reflexivity. Qed.

Lemma workload_recommendation_thresholds_witness :
  In reduce_tasks_rec
     (recommendations_for one_task_schedule
        (store_with_rate (PyFloat (float_of_frac 699 10)))).
Proof.
  apply (proj1 (workload_recommendation_thresholds one_task_schedule
                  (store_with_rate (PyFloat (float_of_frac 699 10))))).
  vm_compute. reflexivity.
Defined.

(** C10.  When the statistics hold no [completion_rate_percent] (or the store
    holds no statistics), the rate reads as 0 and [reduce_tasks] is
    recommended, first in the list. *)
Theorem missing_rate_recommends_reduce_tasks sched p :
  completion_rate_percent (stats_of p) = None ->
  exists rest, recommendations_for sched p = reduce_tasks_rec :: rest.
Proof.
  intros Hnone. rewrite recommendations_for_eq. unfold workload_rule.
  rewrite Hnone. cbn [dflt].
  change (py_lt (PyInt 0) (PyInt 70)) with true. cbv beta iota.
  eexists. reflexivity.
Qed.

Lemma missing_rate_recommends_reduce_tasks_witness :
  exists rest,
    recommendations_for one_task_schedule after_first_call
    = reduce_tasks_rec :: rest.
Proof.
  apply (missing_rate_recommends_reduce_tasks one_task_schedule after_first_call).
  reflexivity.
Defined.

(* ================================================================== *)
(** * Statistics *)
(* ================================================================== *)

(** The ["overall"] entry of what [get_stats()] returns. *)
Definition get_stats_overall (sched : Schedule) (p : Progress) : res Stats :=
  bind (run_get_stats sched p) (fun r => Ok (overall r)).

(** The dates on which the log has an entry. *)
Definition log_dates (daily_log : list LogEntry) : list pydate :=
  map (fun log => dt_date (date log)) daily_log.

Lemma days_active_distinct daily_log :
  exists ds,
    NoDup ds
    /\ (forall d, In d ds <-> In d (log_dates daily_log))
    /\ days_active daily_log = Z.of_nat (List.length ds).
Proof.
  exists (nodup Z.eq_dec (log_dates daily_log)). split; [apply NoDup_nodup|].
  split; [intros d; apply nodup_In|reflexivity].
Qed.

Lemma days_active_positive b t : (days_active (b :: t) >? 0) = true.
Proof.
  unfold days_active.
  assert (H : In (dt_date (date b))
                (nodup Z.eq_dec (map (fun log => dt_date (date log)) (b :: t))))
    by (apply nodup_In; left; reflexivity).
  destruct (nodup _ _) as [|x l]; [contradiction|].
  cbn [List.length]. rewrite Z.gtb_ltb. apply Z.ltb_lt. lia.
Qed.

Lemma get_stats_overall_eq sched p :
  get_stats_overall sched p =
    match dflt [] (daily_log p) with
    | [] => Ok (stats_of p)
    | b :: t =>
        bind (py_truediv (dflt (PyInt 0) (total_hours_studied (stats_of p)))
                (PyInt (days_active (b :: t))))
          (fun q => Ok (set_average_daily_hours (py_round q 2) (stats_of p)))
    end.
Proof.
  destruct p as [sd dl os pp lu].
  unfold get_stats_overall, run_get_stats, stats_of.
  cbn [daily_log overall_stats].
  destruct dl as [[|b t]|]; destruct os as [st|];
    cbv beta iota zeta delta
      [get_stats load mbind get_overall_stats get_daily_log stats_get
       stats_set lift ret progress heap overall_stats start_date daily_log
       phase_progress last_updated dflt deref nth assign List.length app
       bind overall];
    try reflexivity;
    rewrite days_active_positive;
    destruct (py_truediv _ (PyInt (days_active (b :: t)))); reflexivity.
Qed.

(** C9, as the program has it.  With entries in [daily_log], [get_stats]
    returns [average_daily_hours] as [total_hours_studied] (0 when absent)
    divided by the number of distinct dates of the log, rounded to two
    decimals, or raises what the division raises.  With an empty or absent
    log it returns the statistics as they are stored, [average_daily_hours]
    included. *)
Theorem average_daily_hours_over_distinct_days sched p :
  exists ds,
    NoDup ds
    /\ (forall d, In d ds <-> In d (log_dates (dflt [] (daily_log p))))
    /\ get_stats_overall sched p =
         match dflt [] (daily_log p) with
         | [] => Ok (stats_of p)
         | _ :: _ =>
             bind (py_truediv
                     (dflt (PyInt 0) (total_hours_studied (stats_of p)))
                     (PyInt (Z.of_nat (List.length ds))))
               (fun q =>
                  Ok (set_average_daily_hours (py_round q 2) (stats_of p)))
         end.
Proof.
  destruct (days_active_distinct (dflt [] (daily_log p))) as (ds & Hnd & Hin & Hlen).
  exists ds. split; [exact Hnd|]. split; [exact Hin|].
  rewrite get_stats_overall_eq.
  destruct (dflt [] (daily_log p)) as [|b t]; [reflexivity|].
  rewrite Hlen. reflexivity.
Qed.

(** Three entries on two days, 4.5 hours in all: 2.25 hours a day. *)
Definition two_day_store : Progress :=
  {| start_date := Some day0;
     daily_log :=
       Some [log_entry (at_day day0) "t1" (Some (PyInt 2)) None;
             log_entry (at_day day0) "t2" (Some (PyFloat (float_of_frac 3 2))) None;
             log_entry (at_day (day0 + 1)) "t1" (Some (PyInt 1)) None];
     overall_stats :=
       Some (set_total_hours_studied (PyFloat (float_of_frac 9 2)) empty_stats);
     phase_progress := None;
     last_updated := None |}.

Example average_over_two_days :
  get_stats_overall one_task_schedule two_day_store
  = Ok (set_average_daily_hours (PyFloat (float_of_frac 9 4))
          (stats_of two_day_store)).
Proof. vm_compute. reflexivity. Qed.

(** A store with an empty log whose statistics hold an average of 2.5. *)
Definition stale_average_store : Progress :=
  {| start_date := None;
     daily_log := Some [];
     overall_stats :=
       Some (set_average_daily_hours (PyFloat (float_of_frac 5 2)) empty_stats);
     phase_progress := None;
     last_updated := None |}.

(** C9 as stated fails on an empty log: [get_stats] does not give 0 there.
    On a fresh store the field stays absent, and a stored value is returned
    as it is. *)
Lemma average_daily_hours_untouched_on_empty_log :
  (exists s, get_stats_overall one_task_schedule empty_progress = Ok s
             /\ average_daily_hours s = None)
  /\ (exists s, get_stats_overall one_task_schedule stale_average_store = Ok s
                /\ average_daily_hours s = Some (PyFloat (float_of_frac 5 2))
                /\ py_eq (PyFloat (float_of_frac 5 2)) (PyInt 0) = false).
Proof.
  split.
  - exists empty_stats. split; reflexivity.
  - exists (set_average_daily_hours (PyFloat (float_of_frac 5 2)) empty_stats).
    split; [reflexivity|]. split; [reflexivity|]. vm_compute. reflexivity.
Qed.

(* ================================================================== *)
(** * Schedule adjustment *)
(* ================================================================== *)

(** C8.  [advance_phase] sets [current_phase] to its value (1 when absent)
    plus one, capped at 4, and touches nothing else; from phase 4 the
    schedule is saved as it was. *)
Theorem advance_phase_capped_at_4 :
  (forall sched,
     adjust_schedule "advance_phase" sched
     = Ok {| current_phase := Some (Z.min (dflt 1 (current_phase sched) + 1) 4);
             daily_tasks := daily_tasks sched |})
  /\ (forall days,
        adjust_schedule "advance_phase"
          {| current_phase := Some 4; daily_tasks := days |}
        = Ok {| current_phase := Some 4; daily_tasks := days |}).
Proof. split; intros; reflexivity. Qed.

Example advance_from_phase_2 :
  adjust_schedule "advance_phase"
    {| current_phase := Some 2; daily_tasks := None |}
  = Ok {| current_phase := Some 3; daily_tasks := None |}.
Proof. reflexivity. Qed.

(** ** Binary64 rounding of [d * 1.2]

    [int(d * 1.2)] goes through two roundings, [float(d)] and the product.
    The lemmas below follow the rounding of [SpecFloat] step by step and
    bound its error by half a unit in the last place, which is enough to
    place the product between two consecutive integers. *)

Lemma digits2_pos_bounds p :
  2 ^ (Zpos (digits2_pos p) - 1) <= Zpos p < 2 ^ Zpos (digits2_pos p).
Proof.
  induction p as [p IH|p IH|]; cbn [digits2_pos].
  - rewrite Pos2Z.inj_succ.
    replace (Z.succ (Zpos (digits2_pos p)) - 1) with (Z.succ (Zpos (digits2_pos p) - 1)) by lia.
    rewrite !Z.pow_succ_r by lia. lia.
  - rewrite Pos2Z.inj_succ.
    replace (Z.succ (Zpos (digits2_pos p)) - 1) with (Z.succ (Zpos (digits2_pos p) - 1)) by lia.
    rewrite !Z.pow_succ_r by lia. lia.
  - cbn. lia.
Qed.

Lemma digits2_pos_unique p d :
  2 ^ (d - 1) <= Zpos p < 2 ^ d -> Zpos (digits2_pos p) = d.
Proof.
  intros [Hlo Hhi].
  pose proof (digits2_pos_bounds p) as [Hlo' Hhi'].
  assert (Hd : 0 < d).
  { destruct (Z_lt_le_dec 0 d) as [?|Hle]; [assumption|].
    exfalso. destruct (Z.eq_dec d 0) as [->|]; [cbn in Hhi; lia|].
    rewrite Z.pow_neg_r in Hhi by lia. lia. }
  destruct (Z.lt_trichotomy (Zpos (digits2_pos p)) d) as [Hlt|[Heq|Hgt]];
    [exfalso|exact Heq|exfalso].
  - assert (2 ^ Zpos (digits2_pos p) <= 2 ^ (d - 1))
      by (apply Z.pow_le_mono_r; lia). lia.
  - assert (2 ^ d <= 2 ^ (Zpos (digits2_pos p) - 1))
      by (apply Z.pow_le_mono_r; lia). lia.
Qed.

(** The record [mrs] describes [m0] shifted right by [n] bits. *)
Definition shr_inv (m0 n : Z) (mrs : shr_record) : Prop :=
  let rem := m0 - shr_m mrs * 2 ^ n in
  0 <= shr_m mrs
  /\ match shr_r mrs, shr_s mrs with
     | false, false => rem = 0
     | false, true => 0 < 2 * rem < 2 ^ n
     | true, false => 2 * rem = 2 ^ n
     | true, true => 2 ^ n < 2 * rem < 2 * 2 ^ n
     end.

Lemma shr_1_inv m0 n mrs :
  0 <= n -> shr_inv m0 n mrs -> shr_inv m0 (n + 1) (shr_1 mrs).
Proof.
  intros Hn. unfold shr_inv. destruct mrs as [m r s]. cbn [shr_m shr_r shr_s].
  rewrite Z.pow_add_r by lia. change (2 ^ 1) with 2.
  assert (Hp : 0 < 2 ^ n) by (apply Z.pow_pos_nonneg; lia).
  intros [Hm H].
  destruct m as [|[p|p|]|p]; try lia; cbn [shr_1 shr_m shr_r shr_s orb];
    destruct r, s; cbn [orb]; split; try lia.
Qed.

Lemma iter_shr_1_inv m0 p : forall n mrs,
  0 <= n -> shr_inv m0 n mrs -> shr_inv m0 (n + Zpos p) (iter_pos shr_1 p mrs).
Proof.
  induction p as [p IH|p IH|]; intros n mrs Hn H; cbn [iter_pos].
  - replace (n + Zpos p~1) with (n + 1 + Zpos p + Zpos p) by lia.
    apply IH; [lia|]. apply IH; [lia|]. apply shr_1_inv; assumption.
  - replace (n + Zpos p~0) with (n + Zpos p + Zpos p) by lia.
    apply IH; [lia|]. apply IH; assumption.
  - apply shr_1_inv; assumption.
Qed.

Lemma round_nearest_even_inv m0 n mrs :
  0 <= n -> shr_inv m0 n mrs ->
  let R := round_nearest_even (shr_m mrs) (loc_of_shr_record mrs) in
  (R = shr_m mrs \/ R = shr_m mrs + 1)
  /\ 2 * R * 2 ^ n - 2 ^ n <= 2 * m0 <= 2 * R * 2 ^ n + 2 ^ n.
Proof.
  intros Hn. unfold shr_inv. destruct mrs as [m r s]. cbn [shr_m shr_r shr_s].
  assert (Hp : 0 < 2 ^ n) by (apply Z.pow_pos_nonneg; lia).
  intros [Hm H].
  destruct r, s; cbn [loc_of_shr_record round_nearest_even];
    try destruct (Z.even m); split; auto; lia.
Qed.

Lemma shr_inv_rem m0 n mrs :
  0 <= n -> shr_inv m0 n mrs ->
  shr_m mrs * 2 ^ n <= m0 < (shr_m mrs + 1) * 2 ^ n.
Proof.
  intros Hn. unfold shr_inv. destruct mrs as [m r s]. cbn [shr_m shr_r shr_s].
  assert (Hp : 0 < 2 ^ n) by (apply Z.pow_pos_nonneg; lia).
  intros [Hm H]. destruct r, s; lia.
Qed.

Lemma fexp_normal d e :
  -1074 <= d + e - 53 -> fexp prec emax (d + e) - e = d - 53.
Proof. unfold fexp, emin, prec, emax. lia. Qed.

Lemma second_round s R e' :
  2 ^ 52 <= R <= 2 ^ 53 -> -1074 <= e' -> e' + 1 <= 971 ->
  exists M E,
    (let '(mrs'', e'') := shr_fexp prec emax R e' loc_Exact in
     match shr_m mrs'' with
     | Z0 => S754_zero s
     | Zpos m => if e'' <=? emax - prec then S754_finite s m e''
                 else S754_infinity s
     | Zneg _ => S754_nan
     end) = S754_finite s M E
    /\ (E = e' \/ E = e' + 1)
    /\ Zpos M * 2 ^ (E - e') = R
    /\ 2 ^ 52 <= Zpos M < 2 ^ 53.
Proof.
  intros HR He Ho.
  destruct R as [|r|r]; try (exfalso; lia).
  destruct (Z.eq_dec (Zpos r) (2 ^ 53)) as [Heq|Hne].
  - rewrite Heq. exists (Z.to_pos (2 ^ 52)), (e' + 1).
    unfold shr_fexp. change (Zdigits2 (2 ^ 53)) with 54.
    rewrite (fexp_normal 54 e') by lia.
    change (54 - 53) with 1. unfold shr.
    cbn [shr_record_of_loc iter_pos shr_1 shr_m].
    change (2 ^ 53) with (Zpos (Z.to_pos (2 ^ 53))).
    cbn [Z.to_pos Z.pow Z.pow_pos Pos.iter Z.mul Pos.mul shr_1 shr_m
         shr_record_of_loc].
    assert (Hle : (e' + 1 <=? emax - prec) = true)
      by (apply Z.leb_le; unfold emax, prec; lia).
    rewrite Hle. split; [reflexivity|]. split; [right; reflexivity|].
    replace (e' + 1 - e') with 1 by lia. split; [reflexivity|].
    split; [apply Z.le_refl|reflexivity].
  - exists r, e'.
    assert (Hd : Zpos (digits2_pos r) = 53)
      by (apply digits2_pos_unique; change (53 - 1) with 52; lia).
    unfold shr_fexp. cbn [Zdigits2]. rewrite Hd.
    rewrite (fexp_normal 53 e') by lia.
    change (53 - 53) with 0. unfold shr. cbn [shr_record_of_loc shr_m].
    assert (Hle : (e' <=? emax - prec) = true)
      by (apply Z.leb_le; unfold emax, prec; lia).
    rewrite Hle. split; [reflexivity|]. split; [left; reflexivity|].
    rewrite Z.sub_diag, Z.pow_0_r. split; lia.
Qed.

Lemma binary_round_aux_spec s P e n :
  n = Zpos (digits2_pos P) - 53 ->
  0 <= n -> -1074 <= e + n -> e + n + 1 <= 971 ->
  exists M E,
    binary_round_aux prec emax s (Zpos P) e loc_Exact = S754_finite s M E
    /\ (E = e + n \/ E = e + n + 1)
    /\ 2 * (Zpos M * 2 ^ (E - e)) - 2 ^ n <= 2 * Zpos P
       <= 2 * (Zpos M * 2 ^ (E - e)) + 2 ^ n
    /\ 2 ^ 52 <= Zpos M < 2 ^ 53.
Proof.
  intros Hn Hn0 He Ho.
  pose proof (digits2_pos_bounds P) as [Hlo Hhi].
  assert (Hpn : 0 < 2 ^ n) by (apply Z.pow_pos_nonneg; lia).
  assert (Hlo' : 2 ^ 52 * 2 ^ n <= Zpos P).
  { rewrite <- Z.pow_add_r by lia.
    replace (52 + n) with (Zpos (digits2_pos P) - 1) by lia. exact Hlo. }
  assert (Hhi' : Zpos P < 2 ^ 53 * 2 ^ n).
  { rewrite <- Z.pow_add_r by lia.
    replace (53 + n) with (Zpos (digits2_pos P)) by lia. exact Hhi. }
  unfold binary_round_aux.
  assert (Hshift : fexp prec emax (Zdigits2 (Zpos P) + e) - e = n).
  { cbn [Zdigits2]. rewrite fexp_normal by lia. lia. }
  unfold shr_fexp at 1. rewrite Hshift.
  assert (Hinv0 : shr_inv (Zpos P) 0 (shr_record_of_loc (Zpos P) loc_Exact)).
  { unfold shr_inv. cbn [shr_record_of_loc shr_m shr_r shr_s].
    rewrite Z.pow_0_r. split; lia. }
  assert (Hstage : exists mrs,
             shr (shr_record_of_loc (Zpos P) loc_Exact) e n = (mrs, e + n)
             /\ shr_inv (Zpos P) n mrs).
  { unfold shr. destruct n as [|np|np]; [| |lia].
    - eexists. split; [rewrite Z.add_0_r; reflexivity|exact Hinv0].
    - eexists. split; [reflexivity|].
      apply (iter_shr_1_inv (Zpos P) np 0 _ (Z.le_refl 0) Hinv0). }
  destruct Hstage as (mrs & -> & Hinv).
  pose proof (round_nearest_even_inv _ _ _ Hn0 Hinv) as [HR Hbound].
  set (R := round_nearest_even (shr_m mrs) (loc_of_shr_record mrs)) in *.
  assert (HRrange : 2 ^ 52 <= R <= 2 ^ 53).
  { pose proof (shr_inv_rem _ _ _ Hn0 Hinv) as [Hq1 Hq2].
    assert (2 ^ 52 < shr_m mrs + 1)
      by (apply (Z.mul_lt_mono_pos_r (2 ^ n)); lia).
    assert (shr_m mrs < 2 ^ 53)
      by (apply (Z.mul_lt_mono_pos_r (2 ^ n)); lia).
    lia. }
  destruct (second_round s R (e + n) HRrange He Ho)
    as (M & E & Heq & HE & HM & HMr).
  exists M, E. split; [exact Heq|]. split; [exact HE|].
  split; [|exact HMr].
  assert (HW : Zpos M * 2 ^ (E - e) = R * 2 ^ n).
  { rewrite <- HM.
    destruct HE as [-> | ->].
    - replace (e + n - (e + n)) with 0 by lia.
      replace (e + n - e) with n by lia. rewrite Z.pow_0_r. ring.
    - replace (e + n + 1 - (e + n)) with 1 by lia.
      replace (e + n + 1 - e) with (1 + n) by lia.
      rewrite Z.pow_add_r by lia. ring. }
  rewrite HW. lia.
Qed.

Lemma lit_1_2_eq : lit_1_2 = S754_finite false 5404319552844595 (-52).
Proof. vm_compute. reflexivity. Qed.

(** An integer below [2 ^ 50] in magnitude is a binary64 value. *)
Lemma binary_round_int s p :
  Zpos p < 2 ^ 50 ->
  exists M d,
    binary_round prec emax s p 0 = S754_finite s M (- d)
    /\ 3 <= d <= 52
    /\ Zpos M = Zpos p * 2 ^ d
    /\ 2 ^ 52 <= Zpos M < 2 ^ 53.
Proof.
  intros Hp.
  pose proof (digits2_pos_bounds p) as [Hlo Hhi].
  set (dp := Zpos (digits2_pos p)) in *.
  assert (Hdp : 1 <= dp <= 50).
  { split; [unfold dp; lia|].
    destruct (Z_le_gt_dec dp 50) as [?|Hgt]; [assumption|exfalso].
    assert (2 ^ 50 <= 2 ^ (dp - 1)) by (apply Z.pow_le_mono_r; lia). lia. }
  unfold binary_round.
  replace (Zpos (digits2_pos p) + 0) with (dp + 0) by reflexivity.
  assert (Hfexp : fexp prec emax (dp + 0) = dp - 53)
    by (unfold fexp, emin, prec, emax; lia).
  rewrite Hfexp. unfold shl_align.
  destruct (dp - 53 - 0) as [|k|k] eqn:Hk; try lia.
  assert (Hmz : Zpos (Pos.iter xO p k) = Zpos p * 2 ^ Zpos k).
  { change (Pos.iter xO p k) with (shift_pos k p).
    rewrite shift_pos_correct, Z.pow_pos_fold. lia. }
  assert (Hpk : 2 ^ (dp - 1) * 2 ^ Zpos k = 2 ^ 52).
  { rewrite <- Z.pow_add_r by lia. f_equal. lia. }
  assert (Hpk' : 2 ^ dp * 2 ^ Zpos k = 2 ^ 53).
  { rewrite <- Z.pow_add_r by lia. f_equal. lia. }
  assert (H2k : 0 < 2 ^ Zpos k) by (apply Z.pow_pos_nonneg; lia).
  assert (Hrange : 2 ^ 52 <= Zpos (Pos.iter xO p k) < 2 ^ 53).
  { rewrite Hmz, <- Hpk, <- Hpk'. split.
    - apply Z.mul_le_mono_nonneg_r; lia.
    - apply Z.mul_lt_mono_pos_r; lia. }
  assert (Hd53 : Zpos (digits2_pos (Pos.iter xO p k)) = 53)
    by (apply digits2_pos_unique; change (53 - 1) with 52; exact Hrange).
  destruct (binary_round_aux_spec s (Pos.iter xO p k) (dp - 53) 0)
    as (M & E & Heq & HE & Hb & HMr); try lia.
  rewrite Heq.
  assert (HEeq : E = dp - 53).
  { destruct HE as [HE|HE]; [lia|exfalso]. subst E.
    replace (dp - 53 + 0 + 1 - (dp - 53)) with 1 in Hb by lia.
    change (2 ^ 1) with 2 in Hb. change (2 ^ 0) with 1 in Hb. lia. }
  subst E. rewrite Z.sub_diag in Hb. change (2 ^ 0) with 1 in Hb.
  exists M, (Zpos k). replace (- Zpos k) with (dp - 53) by lia.
  split; [reflexivity|]. split; [lia|]. split; [|exact HMr]. lia.
Qed.

Lemma digits_105_106 P :
  2 ^ 104 <= Zpos P < 2 ^ 106 ->
  Zpos (digits2_pos P) = 105 \/ Zpos (digits2_pos P) = 106.
Proof.
  intros [Hlo Hhi].
  pose proof (digits2_pos_bounds P) as [Hlo' Hhi'].
  set (dP := Zpos (digits2_pos P)) in *.
  destruct (Z_le_gt_dec dP 104) as [Hle|Hgt].
  - exfalso. assert (2 ^ dP <= 2 ^ 104) by (apply Z.pow_le_mono_r; lia). lia.
  - destruct (Z_le_gt_dec 107 dP) as [Hge|Hlt]; [exfalso|lia].
    assert (2 ^ 106 <= 2 ^ (dP - 1)) by (apply Z.pow_le_mono_r; lia). lia.
Qed.

(** [int(x * 1.2)] for [x] the binary64 value of the integer [p]. *)
Lemma scale_finite s M d p :
  3 <= d <= 52 ->
  Zpos M = Zpos p * 2 ^ d ->
  2 ^ 52 <= Zpos M < 2 ^ 53 ->
  py_int (PyFloat (SFmul prec emax (S754_finite s M (- d)) lit_1_2))
  = Ok (cond_Zopp s (6 * Zpos p / 5)).
Proof.
  intros Hd HM HMr. rewrite lit_1_2_eq. cbn [SFmul]. rewrite xorb_false_r.
  set (c := 5404319552844595%positive).
  assert (HP : Zpos (M * c) = Zpos M * 5404319552844595) by reflexivity.
  assert (HPr : 2 ^ 104 <= Zpos (M * c) < 2 ^ 106).
  { rewrite HP. change (2 ^ 104) with (2 ^ 52 * 2 ^ 52).
    change (2 ^ 106) with (2 ^ 53 * 2 ^ 53).
    change (2 ^ 52) with 4503599627370496 in *.
    change (2 ^ 53) with 9007199254740992 in *. lia. }
  set (n := Zpos (digits2_pos (M * c)) - 53).
  assert (Hn : n = 52 \/ n = 53)
    by (destruct (digits_105_106 _ HPr); unfold n; lia).
  destruct (binary_round_aux_spec s (M * c) (- d + -52) n eq_refl)
    as (M2 & E2 & Heq & HE & Hb & HM2r); try lia.
  rewrite Heq. unfold py_int.
  destruct E2 as [|k|k]; try (exfalso; lia).
  rewrite Z.shiftr_div_pow2 by lia. do 2 f_equal.
  set (N := 6 * Zpos p / 5).
  assert (HN : 5 * N <= 6 * Zpos p < 5 * N + 5).
  { pose proof (Z.div_mod (6 * Zpos p) 5 ltac:(lia)) as Hdm.
    pose proof (Z.mod_pos_bound (6 * Zpos p) 5 ltac:(lia)) as Hmb.
    fold N in Hdm. lia. }
  assert (HA : 8 <= 2 ^ d)
    by (change 8 with (2 ^ 3); apply Z.pow_le_mono_r; lia).
  assert (HB : 0 < 2 ^ Zpos k) by (apply Z.pow_pos_nonneg; lia).
  assert (HBg : 2 ^ Zpos k * 2 ^ (Z.neg k - (- d + -52)) = 2 ^ d * 2 ^ 52).
  { rewrite <- !Z.pow_add_r by lia. f_equal. lia. }
  assert (HNA : 5 * (N * 2 ^ d) <= 6 * Zpos M
                /\ 6 * Zpos M + 2 ^ d <= 5 * (N * 2 ^ d) + 5 * 2 ^ d).
  { rewrite HM. split; nia. }
  assert (HNB : N * 2 ^ Zpos k * 2 ^ (Z.neg k - (- d + -52))
                = N * 2 ^ d * 2 ^ 52).
  { rewrite <- !Z.mul_assoc, HBg. reflexivity. }
  rewrite HP in Hb.
  symmetry. apply (Z.div_unique _ _ _ (Zpos M2 - 2 ^ Zpos k * N)); [|lia].
  left.
  set (A := 2 ^ d) in *. set (B := 2 ^ Zpos k) in *.
  set (NA := N * A) in *. set (NB := N * B) in *.
  replace (B * N) with NB by (unfold NB; lia).
  clearbody A B NA NB N.
  change (2 ^ 52) with 4503599627370496 in *.
  change (2 ^ 53) with 9007199254740992 in *.
  assert (Hg : Z.neg k - (- d + -52) = 52 \/ Z.neg k - (- d + -52) = 53
               \/ Z.neg k - (- d + -52) = 54) by lia.
  assert (Hgn : n <= Z.neg k - (- d + -52)) by lia.
  clear HE Heq.
  set (g := Z.neg k - (- d + -52)) in *. clearbody g.
  destruct Hn as [Hn|Hn]; rewrite Hn in *;
    destruct Hg as [Hg|[Hg|Hg]]; rewrite Hg in *; try (exfalso; lia);
    change (2 ^ 52) with 4503599627370496 in *;
    change (2 ^ 53) with 9007199254740992 in *;
    change (2 ^ 54) with 18014398509481984 in *;
    lia.
Qed.

(** Below [2 ^ 50] in magnitude, [int(d * 1.2)] is [6 * d / 5] truncated
    toward zero. *)
Lemma scale_duration_exact d :
  Z.abs d < 2 ^ 50 -> scale_duration d = Ok (Z.quot (6 * d) 5).
Proof.
  intros Hd. unfold scale_duration, py_mul, to_float, float_of_int.
  destruct d as [|p|p].
  - reflexivity.
  - cbn [binary_normalize].
    destruct (binary_round_int false p) as (M & k & -> & Hk & HM & HMr);
      [exact Hd|].
    cbn [is_finite bind]. rewrite (scale_finite false M k p Hk HM HMr).
    cbn [cond_Zopp]. rewrite Z.quot_div_nonneg by lia. reflexivity.
  - cbn [binary_normalize].
    destruct (binary_round_int true p) as (M & k & -> & Hk & HM & HMr);
      [exact Hd|].
    cbn [is_finite bind]. rewrite (scale_finite true M k p Hk HM HMr).
    cbn [cond_Zopp].
    replace (6 * Z.neg p) with (- (6 * Zpos p)) by lia.
    rewrite Z.quot_opp_l by lia. rewrite Z.quot_div_nonneg by lia.
    reflexivity.
Qed.

Example scale_60_and_25 :
  scale_duration 60 = Ok 72 /\ scale_duration 25 = Ok 30.
Proof. split; vm_compute; reflexivity. Qed.

(** ** [increase_difficulty] *)

(** A task with its duration (60 when absent) multiplied by 6/5 and
    truncated toward zero, and nothing else changed. *)
Definition scaled_task (t : Task) : Task :=
  {| id := id t; description := description t;
     duration_minutes := Some (Z.quot (6 * dflt 60 (duration_minutes t)) 5);
     priority := priority t |}.

Definition scaled_day (kv : string * DaySchedule) : string * DaySchedule :=
  (fst kv, {| focus := focus (snd kv);
              tasks := option_map (map scaled_task) (tasks (snd kv)) |}).

Definition scaled_schedule (sched : Schedule) : Schedule :=
  {| current_phase := current_phase sched;
     daily_tasks := option_map (map scaled_day) (daily_tasks sched) |}.

(** Every task of every day. *)
Definition schedule_tasks (sched : Schedule) : list Task :=
  flat_map (fun kv => dflt [] (tasks (snd kv))) (dflt [] (daily_tasks sched)).

Lemma mapM_pointwise {A B : Type} (f : A -> res B) (g : A -> B) (l : list A) :
  (forall a, In a l -> f a = Ok (g a)) -> mapM f l = Ok (map g l).
Proof.
  induction l as [|a l IH]; intros H; cbn [mapM map]; [reflexivity|].
  rewrite (H a (or_introl eq_refl)). cbn [bind].
  rewrite IH by (intros b Hb; apply H; right; exact Hb). reflexivity.
Qed.

Lemma increase_task_exact t :
  Z.abs (dflt 60 (duration_minutes t)) < 2 ^ 50 ->
  increase_task t = Ok (scaled_task t).
Proof.
  intros H. unfold increase_task. rewrite (scale_duration_exact _ H).
  reflexivity.
Qed.

Lemma increase_day_exact kv :
  (forall t, In t (dflt [] (tasks (snd kv))) ->
             Z.abs (dflt 60 (duration_minutes t)) < 2 ^ 50) ->
  increase_day kv = Ok (scaled_day kv).
Proof.
  destruct kv as [day [f [ts|]]]; unfold increase_day, scaled_day;
    cbn [fst snd tasks focus dflt option_map]; intros H; [|reflexivity].
  rewrite (mapM_pointwise increase_task scaled_task ts)
    by (intros t Ht; apply increase_task_exact, H, Ht).
  reflexivity.
Qed.

(** C7, as the program has it.  When every duration (60 for a task that has
    none) is below [2 ^ 50] in magnitude, [increase_difficulty] returns and
    saves the schedule in which every task of every day has its duration
    multiplied by 6/5 and truncated, and nothing else is changed: days, their
    order and focus, the tasks, their order, ids, descriptions and
    priorities, and [current_phase]. *)
Theorem increase_difficulty_scales_durations sched :
  (forall t, In t (schedule_tasks sched) ->
             Z.abs (dflt 60 (duration_minutes t)) < 2 ^ 50) ->
  adjust_schedule "increase_difficulty" sched = Ok (scaled_schedule sched).
Proof.
  intros H. unfold adjust_schedule, scaled_schedule, schedule_tasks in *.
  cbn [String.eqb Ascii.eqb Bool.eqb andb].
  destruct sched as [cp [days|]]; cbn [daily_tasks current_phase option_map dflt] in *;
    [|reflexivity].
  rewrite (mapM_pointwise increase_day scaled_day days).
  - reflexivity.
  - intros kv Hkv. apply increase_day_exact. intros t Ht.
    apply H. apply in_flat_map. exists kv. split; assumption.
Qed.

(** Durations of 60 and 25 minutes, and a task without a duration. *)
Definition week_schedule : Schedule :=
  {| current_phase := Some 2;
     daily_tasks :=
       Some [("monday"%string,
              {| focus := Some "theory"%string;
                 tasks := Some [sample_task "read" 60 "high";
                                sample_task "quiz" 25 "low"] |});
             ("tuesday"%string,
              {| focus := None;
                 tasks := Some [{| id := "lab"; description := "lab";
                                   duration_minutes := None;
                                   priority := None |}] |});
             ("sunday"%string, {| focus := Some "rest"%string; tasks := None |})] |}.

Lemma increase_difficulty_scales_durations_witness :
  adjust_schedule "increase_difficulty" week_schedule
  = Ok (scaled_schedule week_schedule).
Proof.
  apply (increase_difficulty_scales_durations week_schedule).
  intros t Ht. cbn in Ht.
  repeat (destruct Ht as [<-|Ht]; [cbn; lia|]). contradiction.
Defined.

Example week_schedule_scaled :
  map (fun t => (id t, duration_minutes t))
      (schedule_tasks (scaled_schedule week_schedule))
  = [("read"%string, Some 72); ("quiz"%string, Some 30);
     ("lab"%string, Some 72)].
Proof. reflexivity. Qed.

(** A task of [2 ^ 53 + 1] minutes. *)
Definition huge_schedule : Schedule :=
  {| current_phase := None;
     daily_tasks :=
       Some [("monday"%string,
              {| focus := None;
                 tasks := Some [sample_task "t" 9007199254740993 "high"] |})] |}.

(** C7 as stated fails there: the duration saved is not the duration times
    1.2, truncated.  [float(2 ^ 53 + 1)] is [2 ^ 53], and the product is
    rounded once more. *)
Lemma increase_difficulty_inexact_on_huge_duration :
  adjust_schedule "increase_difficulty" huge_schedule
  = Ok {| current_phase := None;
          daily_tasks :=
            Some [("monday"%string,
                   {| focus := None;
                      tasks := Some [sample_task "t" 10808639105689190
                                       "high"] |})] |}
  /\ Z.quot (6 * 9007199254740993) 5 = 10808639105689191.
Proof. split; vm_compute; reflexivity. Qed.

(* ================================================================== *)
(** * Further properties of [complete_task] *)
(* ================================================================== *)

(** The streak update writes the two streak fields and no other, and the
    longest streak does not go down. *)
Lemma streak_step_frame now daily_log s s' :
  streak_step now daily_log s = Ok s' ->
  total_hours_studied s' = total_hours_studied s
  /\ average_daily_hours s' = average_daily_hours s
  /\ dflt 0 (longest_streak_days s) <= dflt 0 (longest_streak_days s').
Proof.
  unfold streak_step, raise_longest.
  set (b := bump_streak _ _ _ s).
  assert (Hb : total_hours_studied b = total_hours_studied s
               /\ average_daily_hours b = average_daily_hours s
               /\ longest_streak_days b = longest_streak_days s).
  { subst b. unfold bump_streak.
    destruct (_ =? dt_date now); [destruct (_ || _)|destruct (_ >? 1)];
      cbn; auto. }
  destruct Hb as (Hh & Ha & Hl). rewrite <- Hh, <- Ha, <- Hl.
  destruct (dflt 0 (current_streak_days b) >? dflt 0 (longest_streak_days b))
    eqn:Hgt.
  - destruct (current_streak_days b) as [c|] eqn:Hc; [|discriminate].
    intros H; inversion H; subst s'. cbn.
    cbn in Hgt. rewrite Z.gtb_ltb in Hgt. apply Z.ltb_lt in Hgt.
    repeat split; auto. lia.
  - intros H; inversion H; subst s'. repeat split; auto. lia.
Qed.

(** What a call that returns has saved: the document with the new entry, and
    the statistics the streak update leaves, which it starts from the streak
    fields of the file. *)
Lemma complete_task_saved sched p clk tid hrs rating p' :
  run_complete_task sched p clk tid hrs rating = Ok p' ->
  exists s s',
    current_streak_days s = current_streak_days (stats_of p)
    /\ longest_streak_days s = longest_streak_days (stats_of p)
    /\ streak_step (now_streak clk)
         (dflt [] (daily_log p) ++ [log_entry (now_log clk) tid hrs rating]) s
       = Ok s'
    /\ p' = saved_progress p clk (log_entry (now_log clk) tid hrs rating) s'.
Proof.
  rewrite run_complete_task_eq. unfold bind, stats_of.
  destruct (overall_stats p) as [st|]; cbn [dflt].
  - destruct (count_step hrs st) as [s1|] eqn:H1; [|discriminate].
    destruct (rate_step _ _ _ s1) as [s2|] eqn:H2; [|discriminate].
    destruct (streak_step _ _ s2) as [s3|] eqn:H3; [|discriminate].
    intros H; inversion H; subst p'. exists s2, s3.
    pose proof (rate_step_frame _ _ _ _ _ H2) as (Hc2 & Hl2 & _).
    pose proof (count_step_frame _ _ _ H1) as (Hc1 & Hl1 & _).
    repeat split; congruence.
  - destruct (count_step hrs empty_stats) as [s1|]; [|discriminate].
    destruct (rate_step _ _ _ s1) as [s2|]; [|discriminate].
    destruct (streak_step _ _ empty_stats) as [s3|] eqn:H3; [|discriminate].
    intros H; inversion H; subst p'. exists empty_stats, s3.
    repeat split; assumption.
Qed.

(** X1.  A [complete_task] call that returns has appended exactly one entry
    to [daily_log], after the entries that were there and with the task id,
    the rating and the time of the call in it; it has set [last_updated], and
    [start_date] and [phase_progress] are as they were. *)
Theorem complete_task_appends_one_entry sched p clk tid hrs rating p' :
  run_complete_task sched p clk tid hrs rating = Ok p' ->
  daily_log p' = Some (dflt [] (daily_log p)
                       ++ [log_entry (now_log clk) tid hrs rating])
  /\ start_date p' = start_date p
  /\ phase_progress p' = phase_progress p
  /\ last_updated p' = Some (now_saved clk).
Proof.
  intros H. apply complete_task_saved in H.
  destruct H as (s & s' & _ & _ & _ & ->). repeat split; reflexivity.
Qed.

Lemma complete_task_appends_one_entry_witness :
  daily_log after_second_call
  = Some (dflt [] (daily_log after_first_call)
          ++ [log_entry (now_log (clock_on (day0 + 1))) "t1"
                (Some (PyFloat (float_of_frac 3 2))) (Some 3)])
  /\ start_date after_second_call = start_date after_first_call
  /\ phase_progress after_second_call = phase_progress after_first_call
  /\ last_updated after_second_call = Some (now_saved (clock_on (day0 + 1))).
Proof.
  apply (complete_task_appends_one_entry one_task_schedule after_first_call
           (clock_on (day0 + 1)) "t1" (Some (PyFloat (float_of_frac 3 2)))
           (Some 3) after_second_call).
  vm_compute. reflexivity.
Defined.

(** X2.  On a store that has [overall_stats], a [complete_task] call that
    returns has raised [total_tasks_completed] by one (from 0 when absent),
    has added [hours_spent] to [total_hours_studied] when it is given and not
    zero, and has left the total of hours alone otherwise;
    [average_daily_hours] is never touched. *)
Theorem complete_task_counts_when_stats_present
  sched p clk tid hrs rating st p' :
  overall_stats p = Some st ->
  run_complete_task sched p clk tid hrs rating = Ok p' ->
  total_tasks_completed (stats_of p')
    = Some (dflt 0 (total_tasks_completed st) + 1)
  /\ (forall h, hrs = Some h -> py_truthy h = true ->
        exists t, py_add (dflt (PyInt 0) (total_hours_studied st)) h = Ok t
                  /\ total_hours_studied (stats_of p') = Some t)
  /\ ((hrs = None \/ exists h, hrs = Some h /\ py_truthy h = false) ->
        total_hours_studied (stats_of p') = total_hours_studied st)
  /\ average_daily_hours (stats_of p') = average_daily_hours st.
Proof.
  intros Hst. rewrite run_complete_task_eq, Hst. unfold bind.
  destruct (count_step hrs st) as [s1|] eqn:H1; [|discriminate].
  destruct (rate_step _ _ _ s1) as [s2|] eqn:H2; [|discriminate].
  destruct (streak_step _ _ s2) as [s3|] eqn:H3; [|discriminate].
  intros H; inversion H; subst p'.
  unfold stats_of, saved_progress; cbn [overall_stats dflt].
  pose proof (streak_step_spec _ _ _ _ H3) as (_ & Ht3 & _).
  pose proof (streak_step_frame _ _ _ _ H3) as (Hh3 & Ha3 & _).
  pose proof (rate_step_frame _ _ _ _ _ H2) as (_ & _ & Ht2 & Hh2 & Ha2).
  pose proof (count_step_frame _ _ _ H1) as (_ & _ & _ & Ha1 & Ht1).
  rewrite Ht3, Ht2, Ht1, Hh3, Hh2, Ha3, Ha2, Ha1.
  split; [reflexivity|]. split; [|split; [|reflexivity]].
  - intros h -> Hh. unfold count_step in H1. rewrite Hh in H1.
    cbn [total_hours_studied set_total_tasks_completed] in H1.
    unfold bind in H1. destruct (py_add _ h) as [t|]; [|discriminate].
    inversion H1; subst s1. exists t. split; reflexivity.
  - intros [->|(h & -> & Hh)]; unfold count_step in H1; [|rewrite Hh in H1];
      inversion H1; subst s1; reflexivity.
Qed.

Lemma complete_task_counts_when_stats_present_witness :
  total_tasks_completed (stats_of after_second_call)
    = Some (dflt 0 (total_tasks_completed (stats_of after_first_call)) + 1)
  /\ (forall h, Some (PyFloat (float_of_frac 3 2)) = Some h ->
        py_truthy h = true ->
        exists t,
          py_add (dflt (PyInt 0)
                    (total_hours_studied (stats_of after_first_call))) h = Ok t
          /\ total_hours_studied (stats_of after_second_call) = Some t)
  /\ ((Some (PyFloat (float_of_frac 3 2)) = None
       \/ exists h, Some (PyFloat (float_of_frac 3 2)) = Some h
                    /\ py_truthy h = false) ->
        total_hours_studied (stats_of after_second_call)
        = total_hours_studied (stats_of after_first_call))
  /\ average_daily_hours (stats_of after_second_call)
     = average_daily_hours (stats_of after_first_call).
Proof.
  apply (complete_task_counts_when_stats_present one_task_schedule
           after_first_call (clock_on (day0 + 1)) "t1"
           (Some (PyFloat (float_of_frac 3 2))) (Some 3)
           (stats_of after_first_call) after_second_call).
  - reflexivity.
  - vm_compute. reflexivity.
Defined.

(** X3.  On a store without [overall_stats], a [complete_task] call whose
    clock reads fall on one day saves statistics that hold a streak of 1 and
    nothing else: the task it has just logged is not counted and its hours
    are not added. *)
Theorem first_statistics_hold_only_the_streak
  sched p clk tid hrs rating p' :
  overall_stats p = None ->
  dt_date (now_log clk) = dt_date (now_streak clk) ->
  run_complete_task sched p clk tid hrs rating = Ok p' ->
  overall_stats p'
  = Some {| total_tasks_completed := None; total_hours_studied := None;
            current_streak_days := Some 1; longest_streak_days := Some 1;
            completion_rate_percent := None; average_daily_hours := None |}.
Proof.
  intros Hst Hday. rewrite run_complete_task_eq, Hst. unfold bind.
  destruct (count_step hrs empty_stats) as [s1|]; [|discriminate].
  destruct (rate_step _ _ _ s1) as [s2|]; [|discriminate].
  unfold streak_step, bump_streak. rewrite last_last.
  cbn [log_entry date current_streak_days empty_stats dflt].
  rewrite Hday, Z.eqb_refl, orb_true_r.
  unfold raise_longest.
  cbn [current_streak_days longest_streak_days set_current_streak_days
       empty_stats dflt].
  change (0 + 1 >? 0) with true. cbv beta iota.
  intros H; inversion H; subst p'. reflexivity.
Qed.

Lemma first_statistics_hold_only_the_streak_witness :
  overall_stats after_first_call
  = Some {| total_tasks_completed := None; total_hours_studied := None;
            current_streak_days := Some 1; longest_streak_days := Some 1;
            completion_rate_percent := None; average_daily_hours := None |}.
Proof.
  apply (first_statistics_hold_only_the_streak one_task_schedule
           empty_progress (clock_on day0) "t1" None None after_first_call).
  - reflexivity.
  - reflexivity.
  - vm_compute. reflexivity.
Defined.

(** X4.  [longest_streak_days] never goes down through [complete_task]. *)
Theorem longest_streak_never_decreases sched p clk tid hrs rating p' :
  run_complete_task sched p clk tid hrs rating = Ok p' ->
  dflt 0 (longest_streak_days (stats_of p))
  <= dflt 0 (longest_streak_days (stats_of p')).
Proof.
  intros H. apply complete_task_saved in H.
  destruct H as (s & s' & _ & Hl & Hstep & ->).
  apply streak_step_frame in Hstep. destruct Hstep as (_ & _ & Hle).
  rewrite Hl in Hle. exact Hle.
Qed.

Lemma longest_streak_never_decreases_witness :
  dflt 0 (longest_streak_days (stats_of after_first_call))
  <= dflt 0 (longest_streak_days (stats_of after_second_call)).
Proof.
  apply (longest_streak_never_decreases one_task_schedule after_first_call
           (clock_on (day0 + 1)) "t1" (Some (PyFloat (float_of_frac 3 2)))
           (Some 3) after_second_call).
  vm_compute. reflexivity.
Defined.

(** Whether the log has an entry on day [d]. *)
Definition active_on (d : pydate) (daily_log : list LogEntry) : bool :=
  existsb (on_day d) daily_log.

Lemma filter_nonempty_existsb {A : Type} (f : A -> bool) (l : list A) :
  negb (Nat.eqb (List.length (filter f l)) 0) = existsb f l.
Proof.
  induction l as [|a l IH]; [reflexivity|].
  cbn [filter existsb]. destruct (f a); [reflexivity|exact IH].
Qed.

(** The streak after the update, when the last entry of the log is of
    today. *)
Lemma streak_step_same_day now daily_log e s s' :
  dt_date (date e) = dt_date now ->
  streak_step now (daily_log ++ [e]) s = Ok s' ->
  current_streak_days s' =
    if active_on (dt_date now - 1) daily_log
       || (dflt 0 (current_streak_days s) =? 0)
    then Some (dflt 0 (current_streak_days s) + 1)
    else current_streak_days s.
Proof.
  intros Hday H.
  pose proof (raise_longest_spec _ _ H) as (Hc & _). rewrite Hc.
  unfold bump_streak. rewrite last_last, Hday, Z.eqb_refl.
  rewrite filter_nonempty_existsb, existsb_app. cbn [existsb].
  unfold on_day at 2. rewrite Hday.
  replace (dt_date now =? dt_date now - 1) with false
    by (symmetry; apply Z.eqb_neq; lia).
  rewrite !orb_false_r. fold (active_on (dt_date now - 1) daily_log).
  destruct (active_on _ _ || _); reflexivity.
Qed.

(** X5.  When the clock reads of a [complete_task] call fall on one day, the
    call raises [current_streak_days] by one if the log had an entry dated
    the day before or the streak read 0, and leaves it as it was otherwise;
    [complete_task] never resets a streak. *)
Theorem complete_task_streak_same_day sched p clk tid hrs rating p' :
  dt_date (now_log clk) = dt_date (now_streak clk) ->
  run_complete_task sched p clk tid hrs rating = Ok p' ->
  current_streak_days (stats_of p') =
    if active_on (dt_date (now_streak clk) - 1) (dflt [] (daily_log p))
       || (dflt 0 (current_streak_days (stats_of p)) =? 0)
    then Some (dflt 0 (current_streak_days (stats_of p)) + 1)
    else current_streak_days (stats_of p).
Proof.
  intros Hday H. apply complete_task_saved in H.
  destruct H as (s & s' & Hc & _ & Hstep & ->).
  apply streak_step_same_day in Hstep; [|exact Hday].
  rewrite Hc in Hstep. exact Hstep.
Qed.

Lemma complete_task_streak_same_day_witness :
  current_streak_days (stats_of after_second_call) =
    if active_on (dt_date (now_streak (clock_on (day0 + 1))) - 1)
         (dflt [] (daily_log after_first_call))
       || (dflt 0 (current_streak_days (stats_of after_first_call)) =? 0)
    then Some (dflt 0 (current_streak_days (stats_of after_first_call)) + 1)
    else current_streak_days (stats_of after_first_call).
Proof.
  apply (complete_task_streak_same_day one_task_schedule after_first_call
           (clock_on (day0 + 1)) "t1" (Some (PyFloat (float_of_frac 3 2)))
           (Some 3) after_second_call).
  - reflexivity.
  - vm_compute. reflexivity.
Defined.

(** Calls whose clock reads for the log entry and for the streak fall on
    day [d]. *)
Definition calls_on (d : pydate) (calls : list Call) : Prop :=
  forall c, In c calls ->
    dt_date (now_log (call_clock c)) = d
    /\ dt_date (now_streak (call_clock c)) = d.

(** X6.  The streak counts tasks, not days: when the log has an entry dated
    yesterday, every [complete_task] call of today raises
    [current_streak_days] by one, so that [n] calls on one day raise it by
    [n]. *)
Theorem same_day_calls_each_raise_streak sched calls d p p' :
  calls_on d calls ->
  active_on (d - 1) (dflt [] (daily_log p)) = true ->
  run_calls sched calls p = Ok p' ->
  dflt 0 (current_streak_days (stats_of p'))
  = dflt 0 (current_streak_days (stats_of p)) + Z.of_nat (List.length calls).
Proof.
  revert p. induction calls as [|c rest IH]; intros p Hon Hact; cbn [run_calls].
  - intros H; inversion H; subst. cbn [List.length Z.of_nat]. lia.
  - unfold bind.
    destruct (run_complete_task sched p (call_clock c) (call_task_id c)
                (call_hours_spent c) (call_difficulty_rating c))
      as [p1|] eqn:H1; [|discriminate].
    intros H.
    destruct (Hon c (or_introl eq_refl)) as (Hlog & Hstreak).
    apply complete_task_saved in H1.
    destruct H1 as (s & s' & Hc & _ & Hstep & ->).
    apply streak_step_same_day in Hstep;
      [|cbn [log_entry date]; congruence].
    rewrite Hstreak, Hact in Hstep. cbn [orb] in Hstep. rewrite Hc in Hstep.
    apply IH in H.
    + rewrite H. unfold stats_of at 1.
      cbn [saved_progress overall_stats dflt].
      rewrite Hstep. cbn [dflt List.length]. lia.
    + intros c' Hc'. apply Hon. right. exact Hc'.
    + cbn [saved_progress daily_log dflt]. unfold active_on.
      rewrite existsb_app. fold (active_on (d - 1) (dflt [] (daily_log p))).
      rewrite Hact. reflexivity.
Qed.

(** A store with a streak of 1 and an entry on [day0], and three calls on the
    next day. *)
Definition one_day_store : Progress :=
  {| start_date := Some day0;
     daily_log := Some [log_entry (at_day day0) "t1" None None];
     overall_stats :=
       Some (set_longest_streak_days 1 (set_current_streak_days 1 empty_stats));
     phase_progress := None;
     last_updated := None |}.

Definition three_calls : list Call :=
  [ {| call_clock := clock_on (day0 + 1); call_task_id := "t1";
       call_hours_spent := None; call_difficulty_rating := None |};
    {| call_clock := clock_on (day0 + 1); call_task_id := "t2";
       call_hours_spent := Some (PyInt 1); call_difficulty_rating := None |};
    {| call_clock := clock_on (day0 + 1); call_task_id := "t3";
       call_hours_spent := None; call_difficulty_rating := Some 5 |} ].

Definition one_day_store_after : Progress :=
  Eval vm_compute in
    match run_calls one_task_schedule three_calls one_day_store with
    | Ok p => p
    | Raise _ => empty_progress
    end.

Lemma same_day_calls_each_raise_streak_witness :
  dflt 0 (current_streak_days (stats_of one_day_store_after))
  = dflt 0 (current_streak_days (stats_of one_day_store))
    + Z.of_nat (List.length three_calls).
Proof.
  apply (same_day_calls_each_raise_streak one_task_schedule three_calls
           (day0 + 1) one_day_store one_day_store_after).
  - intros c Hc. cbn in Hc.
    repeat (destruct Hc as [<-|Hc]; [split; reflexivity|]). contradiction.
  - reflexivity.
  - vm_compute. reflexivity.
Defined.

(* ================================================================== *)
(** * Further properties of [_update_streak] *)
(* ================================================================== *)

(** Without an entry in the log the method returns at once. *)
Lemma run_update_streak_empty p now :
  dflt [] (daily_log p) = [] -> run_update_streak p now = Ok p.
Proof.
  destruct p as [sd [[|b t]|] [st|] pp lu]; cbn [daily_log dflt]; intros H;
    try discriminate; reflexivity.
Qed.

(** X7.  [_update_streak] writes the two streak fields and nothing else: the
    log, [start_date], [phase_progress], [last_updated] and the other four
    statistics are as they were, and with an empty or absent log the whole
    document is, a streak that is out of date included. *)
Theorem update_streak_touches_only_the_streak p now p' :
  run_update_streak p now = Ok p' ->
  start_date p' = start_date p
  /\ daily_log p' = daily_log p
  /\ phase_progress p' = phase_progress p
  /\ last_updated p' = last_updated p
  /\ total_tasks_completed (stats_of p') = total_tasks_completed (stats_of p)
  /\ total_hours_studied (stats_of p') = total_hours_studied (stats_of p)
  /\ completion_rate_percent (stats_of p')
     = completion_rate_percent (stats_of p)
  /\ average_daily_hours (stats_of p') = average_daily_hours (stats_of p)
  /\ (dflt [] (daily_log p) = [] -> p' = p).
Proof.
  destruct (dflt [] (daily_log p)) as [|b t] eqn:Hlog.
  - rewrite run_update_streak_empty by exact Hlog.
    intros H; inversion H; subst p'. repeat split; reflexivity.
  - assert (Hdl : daily_log p = Some (b :: t)).
    { destruct (daily_log p) as [dl|]; cbn [dflt] in Hlog;
        [congruence|discriminate]. }
    rewrite (run_update_streak_eq p now b t Hdl). unfold bind.
    destruct (streak_step now (b :: t) (stats_of p)) as [s'|] eqn:Hs;
      [|discriminate].
    intros H; inversion H; subst p'.
    unfold stats_of at 1 3 5 7.
    cbn [start_date daily_log phase_progress last_updated overall_stats dflt].
    pose proof (streak_step_spec _ _ _ _ Hs) as (Hr & Ht & _).
    pose proof (streak_step_frame _ _ _ _ Hs) as (Hh & Ha & _).
    repeat split; try assumption. discriminate.
Qed.

Definition stale_streak_store_updated : Progress :=
  Eval vm_compute in
    match run_update_streak stale_streak_store (at_day (day0 + 5)) with
    | Ok p => p
    | Raise _ => empty_progress
    end.

Lemma update_streak_touches_only_the_streak_witness :
  start_date stale_streak_store_updated = start_date stale_streak_store
  /\ daily_log stale_streak_store_updated = daily_log stale_streak_store
  /\ phase_progress stale_streak_store_updated
     = phase_progress stale_streak_store
  /\ last_updated stale_streak_store_updated = last_updated stale_streak_store
  /\ total_tasks_completed (stats_of stale_streak_store_updated)
     = total_tasks_completed (stats_of stale_streak_store)
  /\ total_hours_studied (stats_of stale_streak_store_updated)
     = total_hours_studied (stats_of stale_streak_store)
  /\ completion_rate_percent (stats_of stale_streak_store_updated)
     = completion_rate_percent (stats_of stale_streak_store)
  /\ average_daily_hours (stats_of stale_streak_store_updated)
     = average_daily_hours (stats_of stale_streak_store)
  /\ (dflt [] (daily_log stale_streak_store) = [] ->
      stale_streak_store_updated = stale_streak_store).
Proof.
  apply (update_streak_touches_only_the_streak stale_streak_store
           (at_day (day0 + 5)) stale_streak_store_updated).
  vm_compute. reflexivity.
Defined.



(* ================================================================== *)
(** * Further properties of [get_recommendations] *)
(* ================================================================== *)

Lemma workload_rule_type stats x :
  In x (workload_rule stats) -> rec_type x = "workload"%string.
Proof.
  unfold workload_rule.
  destruct (py_lt _ _); [|destruct (py_gt _ _)]; cbn [In];
    intros H; repeat destruct H as [<-|H]; try reflexivity; contradiction.
Qed.

(** A motivation recommendation comes from the streak rule. *)
Lemma motivation_only_from_streak_rule sched p x :
  In x (recommendations_for sched p) ->
  rec_type x = "motivation"%string ->
  In x (streak_rule (stats_of p)).
Proof.
  rewrite recommendations_for_eq, !in_app_iff.
  intros [H|[H|H]] Hty; [|exact H|].
  - apply workload_rule_type in H. rewrite H in Hty. discriminate.
  - apply phase_rule_type in H. rewrite H in Hty. discriminate.
Qed.

(** X9.  The motivation recommendation depends on [current_streak_days] (0
    when absent) alone: "maintain", with the streak in its message, exactly
    from 7 days on; "start_streak" exactly at 0; and no motivation
    recommendation for a streak of 1 to 6 days, or for a negative one. *)
Theorem motivation_recommendation_thresholds sched p :
  (In (maintain_rec (dflt 0 (current_streak_days (stats_of p))))
      (recommendations_for sched p)
   <-> 7 <= dflt 0 (current_streak_days (stats_of p)))
  /\ (In start_streak_rec (recommendations_for sched p)
      <-> dflt 0 (current_streak_days (stats_of p)) = 0)
  /\ (forall x, In x (recommendations_for sched p) ->
        rec_type x = "motivation"%string ->
        (x = maintain_rec (dflt 0 (current_streak_days (stats_of p)))
         /\ 7 <= dflt 0 (current_streak_days (stats_of p)))
        \/ (x = start_streak_rec
            /\ dflt 0 (current_streak_days (stats_of p)) = 0)).
Proof.
  assert (Hrule : forall x, In x (streak_rule (stats_of p)) ->
            (x = maintain_rec (dflt 0 (current_streak_days (stats_of p)))
             /\ 7 <= dflt 0 (current_streak_days (stats_of p)))
            \/ (x = start_streak_rec
                /\ dflt 0 (current_streak_days (stats_of p)) = 0)).
  { intros x. unfold streak_rule.
    destruct (_ >=? 7) eqn:H7.
    - intros [<-|[]]. left. split; [reflexivity|].
      rewrite Z.geb_leb in H7. apply Z.leb_le in H7. exact H7.
    - destruct (_ =? 0) eqn:H0; [|intros []].
      intros [<-|[]]. right. split; [reflexivity|].
      apply Z.eqb_eq in H0. exact H0. }
  assert (Hin : forall x, In x (streak_rule (stats_of p)) ->
                          In x (recommendations_for sched p)).
  { intros x H. rewrite recommendations_for_eq, !in_app_iff. auto. }
  split; [|split].
  - split.
    + intros H. apply motivation_only_from_streak_rule in H; [|reflexivity].
      destruct (Hrule _ H) as [(_ & H7)|(Heq & _)]; [exact H7|].
      discriminate Heq.
    + intros H7. apply Hin. unfold streak_rule.
      replace (_ >=? 7) with true; [left; reflexivity|].
      symmetry. rewrite Z.geb_leb. apply Z.leb_le. exact H7.
  - split.
    + intros H. apply motivation_only_from_streak_rule in H; [|reflexivity].
      destruct (Hrule _ H) as [(Heq & _)|(_ & H0)]; [|exact H0].
      discriminate Heq.
    + intros H0. apply Hin. unfold streak_rule. rewrite H0.
      left; reflexivity.
  - intros x H Hty. apply Hrule.
    exact (motivation_only_from_streak_rule _ _ _ H Hty).
Qed.

(** An entry of [phase_progress] that gives a progression recommendation:
    its key starts with ["phase_<current_phase>_"] and its progress is at
    least 80. *)
Definition ready_to_advance (sched : Schedule) (kv : string * PhaseStatus)
  : bool :=
  String.prefix ("phase_" ++ py_str (dflt 1 (current_phase sched)) ++ "_")
                (fst kv)
  && py_ge (dflt (PyInt 0) (progress_percent (snd kv))) (PyInt 80).

Lemma phase_rule_repeat sched pp :
  phase_rule sched pp
  = repeat advance_phase_rec
      (List.length (filter (ready_to_advance sched) pp)).
Proof.
  unfold phase_rule, ready_to_advance.
  induction pp as [|kv pp IH]; [reflexivity|].
  cbn [flat_map filter]. rewrite IH.
  destruct (String.prefix _ (fst kv)); [destruct (py_ge _ _)|]; reflexivity.
Qed.

(** X10.  The list [get_recommendations] returns holds at most one workload
    recommendation, then at most one motivation recommendation, then one
    "advance_phase" recommendation for every entry of [phase_progress] whose
    key starts with ["phase_<current_phase>_"] and whose progress is at
    least 80: the same recommendation as many times as there are such
    entries. *)
Theorem recommendations_shape sched p :
  exists w m,
    recommendations_for sched p
    = w ++ m ++ repeat advance_phase_rec
                  (List.length (filter (ready_to_advance sched)
                                  (dflt [] (phase_progress p))))
    /\ (w = [] \/ w = [reduce_tasks_rec] \/ w = [increase_difficulty_rec])
    /\ (m = [] \/ m = [start_streak_rec]
        \/ m = [maintain_rec (dflt 0 (current_streak_days (stats_of p)))]).
Proof.
  exists (workload_rule (stats_of p)), (streak_rule (stats_of p)).
  split; [rewrite recommendations_for_eq, phase_rule_repeat; reflexivity|].
  split.
  - unfold workload_rule. destruct (py_lt _ _); [|destruct (py_gt _ _)]; auto.
  - unfold streak_rule. destruct (_ >=? 7); [|destruct (_ =? 0)]; auto.
Qed.

(* ================================================================== *)
(** * Further properties of [get_stats] *)
(* ================================================================== *)

(** The ["phases"] entry of the report: every phase with its status and
    progress, ["not_started"] and 0 where the file has none. *)
Definition phase_summaries (phase_progress : list (string * PhaseStatus))
  : list (string * (string * pynum)) :=
  map (fun kv => (fst kv, (dflt "not_started"%string (status (snd kv)),
                           dflt (PyInt 0) (progress_percent (snd kv)))))
      phase_progress.

(** The rules of [get_recommendations] do not read [average_daily_hours]. *)
Lemma rules_ignore_average v s :
  workload_rule (set_average_daily_hours v s) = workload_rule s
  /\ streak_rule (set_average_daily_hours v s) = streak_rule s.
Proof. split; reflexivity. Qed.

(** The whole report in terms of its ["overall"] entry. *)
Lemma run_get_stats_eq sched p :
  run_get_stats sched p =
    bind (get_stats_overall sched p) (fun s =>
    Ok {| overall := s;
          phases := phase_summaries (dflt [] (phase_progress p));
          recommendations := recommendations_for sched p |}).
Proof.
  rewrite recommendations_for_eq.
  destruct p as [sd dl os pp lu].
  unfold get_stats_overall, run_get_stats, stats_of, phase_summaries.
  cbn [daily_log overall_stats phase_progress].
  destruct dl as [[|b t]|]; destruct os as [st|];
    cbv beta iota zeta delta
      [get_stats load mbind get_overall_stats get_daily_log stats_get
       stats_set lift ret progress heap overall_stats start_date daily_log
       phase_progress last_updated dflt deref nth assign List.length app
       bind overall get_recommendations];
    try reflexivity;
    rewrite days_active_positive;
    destruct (py_truediv _ (PyInt (days_active (b :: t)))); reflexivity.
Qed.

(** X11.  The report of [get_stats] differs from the stored statistics in
    [average_daily_hours] at most; its recommendations are those
    [get_recommendations] gives for the file, and it has one summary for
    every phase of [phase_progress], in the order of the file. *)
Theorem get_stats_changes_only_the_average sched p r :
  run_get_stats sched p = Ok r ->
  recommendations r = recommendations_for sched p
  /\ phases r = phase_summaries (dflt [] (phase_progress p))
  /\ map fst (phases r) = map fst (dflt [] (phase_progress p))
  /\ total_tasks_completed (overall r) = total_tasks_completed (stats_of p)
  /\ total_hours_studied (overall r) = total_hours_studied (stats_of p)
  /\ current_streak_days (overall r) = current_streak_days (stats_of p)
  /\ longest_streak_days (overall r) = longest_streak_days (stats_of p)
  /\ completion_rate_percent (overall r)
     = completion_rate_percent (stats_of p).
Proof.
  rewrite run_get_stats_eq, get_stats_overall_eq. unfold bind.
  assert (Hkeys : forall pp, map fst (phase_summaries pp) = map fst pp).
  { intros pp. unfold phase_summaries. rewrite map_map. reflexivity. }
  destruct (dflt [] (daily_log p)) as [|b t].
  - intros H; inversion H; subst r. cbn [overall phases recommendations].
    rewrite Hkeys. repeat split; reflexivity.
  - destruct (py_truediv _ _) as [q|]; [|discriminate].
    intros H; inversion H; subst r. cbn [overall phases recommendations].
    rewrite Hkeys. repeat split; reflexivity.
Qed.

(** The report for the store of three entries on two days. *)
Definition two_day_report : StatsReport :=
  Eval vm_compute in
    match run_get_stats one_task_schedule two_day_store with
    | Ok r => r
    | Raise _ =>
        {| overall := empty_stats; phases := []; recommendations := [] |}
    end.

Lemma get_stats_changes_only_the_average_witness :
  recommendations two_day_report
  = recommendations_for one_task_schedule two_day_store
  /\ phases two_day_report
     = phase_summaries (dflt [] (phase_progress two_day_store))
  /\ map fst (phases two_day_report)
     = map fst (dflt [] (phase_progress two_day_store))
  /\ total_tasks_completed (overall two_day_report)
     = total_tasks_completed (stats_of two_day_store)
  /\ total_hours_studied (overall two_day_report)
     = total_hours_studied (stats_of two_day_store)
  /\ current_streak_days (overall two_day_report)
     = current_streak_days (stats_of two_day_store)
  /\ longest_streak_days (overall two_day_report)
     = longest_streak_days (stats_of two_day_store)
  /\ completion_rate_percent (overall two_day_report)
     = completion_rate_percent (stats_of two_day_store).
Proof.
  apply (get_stats_changes_only_the_average one_task_schedule two_day_store
           two_day_report).
  vm_compute. reflexivity.
Defined.

(* ================================================================== *)
(** * Further properties of [adjust_schedule] *)
(* ================================================================== *)

Lemma not_low_iff t : not_low t = true <-> priority t <> Some "low"%string.
Proof.
  unfold not_low. destruct (priority t) as [p|].
  - rewrite negb_true_iff. split.
    + intros H Heq. inversion Heq; subst p. discriminate H.
    + intros H. apply String.eqb_neq. intros ->. apply H. reflexivity.
  - split; [discriminate|reflexivity].
Qed.

(** The number [_update_completion_rate] takes for the tasks of a week is
    the number of tasks of the schedule. *)
Lemma total_scheduled_is_length sched :
  total_scheduled_per_week sched
  = Z.of_nat (List.length (schedule_tasks sched)).
Proof.
  unfold total_scheduled_per_week, schedule_tasks.
  induction (dflt [] (daily_tasks sched)) as [|kv days IH];
    [reflexivity|].
  cbn [map fold_right flat_map]. rewrite IH, length_app. lia.
Qed.

Lemma filter_length_split {A : Type} (f : A -> bool) (l : list A) :
  (List.length (filter f l)
   + List.length (filter (fun a => negb (f a)) l))%nat
  = List.length l.
Proof.
  induction l as [|a l IH]; [reflexivity|].
  cbn [filter]. destruct (f a); cbn [negb List.length]; lia.
Qed.

Lemma filter_idempotent {A : Type} (f : A -> bool) (l : list A) :
  filter f (filter f l) = filter f l.
Proof.
  induction l as [|a l IH]; [reflexivity|].
  cbn [filter]. destruct (f a) eqn:Hf; [|exact IH].
  cbn [filter]. rewrite Hf, IH. reflexivity.
Qed.

Lemma reduce_tasks_eq sched :
  adjust_schedule "reduce_tasks" sched
  = Ok {| current_phase := current_phase sched;
          daily_tasks := option_map (map reduce_day) (daily_tasks sched) |}.
Proof. reflexivity. Qed.

Lemma reduce_day_tasks days :
  flat_map (fun kv => dflt [] (tasks (snd kv))) (map reduce_day days)
  = filter not_low (flat_map (fun kv => dflt [] (tasks (snd kv))) days).
Proof.
  induction days as [|kv days IH]; [reflexivity|].
  cbn [map flat_map]. rewrite IH, filter_app. reflexivity.
Qed.

(** X12.  The schedule that [reduce_tasks] hands to the write holds the
    tasks whose priority is not ["low"], all of them and in their order; a
    task without a priority stays.  The days, their order and focus and
    [current_phase] are as they were, and the weekly number of tasks that
    the completion rate is computed from goes down by the number of tasks
    removed. *)
Theorem reduce_tasks_removes_low_priority sched sched' :
  adjust_schedule "reduce_tasks" sched = Ok sched' ->
  schedule_tasks sched' = filter not_low (schedule_tasks sched)
  /\ (forall t, In t (schedule_tasks sched') <->
                In t (schedule_tasks sched)
                /\ priority t <> Some "low"%string)
  /\ map fst (dflt [] (daily_tasks sched'))
     = map fst (dflt [] (daily_tasks sched))
  /\ map (fun kv => focus (snd kv)) (dflt [] (daily_tasks sched'))
     = map (fun kv => focus (snd kv)) (dflt [] (daily_tasks sched))
  /\ current_phase sched' = current_phase sched
  /\ total_scheduled_per_week sched'
     = total_scheduled_per_week sched
       - Z.of_nat (List.length
                     (filter (fun t => negb (not_low t))
                        (schedule_tasks sched))).
Proof.
  rewrite reduce_tasks_eq. intros H; inversion H; subst sched'. clear H.
  assert (Htasks :
            schedule_tasks
              {| current_phase := current_phase sched;
                 daily_tasks := option_map (map reduce_day) (daily_tasks sched) |}
            = filter not_low (schedule_tasks sched)).
  { unfold schedule_tasks. cbn [daily_tasks].
    destruct (daily_tasks sched) as [days|]; cbn [option_map dflt];
      [apply reduce_day_tasks|reflexivity]. }
  split; [exact Htasks|]. split; [|split; [|split; [|split]]].
  - intros t. rewrite Htasks, filter_In, not_low_iff. reflexivity.
  - cbn [daily_tasks].
    destruct (daily_tasks sched) as [days|]; cbn [option_map dflt];
      [|reflexivity].
    rewrite map_map. reflexivity.
  - cbn [daily_tasks].
    destruct (daily_tasks sched) as [days|]; cbn [option_map dflt];
      [|reflexivity].
    rewrite map_map. reflexivity.
  - reflexivity.
  - rewrite !total_scheduled_is_length, Htasks.
    pose proof (filter_length_split not_low (schedule_tasks sched)). lia.
Qed.

(** The schedule of the week after [reduce_tasks]. *)
Definition week_schedule_reduced : Schedule :=
  Eval vm_compute in
    match adjust_schedule "reduce_tasks" week_schedule with
    | Ok s => s
    | Raise _ => week_schedule
    end.

Lemma reduce_tasks_removes_low_priority_witness :
  schedule_tasks week_schedule_reduced
  = filter not_low (schedule_tasks week_schedule)
  /\ (forall t, In t (schedule_tasks week_schedule_reduced) <->
                In t (schedule_tasks week_schedule)
                /\ priority t <> Some "low"%string)
  /\ map fst (dflt [] (daily_tasks week_schedule_reduced))
     = map fst (dflt [] (daily_tasks week_schedule))
  /\ map (fun kv => focus (snd kv)) (dflt [] (daily_tasks week_schedule_reduced))
     = map (fun kv => focus (snd kv)) (dflt [] (daily_tasks week_schedule))
  /\ current_phase week_schedule_reduced = current_phase week_schedule
  /\ total_scheduled_per_week week_schedule_reduced
     = total_scheduled_per_week week_schedule
       - Z.of_nat (List.length
                     (filter (fun t => negb (not_low t))
                        (schedule_tasks week_schedule))).
Proof.
  apply (reduce_tasks_removes_low_priority week_schedule
           week_schedule_reduced).
  reflexivity.
Defined.

(** X13.  [reduce_tasks] is idempotent: applied to the schedule it has
    saved, it saves the same schedule again. *)
Theorem reduce_tasks_idempotent sched sched' :
  adjust_schedule "reduce_tasks" sched = Ok sched' ->
  adjust_schedule "reduce_tasks" sched' = Ok sched'.
Proof.
  rewrite !reduce_tasks_eq. intros H; inversion H; subst sched'.
  cbn [current_phase daily_tasks]. f_equal. f_equal.
  destruct (daily_tasks sched) as [days|]; cbn [option_map]; [|reflexivity].
  f_equal. rewrite map_map. apply map_ext. intros [day [f ts]].
  unfold reduce_day. cbn [fst snd focus tasks dflt].
  rewrite filter_idempotent. reflexivity.
Qed.

Lemma reduce_tasks_idempotent_witness :
  adjust_schedule "reduce_tasks" week_schedule_reduced
  = Ok week_schedule_reduced.
Proof.
  apply (reduce_tasks_idempotent week_schedule week_schedule_reduced).
  reflexivity.
Defined.

(** [n] successive [advance_phase] adjustments, each on the schedule the
    previous one saved. *)
Fixpoint advance_times (n : nat) (sched : Schedule) : res Schedule :=
  match n with
  | O => Ok sched
  | S n' => bind (adjust_schedule "advance_phase" sched) (advance_times n')
  end.

(** X15.  After [n >= 1] [advance_phase] adjustments the phase is the
    initial one (1 when absent) plus [n], capped at 4: from a phase of 1 to
    4 it reaches 4 and stays there, and a phase above 4 is brought down to
    4 by the first adjustment.  The days are never touched. *)
Theorem repeated_advance_phase n sched :
  advance_times (S n) sched
  = Ok {| current_phase :=
            Some (Z.min (dflt 1 (current_phase sched) + Z.of_nat (S n)) 4);
          daily_tasks := daily_tasks sched |}.
Proof.
  revert sched. induction n as [|n IH]; intros sched.
  - reflexivity.
  - change (advance_times (S (S n)) sched)
      with (advance_times (S n)
              {| current_phase := Some (Z.min (dflt 1 (current_phase sched) + 1) 4);
                 daily_tasks := daily_tasks sched |}).
    rewrite IH. cbn [current_phase daily_tasks dflt].
    f_equal. f_equal. f_equal. lia.
Qed.

Lemma mapM_Forall2 {A B : Type} (f : A -> res B) (l : list A) :
  forall l', mapM f l = Ok l' -> Forall2 (fun a b => f a = Ok b) l l'.
Proof.
  induction l as [|a l IH]; intros l'; cbn [mapM].
  - intros H; inversion H. constructor.
  - unfold bind. destruct (f a) as [b|] eqn:Hb; [|discriminate].
    destruct (mapM f l) as [t|]; [|discriminate].
    intros H; inversion H; subst l'. constructor; [exact Hb|].
    apply IH. reflexivity.
Qed.

(** What [increase_difficulty] does to one task when it returns. *)
Definition lengthened (t t' : Task) : Prop :=
  id t' = id t
  /\ description t' = description t
  /\ priority t' = priority t
  /\ exists d, scale_duration (dflt 60 (duration_minutes t)) = Ok d
               /\ duration_minutes t' = Some d.

Lemma increase_task_lengthened t t' :
  increase_task t = Ok t' -> lengthened t t'.
Proof.
  unfold increase_task, bind, lengthened.
  destruct (scale_duration _) as [d|]; [|discriminate].
  intros H; inversion H; subst t'. cbn [id description priority duration_minutes].
  repeat split. exists d. split; reflexivity.
Qed.

Lemma increase_day_lengthened kv kv' :
  increase_day kv = Ok kv' ->
  fst kv' = fst kv
  /\ focus (snd kv') = focus (snd kv)
  /\ Forall2 lengthened (dflt [] (tasks (snd kv))) (dflt [] (tasks (snd kv'))).
Proof.
  unfold increase_day, bind.
  destruct (tasks (snd kv)) as [ts|] eqn:Hts.
  - destruct (mapM increase_task ts) as [ts'|] eqn:Hm; [|discriminate].
    intros H; inversion H; subst kv'. cbn [fst snd focus tasks dflt].
    split; [reflexivity|]. split; [reflexivity|].
    apply mapM_Forall2 in Hm.
    clear H Hts.
    induction Hm as [|t t' l l' Ht Hl IH]; [constructor|].
    constructor; [apply increase_task_lengthened; exact Ht|exact IH].
  - intros H; inversion H; subst kv'. rewrite Hts. cbn [dflt].
    split; [reflexivity|]. split; [reflexivity|]. constructor.
Qed.

(** X16.  Whatever the durations, when [increase_difficulty] returns the
    schedule it saves has the same days in the same order with the same
    focus, the same [current_phase], and the same tasks in the same order
    with their ids, descriptions and priorities; every task has a duration
    afterwards, the one [int(duration * 1.2)] gives for its old duration, or
    for 60 when it had none. *)
Theorem increase_difficulty_keeps_the_tasks sched sched' :
  adjust_schedule "increase_difficulty" sched = Ok sched' ->
  Forall2 lengthened (schedule_tasks sched) (schedule_tasks sched')
  /\ map fst (dflt [] (daily_tasks sched'))
     = map fst (dflt [] (daily_tasks sched))
  /\ map (fun kv => focus (snd kv)) (dflt [] (daily_tasks sched'))
     = map (fun kv => focus (snd kv)) (dflt [] (daily_tasks sched))
  /\ current_phase sched' = current_phase sched
  /\ total_scheduled_per_week sched' = total_scheduled_per_week sched.
Proof.
  intros H.
  assert (Hdays : current_phase sched' = current_phase sched
                  /\ Forall2 (fun kv kv' => increase_day kv = Ok kv')
                       (dflt [] (daily_tasks sched))
                       (dflt [] (daily_tasks sched'))).
  { unfold adjust_schedule in H.
    cbn [String.eqb Ascii.eqb Bool.eqb andb] in H.
    destruct (daily_tasks sched) as [days|] eqn:Hd.
    - unfold bind in H.
      destruct (mapM increase_day days) as [days'|] eqn:Hm; [|discriminate].
      inversion H; subst sched'. cbn [current_phase daily_tasks dflt].
      split; [reflexivity|]. apply mapM_Forall2. exact Hm.
    - inversion H; subst sched'. rewrite Hd. cbn [dflt].
      split; [reflexivity|constructor]. }
  destruct Hdays as (Hphase & Hdays).
  assert (Hall : Forall2 lengthened (schedule_tasks sched)
                   (schedule_tasks sched')
                 /\ map fst (dflt [] (daily_tasks sched'))
                    = map fst (dflt [] (daily_tasks sched))
                 /\ map (fun kv => focus (snd kv)) (dflt [] (daily_tasks sched'))
                    = map (fun kv => focus (snd kv))
                        (dflt [] (daily_tasks sched))).
  { unfold schedule_tasks.
    induction Hdays as [|kv kv' days days' Hkv Hrest IH].
    - repeat split. constructor.
    - apply increase_day_lengthened in Hkv.
      destruct Hkv as (Hk & Hf & Ht). destruct IH as (IH1 & IH2 & IH3).
      cbn [flat_map map]. rewrite Hk, Hf, IH2, IH3.
      repeat split. apply Forall2_app; assumption. }
  destruct Hall as (Htasks & Hkeys & Hfocus).
  repeat split; try assumption.
  rewrite !total_scheduled_is_length.
  rewrite (Forall2_length Htasks). reflexivity.
Qed.

Definition week_schedule_increased : Schedule :=
  Eval vm_compute in
    match adjust_schedule "increase_difficulty" week_schedule with
    | Ok s => s
    | Raise _ => week_schedule
    end.

Lemma increase_difficulty_keeps_the_tasks_witness :
  Forall2 lengthened (schedule_tasks week_schedule)
    (schedule_tasks week_schedule_increased)
  /\ map fst (dflt [] (daily_tasks week_schedule_increased))
     = map fst (dflt [] (daily_tasks week_schedule))
  /\ map (fun kv => focus (snd kv))
       (dflt [] (daily_tasks week_schedule_increased))
     = map (fun kv => focus (snd kv)) (dflt [] (daily_tasks week_schedule))
  /\ current_phase week_schedule_increased = current_phase week_schedule
  /\ total_scheduled_per_week week_schedule_increased
     = total_scheduled_per_week week_schedule.
Proof.
  apply (increase_difficulty_keeps_the_tasks week_schedule
           week_schedule_increased).
  vm_compute. reflexivity.
Defined.

(** X17.  Short tasks do not grow: for a duration from 0 up to [2 ^ 50]
    minutes, [int(duration * 1.2)] is never below the duration, and it is
    the duration itself exactly when the duration is under 5 minutes. *)
Theorem short_durations_do_not_grow d :
  0 <= d < 2 ^ 50 ->
  exists d', scale_duration d = Ok d' /\ d <= d' /\ (d' = d <-> d < 5).
Proof.
  intros Hd. exists (Z.quot (6 * d) 5).
  split; [apply scale_duration_exact; rewrite Z.abs_eq; lia|].
  rewrite Z.quot_div_nonneg by lia.
  pose proof (Z.div_mod (6 * d) 5 ltac:(lia)) as Hdm.
  pose proof (Z.mod_pos_bound (6 * d) 5 ltac:(lia)) as Hmod.
  split; [lia|]. split; lia.
Qed.

Lemma short_durations_do_not_grow_witness :
  exists d', scale_duration 4 = Ok d' /\ 4 <= d' /\ (d' = 4 <-> 4 < 5).
Proof.
  apply (short_durations_do_not_grow 4). split; [lia|reflexivity].
Defined.

(* ================================================================== *)
(** * [get_today_tasks] *)
(* ================================================================== *)

(** [strftime("%A").lower()]: the English name of the day of the week, which
    is what [%A] gives in the C locale a Python process starts in.  Day 1 of
    the proleptic calendar is a Monday. *)
Definition weekday_names : list string :=
  ["monday"; "tuesday"; "wednesday"; "thursday"; "friday"; "saturday";
   "sunday"]%string.

Definition weekday (d : pydate) : nat := Z.to_nat ((d - 1) mod 7).

Definition day_name_of (d : pydate) : string :=
  nth (weekday d) weekday_names EmptyString.

(** [dict.get(key)] on a dictionary kept as the list of its items. *)
Fixpoint dict_get {A : Type} (key : string) (d : list (string * A))
  : option A :=
  match d with
  | [] => None
  | (k, v) :: rest => if String.eqb k key then Some v else dict_get key rest
  end.

Record TodayTasks : Set := {
  today_day : string;
  today_focus : string;
  today_tasks : list Task
}.

(** [get_today_tasks()]; [now] is its read of the clock. *)
Definition get_today_tasks (sched : Schedule) (now : pydatetime) : TodayTasks :=
  let day_name := day_name_of (dt_date now) in
  let daily_tasks := dflt [] (daily_tasks sched) in
  let today_schedule :=
    dflt {| focus := None; tasks := None |} (dict_get day_name daily_tasks) in
  {| today_day := day_name;
     today_focus := dflt "general"%string (focus today_schedule);
     today_tasks := dflt [] (tasks today_schedule) |}.

(** 1 January 2024 was a Monday, and the names follow from there. *)
Example first_week_of_2024 :
  map (fun k => day_name_of (day0 + k)) [0; 1; 2; 3; 4; 5; 6] = weekday_names.
Proof. reflexivity. Qed.

Lemma weekday_lt d : (weekday d < 7)%nat.
Proof.
  unfold weekday. pose proof (Z.mod_pos_bound (d - 1) 7 ltac:(lia)). lia.
Qed.

Lemma weekday_plus_7 d : weekday (d + 7) = weekday d.
Proof.
  unfold weekday. f_equal.
  replace (d + 7 - 1) with (d - 1 + 1 * 7) by lia.
  apply Z.mod_add. lia.
Qed.

Lemma dict_get_absent {A : Type} key (d : list (string * A)) :
  ~ In key (map fst d) -> dict_get key d = None.
Proof.
  induction d as [|[k v] d IH]; [reflexivity|].
  cbn [map fst In dict_get]. intros H.
  destruct (String.eqb_spec k key) as [->|Hne]; [exfalso; auto|].
  apply IH. auto.
Qed.

(** X18.  [get_today_tasks] never fails on a missing key: on a day the
    schedule has no entry for (or with no [daily_tasks] at all) it returns
    the name of the day with the focus ["general"] and no task, and the name
    it returns is always one of the seven lower-case English names. *)
Theorem today_without_schedule_is_general sched now :
  ~ In (day_name_of (dt_date now)) (map fst (dflt [] (daily_tasks sched))) ->
  get_today_tasks sched now
  = {| today_day := day_name_of (dt_date now);
       today_focus := "general";
       today_tasks := [] |}
  /\ In (day_name_of (dt_date now)) weekday_names.
Proof.
  intros H. unfold get_today_tasks. rewrite (dict_get_absent _ _ H).
  split; [reflexivity|].
  unfold day_name_of. apply nth_In. apply weekday_lt.
Qed.

Lemma today_without_schedule_is_general_witness :
  get_today_tasks week_schedule (at_day (day0 + 2))
  = {| today_day := day_name_of (dt_date (at_day (day0 + 2)));
       today_focus := "general";
       today_tasks := [] |}
  /\ In (day_name_of (dt_date (at_day (day0 + 2)))) weekday_names.
Proof.
  apply (today_without_schedule_is_general week_schedule (at_day (day0 + 2))).
  cbn. intros [H|[H|[H|[]]]]; discriminate H.
Defined.

(** X19.  What [get_today_tasks] returns depends on the day of the week
    alone: seven days later it returns the same. *)
Theorem today_tasks_repeat_weekly sched now later :
  dt_date later = dt_date now + 7 ->
  get_today_tasks sched later = get_today_tasks sched now.
Proof.
  intros H. unfold get_today_tasks, day_name_of.
  rewrite H, weekday_plus_7. reflexivity.
Qed.

Lemma today_tasks_repeat_weekly_witness :
  get_today_tasks week_schedule (at_day (day0 + 8))
  = get_today_tasks week_schedule (at_day (day0 + 1)).
Proof.
  apply (today_tasks_repeat_weekly week_schedule (at_day (day0 + 1))
           (at_day (day0 + 8))).
  reflexivity.
Defined.

(** The tasks [get_today_tasks] shows over the seven days from [d] on. *)
Definition tasks_shown_in_week (sched : Schedule) (d : pydate) : Z :=
  fold_right Z.add 0
    (map (fun k => Z.of_nat (List.length
                               (today_tasks
                                  (get_today_tasks sched (at_day (d + k))))))
         [0; 1; 2; 3; 4; 5; 6]).

(** The number of tasks found under the names [names] in a dictionary. *)
Definition tasks_under (names : list string)
  (days : list (string * DaySchedule)) : Z :=
  fold_right Z.add 0
    (map (fun n => Z.of_nat (List.length
                               (dflt []
                                  (tasks (dflt {| focus := None; tasks := None |}
                                            (dict_get n days))))))
         names).

Lemma tasks_under_step n names days :
  tasks_under (n :: names) days
  = Z.of_nat (List.length
                (dflt [] (tasks (dflt {| focus := None; tasks := None |}
                                   (dict_get n days)))))
    + tasks_under names days.
Proof. reflexivity. Qed.

Lemma tasks_under_nil names : tasks_under names [] = 0.
Proof.
  induction names as [|n names IH]; [reflexivity|].
  rewrite tasks_under_step, IH. reflexivity.
Qed.

(** Names that are not the key of the first item look further. *)
Lemma tasks_under_skip names k v days :
  ~ In k names -> tasks_under names ((k, v) :: days) = tasks_under names days.
Proof.
  induction names as [|n names IH]; [reflexivity|].
  cbn [In]. intros H. rewrite !tasks_under_step, IH by auto.
  cbn [dict_get].
  destruct (String.eqb_spec k n) as [->|Hne]; [exfalso; auto|reflexivity].
Qed.

Lemma tasks_under_absent names k (days : list (string * DaySchedule)) :
  ~ In k (map fst days) ->
  tasks_under (k :: names) days = tasks_under names days.
Proof.
  intros H. rewrite tasks_under_step, (dict_get_absent _ _ H). reflexivity.
Qed.

(** With distinct names and distinct keys, the first item is counted once
    when its key is among the names. *)
Lemma tasks_under_cons names k v days :
  NoDup names -> ~ In k (map fst days) ->
  tasks_under names ((k, v) :: days)
  = (if existsb (String.eqb k) names
     then Z.of_nat (List.length (dflt [] (tasks v))) else 0)
    + tasks_under names days.
Proof.
  intros Hnd Hk. induction Hnd as [|n names Hn Hnd IH]; [reflexivity|].
  cbn [existsb]. rewrite tasks_under_step. cbn [dict_get].
  destruct (String.eqb_spec k n) as [->|Hne]; cbn [orb dflt].
  - rewrite (tasks_under_skip names n v days Hn).
    rewrite (tasks_under_absent names n days Hk). reflexivity.
  - rewrite IH, tasks_under_step. lia.
Qed.

(** The tasks under distinct names are among the tasks of the dictionary,
    and they are all of them when every key is one of the names. *)
Lemma tasks_under_total names days :
  NoDup names -> NoDup (map fst days) ->
  tasks_under names days
  <= fold_right Z.add 0
       (map (fun d => Z.of_nat (List.length (dflt [] (tasks (snd d))))) days)
  /\ ((forall k, In k (map fst days) -> In k names) ->
      tasks_under names days
      = fold_right Z.add 0
          (map (fun d => Z.of_nat (List.length (dflt [] (tasks (snd d)))))
               days)).
Proof.
  intros Hnames. induction days as [|[k v] days IH]; intros Hnd.
  - rewrite tasks_under_nil. split; [cbn; lia|reflexivity].
  - cbn [map fst] in Hnd. inversion Hnd as [|? ? Hk Hnd']; subst.
    destruct (IH Hnd') as (Hle & Heq).
    rewrite (tasks_under_cons names k v days Hnames Hk).
    cbn [map fold_right snd]. split.
    + destruct (existsb _ names); lia.
    + intros Hall.
      assert (Hin : existsb (String.eqb k) names = true).
      { apply existsb_exists. exists k. split.
        - apply Hall. left. reflexivity.
        - apply String.eqb_refl. }
      rewrite Hin, Heq; [reflexivity|].
      intros k' Hk'. apply Hall. right. exact Hk'.
Qed.

(** The names of seven days in a row are the seven names, each once. *)
Lemma week_names d :
  let names := map (fun k => day_name_of (d + k)) [0; 1; 2; 3; 4; 5; 6] in
  NoDup names /\ (forall n, In n weekday_names -> In n names).
Proof.
  cbn [map]. unfold day_name_of, weekday.
  replace (d + 0 - 1) with (d - 1) by lia.
  replace (d + 1 - 1) with (d - 1 + 1) by lia.
  replace (d + 2 - 1) with (d - 1 + 2) by lia.
  replace (d + 3 - 1) with (d - 1 + 3) by lia.
  replace (d + 4 - 1) with (d - 1 + 4) by lia.
  replace (d + 5 - 1) with (d - 1 + 5) by lia.
  replace (d + 6 - 1) with (d - 1 + 6) by lia.
  rewrite (Z.add_mod (d - 1) 1), (Z.add_mod (d - 1) 2), (Z.add_mod (d - 1) 3),
    (Z.add_mod (d - 1) 4), (Z.add_mod (d - 1) 5), (Z.add_mod (d - 1) 6) by lia.
  pose proof (Z.mod_pos_bound (d - 1) 7 ltac:(lia)) as Hm.
  set (m := (d - 1) mod 7) in *.
  assert (Hcases : m = 0 \/ m = 1 \/ m = 2 \/ m = 3 \/ m = 4 \/ m = 5 \/ m = 6)
    by lia.
  clearbody m.
  assert (Hnd : forall l : list string,
             (forallb (fun n => (count_occ string_dec l n =? 1)%nat) l = true)
             -> NoDup l).
  { intros l H. apply (NoDup_count_occ' string_dec). intros x Hx.
    rewrite forallb_forall in H. apply Nat.eqb_eq. apply H. exact Hx. }
  destruct Hcases as [->|[->|[->|[->|[->|[->| ->]]]]]];
    (split;
     [apply Hnd; vm_compute; reflexivity
     |intros n Hn; cbn in Hn |- *;
      repeat (destruct Hn as [<-|Hn]; [tauto|]); contradiction]).
Qed.

(** X20.  Over seven days in a row [get_today_tasks] shows at most the
    number of tasks [_update_completion_rate] counts for a week, and exactly
    that number when every key of [daily_tasks] is the lower-case English
    name of a day: the tasks filed under any other key count in the
    completion rate and are never shown. *)
Theorem week_of_today_tasks_le_total sched d :
  NoDup (map fst (dflt [] (daily_tasks sched))) ->
  tasks_shown_in_week sched d <= total_scheduled_per_week sched
  /\ ((forall k, In k (map fst (dflt [] (daily_tasks sched))) ->
                 In k weekday_names) ->
      tasks_shown_in_week sched d = total_scheduled_per_week sched).
Proof.
  intros Hnd.
  pose proof (week_names d) as (Hnames & Hall). cbv zeta in Hnames, Hall.
  assert (Hshown :
            tasks_shown_in_week sched d
            = tasks_under (map (fun k => day_name_of (d + k))
                             [0; 1; 2; 3; 4; 5; 6])
                (dflt [] (daily_tasks sched))) by reflexivity.
  rewrite Hshown. unfold total_scheduled_per_week.
  destruct (tasks_under_total _ (dflt [] (daily_tasks sched)) Hnames Hnd)
    as (Hle & Heq).
  split; [exact Hle|].
  intros Hkeys. apply Heq. intros k Hk. apply Hall, Hkeys, Hk.
Qed.

Lemma week_of_today_tasks_le_total_witness :
  tasks_shown_in_week week_schedule day0
  <= total_scheduled_per_week week_schedule
  /\ ((forall k, In k (map fst (dflt [] (daily_tasks week_schedule))) ->
                 In k weekday_names) ->
      tasks_shown_in_week week_schedule day0
      = total_scheduled_per_week week_schedule).
Proof.
  apply (week_of_today_tasks_le_total week_schedule day0).
  cbn. repeat constructor; cbn; intros H;
    repeat (destruct H as [H|H]; [discriminate H|]); exact H.
Defined.

(* ================================================================== *)
(** * The exceptions of the arithmetic, and the range of the rate *)
(* ================================================================== *)

From Stdlib Require Qpower.

(** ** The shape of a rounded result *)

Lemma shr_1_nonneg mrs : 0 <= shr_m mrs -> 0 <= shr_m (shr_1 mrs).
Proof.
  destruct mrs as [m r s]. cbn [shr_m].
  destruct m as [|[p|p|]|p]; cbn [shr_1 shr_m]; lia.
Qed.

Lemma iter_shr_1_nonneg p :
  forall mrs, 0 <= shr_m mrs -> 0 <= shr_m (iter_pos shr_1 p mrs).
Proof.
  induction p as [p IH|p IH|]; intros mrs H; cbn [iter_pos];
    auto using shr_1_nonneg.
Qed.

Lemma shr_fexp_nonneg m e l :
  0 <= m -> 0 <= shr_m (fst (shr_fexp prec emax m e l)).
Proof.
  intros Hm. unfold shr_fexp, shr.
  assert (H0 : 0 <= shr_m (shr_record_of_loc m l))
    by (destruct l as [|[]]; cbn [shr_record_of_loc shr_m]; exact Hm).
  destruct (fexp prec emax (Zdigits2 m + e) - e); cbn [fst];
    auto using iter_shr_1_nonneg.
Qed.

Lemma round_nearest_even_nonneg m l :
  0 <= m -> 0 <= round_nearest_even m l.
Proof.
  intros Hm. unfold round_nearest_even.
  destruct l as [|[]]; try destruct (Z.even m); lia.
Qed.

(** A rounded result has the sign it was given, whatever else it is. *)
Definition signed_as (s : bool) (f : spec_float) : Prop :=
  f = S754_zero s \/ (exists m e, f = S754_finite s m e)
  \/ f = S754_infinity s \/ f = S754_nan.

Lemma binary_round_aux_sign s m e l :
  signed_as s (binary_round_aux prec emax s m e l).
Proof.
  unfold binary_round_aux, signed_as.
  destruct (shr_fexp prec emax m e l) as [mrs' e'].
  destruct (shr_fexp prec emax _ e' loc_Exact) as [mrs'' e''].
  destruct (shr_m mrs''); [|destruct (_ <=? _)|]; eauto.
Qed.

(** A mantissa that is not negative is never rounded to NaN. *)
Lemma binary_round_aux_not_nan s m e l :
  0 <= m -> binary_round_aux prec emax s m e l <> S754_nan.
Proof.
  intros Hm. unfold binary_round_aux.
  pose proof (shr_fexp_nonneg m e l Hm) as H1.
  destruct (shr_fexp prec emax m e l) as [mrs' e']. cbn [fst] in H1.
  pose proof (shr_fexp_nonneg _ e' loc_Exact
                (round_nearest_even_nonneg _ (loc_of_shr_record mrs') H1))
    as H2.
  destruct (shr_fexp prec emax _ e' loc_Exact) as [mrs'' e'']. cbn [fst] in H2.
  destruct (shr_m mrs''); [|destruct (_ <=? _)|]; try discriminate. lia.
Qed.

Lemma SFmul_not_nan x y :
  is_finite x = true -> is_finite y = true -> SFmul prec emax x y <> S754_nan.
Proof.
  destruct x as [sx|sx| |sx mx ex], y as [sy|sy| |sy my ey];
    cbn [is_finite SFmul]; try discriminate.
  intros _ _. apply binary_round_aux_not_nan. lia.
Qed.

(** ** What the operations raise *)

Lemma float_of_int_raises z e :
  float_of_int z = Raise e -> e = OverflowError.
Proof.
  unfold float_of_int. destruct (is_finite _); [discriminate|].
  intros H; inversion H; reflexivity.
Qed.

Lemma float_of_int_finite z f : float_of_int z = Ok f -> is_finite f = true.
Proof.
  unfold float_of_int. destruct (is_finite _) eqn:H; [|discriminate].
  intros H'; inversion H'; subst; exact H.
Qed.

Lemma to_float_raises x e : to_float x = Raise e -> e = OverflowError.
Proof. destruct x; [apply float_of_int_raises|discriminate]. Qed.

Lemma py_add_raises x y e : py_add x y = Raise e -> e = OverflowError.
Proof.
  unfold py_add, bind.
  destruct x as [a|fa], y as [b|fb]; try discriminate;
    repeat match goal with
      | |- context [to_float ?v] =>
          let H := fresh "H" in
          destruct (to_float v) eqn:H;
          [|apply to_float_raises in H; congruence]
      end; discriminate.
Qed.

Lemma py_mul_raises x y e : py_mul x y = Raise e -> e = OverflowError.
Proof.
  unfold py_mul, bind.
  destruct x as [a|fa], y as [b|fb]; try discriminate;
    repeat match goal with
      | |- context [to_float ?v] =>
          let H := fresh "H" in
          destruct (to_float v) eqn:H;
          [|apply to_float_raises in H; congruence]
      end; discriminate.
Qed.

(** A division of two integers raises [ZeroDivisionError] for a divisor of
    0 only. *)
Lemma py_truediv_int_raises a b e :
  b <> 0 -> py_truediv (PyInt a) (PyInt b) = Raise e -> e = OverflowError.
Proof.
  unfold py_truediv. destruct b as [|q|q]; [congruence| |];
    intros _; destruct (is_finite _); try discriminate;
    intros H; inversion H; reflexivity.
Qed.

Lemma scale_duration_raises d e :
  scale_duration d = Raise e -> e = OverflowError.
Proof.
  unfold scale_duration, py_mul, bind. cbn [to_float].
  destruct (float_of_int d) as [f|e'] eqn:Hf.
  - apply float_of_int_finite in Hf.
    pose proof (SFmul_not_nan f lit_1_2 Hf eq_refl) as Hnan.
    unfold py_int. destruct (SFmul prec emax f lit_1_2) as [s|s| |s m x];
      try discriminate; [|congruence].
    intros H; inversion H; reflexivity.
  - apply float_of_int_raises in Hf. congruence.
Qed.

Lemma mapM_raises {A B : Type} (f : A -> res B) (l : list A) e :
  mapM f l = Raise e -> exists a, In a l /\ f a = Raise e.
Proof.
  induction l as [|a l IH]; cbn [mapM]; [discriminate|].
  unfold bind. destruct (f a) as [b|e'] eqn:Ha.
  - destruct (mapM f l) as [t|e''] eqn:Hl; [discriminate|].
    intros H; inversion H; subst e''.
    destruct (IH eq_refl) as (a' & Hin & Ha'). exists a'. split; [right|]; auto.
  - intros H; inversion H; subst e'. exists a. split; [left|]; auto.
Qed.

(** An exception of the statements of [adjust_schedule] before the write
    comes from the arithmetic on one task of [increase_difficulty]. *)
Lemma adjust_schedule_raises adjustment_type sched e :
  adjust_schedule adjustment_type sched = Raise e ->
  adjustment_type = "increase_difficulty"%string
  /\ e = OverflowError
  /\ exists t, In t (schedule_tasks sched)
               /\ scale_duration (dflt 60 (duration_minutes t))
                  = Raise OverflowError.
Proof.
  unfold adjust_schedule.
  destruct (String.eqb_spec adjustment_type "reduce_tasks"); [discriminate|].
  destruct (String.eqb_spec adjustment_type "increase_difficulty") as [->|];
    [|destruct (String.eqb adjustment_type "advance_phase"); discriminate].
  unfold schedule_tasks.
  destruct (daily_tasks sched) as [days|]; [|discriminate].
  unfold bind. destruct (mapM increase_day days) as [days'|e'] eqn:Hm;
    [discriminate|].
  intros H; inversion H; subst e'.
  apply mapM_raises in Hm. destruct Hm as (kv & Hkv & Hday).
  unfold increase_day in Hday.
  destruct (tasks (snd kv)) as [ts|] eqn:Hts; [|discriminate].
  unfold bind in Hday.
  destruct (mapM increase_task ts) as [ts'|e'] eqn:Hm'; [discriminate|].
  inversion Hday; subst e'.
  apply mapM_raises in Hm'. destruct Hm' as (t & Ht & Htask).
  unfold increase_task, bind in Htask.
  destruct (scale_duration _) as [d|e'] eqn:Hd; [discriminate|].
  inversion Htask; subst e'.
  pose proof (scale_duration_raises _ _ Hd) as ->.
  split; [reflexivity|]. split; [reflexivity|].
  exists t. split; [|exact Hd].
  cbn [dflt]. apply in_flat_map. exists kv. split; [exact Hkv|].
  rewrite Hts. exact Ht.
Qed.

(** The loop stops at the first element that raises. *)
Lemma mapM_raises_at {A B : Type} (f : A -> res B) (l : list A) a e :
  In a l -> f a = Raise e -> exists e', mapM f l = Raise e'.
Proof.
  induction l as [|b l IH]; cbn [mapM In]; [contradiction|].
  intros [->|Hin] Ha; unfold bind.
  - rewrite Ha. eauto.
  - destruct (f b) as [b'|e1]; [|eauto].
    destruct (IH Hin Ha) as (e' & ->). eauto.
Qed.

(** X21.  Before the write, [adjust_schedule] raises in exactly one
    situation: the adjustment is ["increase_difficulty"] and some task of
    the schedule has a duration too large for a float or for the product
    with 1.2; the exception is [OverflowError].  The statements of
    [reduce_tasks], of [advance_phase] and of an unknown type raise nothing.
    The write that ends every call is not part of this statement: it is not
    modelled, and it can raise. *)
Theorem adjust_schedule_raises_only_overflow adjustment_type sched e :
  adjust_schedule adjustment_type sched = Raise e <->
  (adjustment_type = "increase_difficulty"%string
   /\ e = OverflowError
   /\ exists t, In t (schedule_tasks sched)
                /\ scale_duration (dflt 60 (duration_minutes t))
                   = Raise OverflowError).
Proof.
  split; [apply adjust_schedule_raises|].
  intros (-> & -> & t & Hin & Ht).
  assert (Hraise : exists e', adjust_schedule "increase_difficulty" sched
                              = Raise e').
  { unfold adjust_schedule.
    change (String.eqb "increase_difficulty" "reduce_tasks") with false.
    change (String.eqb "increase_difficulty" "increase_difficulty") with true.
    cbv beta iota.
    unfold schedule_tasks in Hin.
    destruct (daily_tasks sched) as [days|]; cbn [dflt] in Hin;
      [|contradiction].
    apply in_flat_map in Hin. destruct Hin as (kv & Hkv & Hin).
    assert (Hday : exists e', increase_day kv = Raise e').
    { unfold increase_day.
      destruct (tasks (snd kv)) as [ts|]; cbn [dflt] in Hin;
        [|contradiction].
      destruct (mapM_raises_at increase_task ts t OverflowError Hin)
        as (e' & ->); [|unfold bind; eauto].
      unfold increase_task, bind. rewrite Ht. reflexivity. }
    destruct Hday as (e1 & Hday).
    destruct (mapM_raises_at increase_day days kv e1 Hkv Hday) as (e' & ->).
    unfold bind. eauto. }
  destruct Hraise as (e' & Hraise).
  pose proof (adjust_schedule_raises _ _ _ Hraise) as (_ & -> & _).
  exact Hraise.
Qed.

(** A schedule with a task of [2 ^ 1024] minutes. *)
Definition overflowing_schedule : Schedule :=
  {| current_phase := None;
     daily_tasks :=
       Some [("monday"%string,
              {| focus := None;
                 tasks := Some [sample_task "t" (2 ^ 1024) "high"] |})] |}.

Example overflowing_schedule_raises :
  adjust_schedule "increase_difficulty" overflowing_schedule
  = Raise OverflowError.
Proof. vm_compute. reflexivity. Qed.

(** ** What [complete_task] raises *)

Lemma py_truediv_int_finite a b w :
  py_truediv (PyInt a) (PyInt b) = Ok w ->
  exists f, w = PyFloat f /\ is_finite f = true.
Proof.
  unfold py_truediv. destruct b as [|q|q]; [discriminate| |];
    destruct (is_finite _) eqn:Hf; try discriminate;
    intros H; inversion H; eauto.
Qed.

Lemma py_int_product_raises t y x e :
  (forall f, y = PyFloat f -> is_finite f = true) ->
  py_mul (PyInt t) y = Ok x -> py_int x = Raise e -> e = OverflowError.
Proof.
  intros Hy. unfold py_mul, bind. destruct y as [b|f].
  - intros H; inversion H; subst x. discriminate.
  - cbn [to_float]. destruct (float_of_int t) as [ft|] eqn:Hft; [|discriminate].
    intros H; inversion H; subst x.
    apply float_of_int_finite in Hft.
    pose proof (SFmul_not_nan ft f Hft (Hy f eq_refl)) as Hnan.
    unfold py_int. destruct (SFmul prec emax ft f) as [s|s| |s m z];
      try discriminate; [|congruence].
    intros H'; inversion H'; reflexivity.
Qed.

Lemma expected_tasks_of_raises total days e :
  expected_tasks_of total days = Raise e -> e = OverflowError.
Proof.
  unfold expected_tasks_of, bind.
  destruct (py_truediv (PyInt days) (PyInt 7)) as [w|e'] eqn:Hw.
  - apply py_truediv_int_finite in Hw. destruct Hw as (f & -> & Hf).
    destruct (py_mul _ _) as [x|e'] eqn:Hx.
    + apply (py_int_product_raises _ _ _ _) with (2 := Hx).
      unfold py_max. destruct (py_gt _ _); intros g Hg; inversion Hg.
      subst g. exact Hf.
    + intros H; inversion H; subst e'. exact (py_mul_raises _ _ _ Hx).
  - intros H; inversion H; subst e'.
    apply (py_truediv_int_raises days 7); [discriminate|exact Hw].
Qed.

Lemma rate_of_raises completed expected e :
  expected <> 0 -> rate_of completed expected = Raise e -> e = OverflowError.
Proof.
  intros Hne. unfold rate_of, bind.
  destruct (py_truediv _ _) as [q|e'] eqn:Hq.
  - destruct (py_mul q (PyInt 100)) as [r|e'] eqn:Hr; [discriminate|].
    intros H; inversion H; subst e'. exact (py_mul_raises _ _ _ Hr).
  - intros H; inversion H; subst e'.
    exact (py_truediv_int_raises _ _ _ Hne Hq).
Qed.

Lemma count_step_raises hours_spent s e :
  count_step hours_spent s = Raise e -> e = OverflowError.
Proof.
  unfold count_step, bind.
  destruct hours_spent as [h|]; [destruct (py_truthy h)|]; try discriminate.
  destruct (py_add _ h) as [t|e'] eqn:Ha; [discriminate|].
  intros H; inversion H; subst e'. exact (py_add_raises _ _ _ Ha).
Qed.

Lemma rate_step_raises sched now start s e :
  rate_step sched now start s = Raise e -> e = OverflowError.
Proof.
  unfold rate_step, bind.
  destruct (_ =? 0); [discriminate|].
  destruct start as [d|]; [|discriminate].
  destruct (expected_tasks_of _ _) as [n|e'] eqn:Hn.
  - destruct (n >? 0) eqn:Hpos; [|discriminate].
    destruct (rate_of _ n) as [r|e'] eqn:Hr; [discriminate|].
    intros H; inversion H; subst e'.
    apply (rate_of_raises (dflt 0 (total_tasks_completed s)) n e);
      [|exact Hr].
    rewrite Z.gtb_ltb in Hpos. apply Z.ltb_lt in Hpos. lia.
  - intros H; inversion H; subst e'. exact (expected_tasks_of_raises _ _ _ Hn).
Qed.

(** The streak update raises where [stats["current_streak_days"]] is read
    before any branch has written it. *)
Lemma streak_step_raises now l x s e :
  streak_step now (l ++ [x]) s = Raise e ->
  e = KeyError
  /\ current_streak_days s = None
  /\ dflt 0 (longest_streak_days s) < 0
  /\ dt_date (date x) <> dt_date now.
Proof.
  unfold streak_step, bump_streak, raise_longest. rewrite last_last.
  set (y := negb _).
  destruct (dt_date (date x) =? dt_date now) eqn:Heq.
  - destruct (current_streak_days s) as [c|] eqn:Hc; cbn [dflt].
    + destruct (y || (c =? 0));
        cbn [current_streak_days longest_streak_days
             set_current_streak_days dflt]; try rewrite Hc; cbn [dflt];
        destruct (_ >? _); discriminate.
    + rewrite orb_true_r.
      cbn [current_streak_days longest_streak_days
           set_current_streak_days dflt].
      destruct (_ >? _); discriminate.
  - apply Z.eqb_neq in Heq.
    destruct (dt_date now - dt_date (date x) >? 1).
    + cbn [current_streak_days longest_streak_days
           set_current_streak_days dflt].
      destruct (_ >? _); discriminate.
    + destruct (current_streak_days s) as [c|] eqn:Hc; cbn [dflt].
      * destruct (_ >? _); discriminate.
      * destruct (0 >? dflt 0 (longest_streak_days s)) eqn:Hgt;
          [|discriminate].
        rewrite Z.gtb_ltb in Hgt. apply Z.ltb_lt in Hgt.
        intros H; inversion H. repeat split; assumption.
Qed.

(** X22.  What the statements of [complete_task] before the write raise,
    on a store whose [start_date] and log dates are well formed.  The
    division by [expected_tasks] never raises [ZeroDivisionError] and the
    arithmetic never reaches [int()] with a NaN: an exception of these
    statements is an [OverflowError] of the arithmetic on the hours or on
    the rate, or the [KeyError] of the streak update, and that one only on
    statistics without [current_streak_days] and with a negative
    [longest_streak_days], when the clock has passed midnight between the
    log entry and the streak update.  Two sources of exceptions are not part
    of this statement, because the model holds dates parsed and ends at the
    write: the [ValueError] of a date that does not parse, and what
    [json.dump] raises. *)
Theorem complete_task_raises_only sched p clk tid hrs rating e :
  run_complete_task sched p clk tid hrs rating = Raise e ->
  e = OverflowError
  \/ (e = KeyError
      /\ current_streak_days (stats_of p) = None
      /\ dflt 0 (longest_streak_days (stats_of p)) < 0
      /\ dt_date (now_log clk) <> dt_date (now_streak clk)).
Proof.
  rewrite run_complete_task_eq. unfold bind, stats_of.
  destruct (overall_stats p) as [st|]; cbn [dflt].
  - destruct (count_step hrs st) as [s1|e1] eqn:H1.
    + destruct (rate_step _ _ _ s1) as [s2|e2] eqn:H2.
      * destruct (streak_step _ _ s2) as [s3|e3] eqn:H3; [discriminate|].
        intros H; inversion H; subst e3. right.
        apply streak_step_raises in H3.
        destruct H3 as (-> & Hc & Hl & Hd).
        pose proof (rate_step_frame _ _ _ _ _ H2) as (Hc2 & Hl2 & _).
        pose proof (count_step_frame _ _ _ H1) as (Hc1 & Hl1 & _).
        rewrite Hc2, Hc1 in Hc. rewrite Hl2, Hl1 in Hl.
        repeat split; assumption.
      * intros H; inversion H; subst e2. left.
        exact (rate_step_raises _ _ _ _ _ H2).
    + intros H; inversion H; subst e1. left.
      exact (count_step_raises _ _ _ H1).
  - destruct (count_step hrs empty_stats) as [s1|e1] eqn:H1.
    + destruct (rate_step _ _ _ s1) as [s2|e2] eqn:H2.
      * destruct (streak_step _ _ empty_stats) as [s3|e3] eqn:H3;
          [discriminate|].
        apply streak_step_raises in H3.
        destruct H3 as (_ & _ & Hl & _). cbn in Hl. lia.
      * intros H; inversion H; subst e2. left.
        exact (rate_step_raises _ _ _ _ _ H2).
    + intros H; inversion H; subst e1. left.
      exact (count_step_raises _ _ _ H1).
Qed.

(** Statistics without a streak and with a negative longest streak. *)
Definition negative_longest_store : Progress :=
  {| start_date := None;
     daily_log := None;
     overall_stats := Some (set_longest_streak_days (-1) empty_stats);
     phase_progress := None;
     last_updated := None |}.

Lemma complete_task_raises_only_witness :
  KeyError = OverflowError
  \/ (KeyError = KeyError
      /\ current_streak_days (stats_of negative_longest_store) = None
      /\ dflt 0 (longest_streak_days (stats_of negative_longest_store)) < 0
      /\ dt_date (now_log clock_over_midnight)
         <> dt_date (now_streak clock_over_midnight)).
Proof.
  apply (complete_task_raises_only one_task_schedule negative_longest_store
           clock_over_midnight "t1" None None KeyError).
  vm_compute. reflexivity.
Defined.

(** ** The range of the completion rate *)

(** A rate from 0 to 100, bounds included. *)
Definition is_percentage (r : pynum) : bool :=
  py_ge r (PyInt 0) && py_ge (PyInt 100) r.

(** The binary64 value nearest to [k / 10], as [round(x, 1)] produces it. *)
Definition tenth (k : positive) : pynum :=
  PyFloat (SFdiv prec emax (S754_finite false k 0) (S754_finite false 10 0)).

Lemma tenths_are_percentages :
  forallb (fun n => is_percentage (tenth (Pos.of_nat n))) (seq 1 1000) = true.
Proof. vm_compute. reflexivity. Qed.

Lemma tenth_is_percentage k :
  Zpos k <= 1000 -> is_percentage (tenth k) = true.
Proof.
  intros Hk. pose proof tenths_are_percentages as H.
  rewrite forallb_forall in H. specialize (H (Pos.to_nat k)).
  rewrite Pos2Nat.id in H. apply H. apply in_seq. lia.
Qed.

Lemma round_half_even_bounds q :
  (0 <= q)%Q -> (q < inject_Z 1000)%Q -> 0 <= round_half_even q <= 1000.
Proof.
  intros H0 H1. unfold round_half_even.
  pose proof (Qfloor_le q) as Hlo. pose proof (Qlt_floor q) as Hhi.
  set (fl := Qfloor q) in *.
  assert (Hfl0 : 0 < fl + 1).
  { rewrite Zlt_Qlt. apply (Qle_lt_trans _ q); assumption. }
  assert (Hfl1 : fl < 1000).
  { rewrite Zlt_Qlt. apply (Qle_lt_trans _ q); assumption. }
  destruct (Qcompare _ _); [destruct (Z.even fl)| |]; lia.
Qed.

(** The rate that is stored, from a product that is not negative. *)
Lemma stored_rate_is_percentage g :
  signed_as false g ->
  is_percentage (py_round (py_min (PyInt 100) (PyFloat g)) 1) = true.
Proof.
  intros [->|[(m & e & ->)|[->| ->]]]; try (vm_compute; reflexivity).
  unfold py_min.
  destruct (py_lt (PyFloat (S754_finite false m e)) (PyInt 100)) eqn:Hlt;
    [|reflexivity].
  unfold py_round.
  change (Z.to_pos (10 ^ Z.of_nat 1)) with 10%positive. cbv zeta.
  assert (Hv : (inject_Z (Zpos m) * Qpower 2 e < inject_Z 100)%Q).
  { unfold py_lt, val, float_val, xcompare in Hlt. cbn [cond_Zopp] in Hlt.
    apply Qlt_alt. destruct (Qcompare _ _); try discriminate. reflexivity. }
  assert (Hp : (0 <= inject_Z (Zpos m) * Qpower 2 e)%Q).
  { apply Qmult_le_0_compat; [|apply Qpower.Qpower_0_le; discriminate].
    unfold Qle. cbn. lia. }
  pose proof (round_half_even_bounds
                (inject_Z (Zpos m) * Qpower 2 e * inject_Z (Zpos 10))) as Hk.
  destruct (round_half_even _) as [|kp|kp].
  - reflexivity.
  - apply (tenth_is_percentage kp). apply Hk.
    + apply Qmult_le_0_compat; [exact Hp|discriminate].
    + change (inject_Z 1000) with (inject_Z 100 * inject_Z 10)%Q.
      apply Qmult_lt_compat_r; [reflexivity|exact Hv].
  - reflexivity.
Qed.

Lemma float_of_frac_sign a b : 0 <= a -> signed_as false (float_of_frac a b).
Proof.
  intros Ha. unfold float_of_frac. destruct a as [|p|p]; [left; reflexivity| |lia].
  cbn [SFdiv]. destruct (SFdiv_core_binary _ _ _ _ _ _) as [[mz ez] lz].
  apply binary_round_aux_sign.
Qed.

Lemma SFmul_sign f m e :
  signed_as false f ->
  signed_as false (SFmul prec emax f (S754_finite false m e)).
Proof.
  intros [->|[(m' & e' & ->)|[->| ->]]]; cbn [SFmul xorb].
  - left; reflexivity.
  - apply binary_round_aux_sign.
  - right; right; left; reflexivity.
  - right; right; right; reflexivity.
Qed.

(** [float(100)]. *)
Lemma float_of_int_100 :
  float_of_int 100 = Ok (S754_finite false 7036874417766400 (-46)).
Proof. vm_compute. reflexivity. Qed.

Lemma rate_of_is_percentage completed expected r :
  0 <= completed -> 0 < expected ->
  rate_of completed expected = Ok r -> is_percentage r = true.
Proof.
  intros Hc He. unfold rate_of, bind, py_truediv.
  destruct expected as [|ep|ep]; try lia.
  pose proof (float_of_frac_sign completed ep Hc) as Hs.
  destruct (is_finite (float_of_frac completed ep)); [|discriminate].
  unfold py_mul, bind. cbn [to_float]. rewrite float_of_int_100.
  intros H; inversion H; subst r.
  apply stored_rate_is_percentage. apply SFmul_sign. exact Hs.
Qed.

Lemma rate_step_cases sched now start s s' :
  rate_step sched now start s = Ok s' ->
  s' = s
  \/ exists n r, 0 < n
                 /\ rate_of (dflt 0 (total_tasks_completed s)) n = Ok r
                 /\ s' = set_completion_rate_percent r s.
Proof.
  unfold rate_step, bind.
  destruct (_ =? 0); [intros H; inversion H; auto|].
  destruct start as [d|]; [|intros H; inversion H; auto].
  destruct (expected_tasks_of _ _) as [n|]; [|discriminate].
  destruct (n >? 0) eqn:Hn; [|intros H; inversion H; auto].
  destruct (rate_of _ n) as [r|] eqn:Hr; [|discriminate].
  intros H; inversion H. right. exists n, r.
  rewrite Z.gtb_ltb in Hn. apply Z.ltb_lt in Hn. auto.
Qed.

(** X23.  The rate [complete_task] writes is a percentage: on statistics
    whose [total_tasks_completed] is not negative, the
    [completion_rate_percent] that is saved is the one that was there,
    untouched, or a number from 0 to 100, whatever the schedule, the dates
    and the roundings. *)
Theorem saved_rate_is_a_percentage sched p clk tid hrs rating st p' :
  overall_stats p = Some st ->
  0 <= dflt 0 (total_tasks_completed st) ->
  run_complete_task sched p clk tid hrs rating = Ok p' ->
  completion_rate_percent (stats_of p') = completion_rate_percent st
  \/ exists r, completion_rate_percent (stats_of p') = Some r
               /\ py_ge r (PyInt 0) = true
               /\ py_ge (PyInt 100) r = true.
Proof.
  intros Hst Hcount. rewrite run_complete_task_eq, Hst. unfold bind.
  destruct (count_step hrs st) as [s1|] eqn:H1; [|discriminate].
  destruct (rate_step _ _ _ s1) as [s2|] eqn:H2; [|discriminate].
  destruct (streak_step _ _ s2) as [s3|] eqn:H3; [|discriminate].
  intros H; inversion H; subst p'.
  unfold stats_of, saved_progress; cbn [overall_stats dflt].
  pose proof (streak_step_spec _ _ _ _ H3) as (Hr3 & _). rewrite Hr3.
  pose proof (count_step_frame _ _ _ H1) as (_ & _ & Hr1 & _ & Ht1).
  destruct (rate_step_cases _ _ _ _ _ H2) as [->|(n & r & Hn & Hr & ->)].
  - left. exact Hr1.
  - right. exists r. split; [reflexivity|].
    rewrite Ht1 in Hr. cbn [dflt] in Hr.
    apply rate_of_is_percentage in Hr; [|lia|exact Hn].
    unfold is_percentage in Hr. apply andb_true_iff in Hr. exact Hr.
Qed.

Lemma saved_rate_is_a_percentage_witness :
  completion_rate_percent (stats_of after_second_call)
  = completion_rate_percent (stats_of after_first_call)
  \/ exists r, completion_rate_percent (stats_of after_second_call) = Some r
               /\ py_ge r (PyInt 0) = true
               /\ py_ge (PyInt 100) r = true.
Proof.
  apply (saved_rate_is_a_percentage one_task_schedule after_first_call
           (clock_on (day0 + 1)) "t1" (Some (PyFloat (float_of_frac 3 2)))
           (Some 3) (stats_of after_first_call) after_second_call).
  - reflexivity.
  - vm_compute. discriminate.
  - vm_compute. reflexivity.
Defined.

(** ** The first week *)

(** From the start date to six days after it, the tasks expected are those
    of one week. *)
Lemma expected_in_first_week total days :
  1 <= days <= 7 -> expected_tasks_of total days = Ok total.
Proof.
  intros Hd.
  assert (Hw : bind (py_truediv (PyInt days) (PyInt 7))
                 (fun w => Ok (py_max (PyInt 1) w)) = Ok (PyInt 1)).
  { assert (Hcases : days = 1 \/ days = 2 \/ days = 3 \/ days = 4
                     \/ days = 5 \/ days = 6 \/ days = 7) by lia.
    destruct Hcases as [->|[->|[->|[->|[->|[->| ->]]]]]];
      vm_compute; reflexivity. }
  unfold expected_tasks_of.
  destruct (py_truediv (PyInt days) (PyInt 7)) as [w|]; [|discriminate].
  cbn [bind] in Hw |- *. inversion Hw as [Hw'].
  unfold py_mul, py_int, bind. rewrite !Hw'. f_equal. lia.
Qed.

(** X24.  From the start date to six days after it, the rate
    [complete_task] saves on a store with statistics is the number of
    completed tasks, the new one included, over the number of tasks the
    schedule has for a week, as a percentage capped at 100 and rounded to
    one decimal. *)
Theorem first_week_rate sched p clk tid hrs rating st start p' :
  overall_stats p = Some st ->
  start_date p = Some start ->
  0 <= dt_date (now_rate clk) - start <= 6 ->
  total_scheduled_per_week sched <> 0 ->
  run_complete_task sched p clk tid hrs rating = Ok p' ->
  exists r,
    rate_of (dflt 0 (total_tasks_completed st) + 1)
      (total_scheduled_per_week sched) = Ok r
    /\ completion_rate_percent (stats_of p') = Some r.
Proof.
  intros Hst Hstart Hdays Htotal Hrun.
  destruct (rate_stored_when_stats_present _ _ _ _ _ _ _ _ Hst Hrun)
    as (s1 & s2 & _ & Ht1 & H2 & ->).
  rewrite Hstart in H2. unfold rate_step in H2.
  apply Z.eqb_neq in Htotal. rewrite Htotal in H2.
  rewrite expected_in_first_week in H2 by lia. cbn [bind] in H2.
  assert (Hpos : (total_scheduled_per_week sched >? 0) = true).
  { rewrite Z.gtb_ltb. apply Z.ltb_lt. apply Z.eqb_neq in Htotal.
    rewrite total_scheduled_is_length in *. lia. }
  rewrite Hpos, Ht1 in H2. cbn [dflt] in H2.
  destruct (rate_of _ _) as [r|]; [|discriminate].
  cbn [bind] in H2. inversion H2; subst s2. exists r. split; reflexivity.
Qed.

(** A store with statistics, started on [day0], and the document a call on
    the fourth day saves. *)
Definition counted_store : Progress :=
  {| start_date := Some day0;
     daily_log := None;
     overall_stats := Some (set_total_tasks_completed 2 empty_stats);
     phase_progress := None;
     last_updated := None |}.

Definition counted_store_after : Progress :=
  Eval vm_compute in
    match run_complete_task week_schedule counted_store (clock_on (day0 + 3))
            "read" None None with
    | Ok p => p
    | Raise _ => empty_progress
    end.

Lemma first_week_rate_witness :
  exists r,
    rate_of (dflt 0 (total_tasks_completed (stats_of counted_store)) + 1)
      (total_scheduled_per_week week_schedule) = Ok r
    /\ completion_rate_percent (stats_of counted_store_after) = Some r.
Proof.
  apply (first_week_rate week_schedule counted_store (clock_on (day0 + 3))
           "read" None None (stats_of counted_store) day0 counted_store_after).
  - reflexivity.
  - reflexivity.
  - vm_compute. split; discriminate.
  - vm_compute. discriminate.
  - vm_compute. reflexivity.
Defined.

(** ** What [get_stats] raises *)

(** A positive integer below [2 ^ 50] is a float that is not zero. *)
Lemma float_of_small_int d :
  0 < d < 2 ^ 50 -> exists m e, float_of_int d = Ok (S754_finite false m e).
Proof.
  intros Hd. destruct d as [|p|p]; try lia.
  unfold float_of_int. cbn [binary_normalize].
  destruct (binary_round_int false p) as (M & k & -> & _); [lia|].
  cbn [is_finite]. eauto.
Qed.

(** X25.  What [get_stats] raises on a log whose dates are well formed and
    that has fewer than [2 ^ 50] distinct dates.  It never raises
    [ZeroDivisionError]: the number of days it divides by is at least 1
    whenever it divides.  It raises in exactly one situation: the log is not
    empty and [total_hours_studied] is held as an integer whose quotient by
    the number of distinct dates is too large for a float; the exception is
    the [OverflowError] of that division.  With hours held as a float, or
    absent, nothing is raised.  The [ValueError] of a date that does not
    parse is not part of this statement: the model holds the dates
    parsed. *)
Theorem get_stats_raises_only_overflow sched p e :
  days_active (dflt [] (daily_log p)) < 2 ^ 50 ->
  (run_get_stats sched p = Raise e <->
   (e = OverflowError
    /\ dflt [] (daily_log p) <> []
    /\ exists z,
         total_hours_studied (stats_of p) = Some (PyInt z)
         /\ py_truediv (PyInt z)
              (PyInt (days_active (dflt [] (daily_log p))))
            = Raise OverflowError)).
Proof.
  intros Hdays. rewrite run_get_stats_eq, get_stats_overall_eq.
  destruct (dflt [] (daily_log p)) as [|b t].
  { split; [discriminate|]. intros (_ & Hne & _). contradiction. }
  pose proof (days_active_positive b t) as Hpos.
  rewrite Z.gtb_ltb in Hpos. apply Z.ltb_lt in Hpos.
  unfold bind. split.
  2:{ intros (-> & _ & z & -> & Hq). cbn [dflt]. rewrite Hq. reflexivity. }
  destruct (py_truediv _ _) as [q|e'] eqn:Hq; [discriminate|].
  intros H; inversion H; subst e'.
  destruct (total_hours_studied (stats_of p)) as [[z|f]|]; cbn [dflt] in Hq.
  - pose proof (py_truediv_int_raises z (days_active (b :: t)) e
                  ltac:(lia) Hq) as ->.
    split; [reflexivity|]. split; [discriminate|]. eauto.
  - exfalso. unfold py_truediv, bind in Hq. cbn [to_float] in Hq.
    destruct (float_of_small_int (days_active (b :: t))) as (m & x & Hf);
      [lia|].
    rewrite Hf in Hq. discriminate Hq.
  - exfalso. unfold py_truediv in Hq.
    destruct (days_active (b :: t)) as [|d|d]; try lia.
    cbn [float_of_frac is_finite] in Hq. discriminate Hq.
Qed.

(** A total of [2 ^ 1100] hours, held as an integer, on a log of one day. *)
Definition overflowing_hours_store : Progress :=
  {| start_date := None;
     daily_log := Some [log_entry (at_day day0) "t1" None None];
     overall_stats :=
       Some (set_total_hours_studied (PyInt (2 ^ 1100)) empty_stats);
     phase_progress := None;
     last_updated := None |}.

Lemma get_stats_raises_only_overflow_witness :
  run_get_stats one_task_schedule overflowing_hours_store
  = Raise OverflowError <->
  (OverflowError = OverflowError
   /\ dflt [] (daily_log overflowing_hours_store) <> []
   /\ exists z,
        total_hours_studied (stats_of overflowing_hours_store)
        = Some (PyInt z)
        /\ py_truediv (PyInt z)
             (PyInt (days_active
                       (dflt [] (daily_log overflowing_hours_store))))
           = Raise OverflowError).
Proof.
  apply (get_stats_raises_only_overflow one_task_schedule
           overflowing_hours_store OverflowError).
  vm_compute. reflexivity.
Defined.

Example overflowing_hours_store_raises :
  run_get_stats one_task_schedule overflowing_hours_store
  = Raise OverflowError.
Proof. vm_compute. reflexivity. Qed.
